(** * Expense tracker screens (expo-sqlite-tasks): a shallow embedding

    The repository holds three variants of one React Native screen, all
    in src/unnamed/part_000:

    - [Legacy]  (lines 1-189) the first screen ([saveExpense],
                [deleteExpense], [transformExpensesForChart]);
    - [Screen]  (lines 190-621) the screen with filters, totals and edit
                mode ([handleSubmit], [isInCurrentWeek], [totalSpending],
                ...);
    - [Chart]   (lines 622-934) the same screen with the bar chart, where
                the month classifier has lost its invalid-date guard and
                the grand total is folded over the per-category object.

    JavaScript values are modelled as the language defines them: strings are
    sequences of UTF-16 code units, numbers are IEEE 754 binary64 values
    (Rocq's primitive floats), [Date] follows the time-value algorithms of
    ECMA-262, and a plain object lists its keys in the order of
    [OrdinaryOwnPropertyKeys]. *)

From Stdlib Require Import ZArith NArith List Bool Lia String Ascii.
From Stdlib Require Import Permutation Sorted.
From Stdlib Require Import Floats.
Import ListNotations.

Local Open Scope Z_scope.

(* ================================================================== *)
(** * JavaScript strings *)

Module JsString.

(** A string is a sequence of 16-bit code units. *)
Definition jsstring := list N.

(** An ASCII literal as a JavaScript string. *)
Definition lit (s : string) : jsstring :=
  List.map N_of_ascii (list_ascii_of_string s).

Fixpoint eqb (a b : jsstring) : bool :=
  match a, b with
  | [], [] => true
  | x :: a', y :: b' => N.eqb x y && eqb a' b'
  | _, _ => false
  end.

(** [!s] on a string: only the empty string is falsy. *)
Definition isEmpty (s : jsstring) : bool :=
  match s with [] => true | _ :: _ => false end.

(** WhiteSpace and LineTerminator code units (ECMA-262 12.2, 12.3). *)
Definition isWhiteSpace (c : N) : bool :=
  ((9 <=? c) && (c <=? 13) || (c =? 32) || (c =? 160) || (c =? 5760)
   || (8192 <=? c) && (c <=? 8202) || (c =? 8232) || (c =? 8233)
   || (c =? 8239) || (c =? 8287) || (c =? 12288) || (c =? 65279))%N.

Fixpoint trimStart (s : jsstring) : jsstring :=
  match s with
  | c :: r => if isWhiteSpace c then trimStart r else s
  | [] => []
  end.

Definition trimEnd (s : jsstring) : jsstring := rev (trimStart (rev s)).

(** [String.prototype.trim]. *)
Definition trim (s : jsstring) : jsstring := trimEnd (trimStart s).

(** [String.prototype.slice(0, n)]. *)
Definition slice0 (n : nat) (s : jsstring) : jsstring := firstn n s.

Definition isDigit (c : N) : bool := ((48 <=? c) && (c <=? 57))%N.

Definition digitVal (c : N) : Z := Z.of_N c - 48.

(** The decimal digit [d] (0..9) as a code unit. *)
Definition digitChar (d : Z) : N := Z.to_N (48 + d).

(** Longest prefix of decimal digits, and the rest. *)
Fixpoint spanDigits (s : jsstring) : jsstring * jsstring :=
  match s with
  | c :: r =>
      if isDigit c then let (ds, rest) := spanDigits r in (c :: ds, rest)
      else ([], s)
  | [] => ([], [])
  end.

(** Mathematical value of a digit sequence in base [b]. *)
Definition digitsValue (b : Z) (val : N -> Z) (ds : jsstring) : Z :=
  fold_left (fun acc c => b * acc + val c) ds 0.

Fixpoint stripPrefix (p s : jsstring) : option jsstring :=
  match p, s with
  | [], _ => Some s
  | x :: p', y :: s' => if N.eqb x y then stripPrefix p' s' else None
  | _ :: _, [] => None
  end.

End JsString.

Import JsString.

(* ================================================================== *)
(** * JavaScript numbers *)

Module JsNumber.

(** What the aggregators need of the Number type.  The program runs on
    [binary64] below; statements that use no more of the numbers than
    this interface are made over it. *)
Class Arith (num : Type) := {
  zero : num;                         (* the literal 0 *)
  NaN : num;                          (* Number(undefined) *)
  add : num -> num -> num;            (* x + y on numbers *)
  ToBoolean : num -> bool;            (* truthiness: false for 0, -0, NaN *)
  StringToNumber : jsstring -> num    (* Number(string) *)
}.

(** ** Decimal literals to binary64 *)

Inductive literal :=
| LInfinity
| LDecimal (m e : Z).                 (* m * 10^e, 0 <= m *)

(** Round-to-nearest-even of [(-1)^neg * m * 10^e] (ECMA-262 6.1.6.1). *)
Definition roundDecimal (neg : bool) (m e : Z) : float :=
  match m with
  | Zpos p =>
      if 0 <=? e
      then SF2Prim (binary_round prec emax neg (Z.to_pos (m * 10 ^ e)) 0)
      else SF2Prim (SFdiv prec emax (S754_finite neg p 0)
                      (S754_finite false (Z.to_pos (10 ^ (- e))) 0))
  | _ => if neg then (-0)%float else 0%float
  end.

Definition literalValue (neg : bool) (l : literal) : float :=
  match l with
  | LInfinity => if neg then neg_infinity else infinity
  | LDecimal m e => roundDecimal neg m e
  end.

(** ExponentPart, when the input starts with one: its value and the rest. *)
Definition scanExponent (s : jsstring) : Z * jsstring :=
  match s with
  | c :: r =>
      if ((c =? 101) || (c =? 69))%N then
        match r with
        | sg :: r' =>
            if ((sg =? 43) || (sg =? 45))%N then
              let (ds, rest) := spanDigits r' in
              if isEmpty ds then (0, s)
              else ((if (sg =? 45)%N then -1 else 1)
                    * digitsValue 10 digitVal ds, rest)
            else
              let (ds, rest) := spanDigits r in
              if isEmpty ds then (0, s)
              else (digitsValue 10 digitVal ds, rest)
        | [] => (0, s)
        end
      else (0, s)
  | [] => (0, s)
  end.

(** Longest prefix that is a StrUnsignedDecimalLiteral, and the rest. *)
Definition scanUnsignedDecimal (s : jsstring) : option (literal * jsstring) :=
  match stripPrefix (lit "Infinity") s with
  | Some rest => Some (LInfinity, rest)
  | None =>
      let (ip, r1) := spanDigits s in
      let plain :=
        if isEmpty ip then None
        else
          let (ex, r4) := scanExponent r1 in
          Some (LDecimal (digitsValue 10 digitVal ip) ex, r4) in
      match r1 with
      | c :: r2 =>
          if (c =? 46)%N then
            let (fp, r3) := spanDigits r2 in
            if isEmpty ip && isEmpty fp then None
            else
              let (ex, r4) := scanExponent r3 in
              Some (LDecimal (digitsValue 10 digitVal (ip ++ fp))
                      (ex - Z.of_nat (List.length fp)), r4)
          else plain
      | [] => plain
      end
  end.

(** Longest prefix that is a StrDecimalLiteral: its value and the rest. *)
Definition scanDecimal (s : jsstring) : option (float * jsstring) :=
  let '(neg, body) :=
    match s with
    | c :: r =>
        if (c =? 45)%N then (true, r)
        else if (c =? 43)%N then (false, r)
        else (false, s)
    | [] => (false, s)
    end in
  match scanUnsignedDecimal body with
  | Some (l, rest) => Some (literalValue neg l, rest)
  | None => None
  end.

(** The global [parseFloat] (ECMA-262 19.2.4). *)
Definition parseFloat (s : jsstring) : float :=
  match scanDecimal (trimStart s) with
  | Some (x, _) => x
  | None => nan
  end.

Definition hexVal (c : N) : option Z :=
  if isDigit c then Some (digitVal c)
  else if ((97 <=? c) && (c <=? 102))%N then Some (Z.of_N c - 87)
  else if ((65 <=? c) && (c <=? 70))%N then Some (Z.of_N c - 55)
  else None.

(** Value of a non-empty digit string all of whose digits are below the
    base. *)
Definition radixValue (b : Z) (ds : jsstring) : option Z :=
  if isEmpty ds then None
  else
    fold_left
      (fun acc c =>
         match acc, hexVal c with
         | Some a, Some d => if d <? b then Some (b * a + d) else None
         | _, _ => None
         end) ds (Some 0).

(** NonDecimalIntegerLiteral: 0x, 0o, 0b with either letter case. *)
Definition scanNonDecimal (s : jsstring) : option float :=
  match s with
  | z :: p :: ds =>
      let b :=
        if ((p =? 120) || (p =? 88))%N then 16
        else if ((p =? 111) || (p =? 79))%N then 8
        else if ((p =? 98) || (p =? 66))%N then 2
        else 0 in
      if negb (z =? 48)%N || (b =? 0) then None
      else match radixValue b ds with
           | Some v => Some (roundDecimal false v 0)
           | None => None
           end
  | _ => None
  end.

(** [Number(s)] on a string (StringToNumber, ECMA-262 7.1.4.1.1). *)
Definition stringToNumber (s : jsstring) : float :=
  let t := trim s in
  if isEmpty t then 0%float
  else
    match scanNonDecimal t with
    | Some x => x
    | None =>
        match scanDecimal t with
        | Some (x, []) => x
        | _ => nan
        end
    end.

(** ** Numbers to text *)

(** The integer a double stands for, when it stands for one. *)
Definition integerValue (x : float) : option Z :=
  match Prim2SF x with
  | S754_zero _ => Some 0
  | S754_finite s m e =>
      if 0 <=? e then
        Some ((if s then -1 else 1) * (Zpos m * 2 ^ e))
      else if Zpos m mod 2 ^ (- e) =? 0 then
        Some ((if s then -1 else 1) * (Zpos m / 2 ^ (- e)))
      else None
  | _ => None
  end.

(** Decimal digits of [0 <= n], at most [fuel] of them. *)
Fixpoint decimalDigits (fuel : nat) (n : Z) : jsstring :=
  match fuel with
  | O => []
  | S f =>
      if n <? 10 then [digitChar n]
      else decimalDigits f (n / 10) ++ [digitChar (n mod 10)]
  end.

(** [Number::toString(x)] in radix 10 (ECMA-262 6.1.6.1.20).  NaN, the
    zeros, the infinities and the integers below 2^53 are printed here;
    the shortest digits that read back as any other value are the
    host's to find. *)
Definition NumberToString (host : float -> jsstring) (x : float) : jsstring :=
  if is_nan x then lit "NaN"
  else if (x =? infinity)%float then lit "Infinity"
  else if (x =? neg_infinity)%float then lit "-Infinity"
  else
    match integerValue x with
    | Some n =>
        if Z.abs n <? 9007199254740992 then
          (if n <? 0 then lit "-" else []) ++ decimalDigits 16 (Z.abs n)
        else host x
    | None => host x
    end.

(** The Number type of the platform. *)
#[export] Instance binary64 : Arith float := {
  zero := 0%float;
  NaN := nan;
  add := PrimFloat.add;
  ToBoolean := fun x => negb (is_zero x || is_nan x);
  StringToNumber := stringToNumber
}.

End JsNumber.

Import JsNumber.

(* ================================================================== *)
(** * Values read from a row, and the accumulator object *)

Module JsValue.

(** The values a duck-typed field can hold here. *)
Inductive jsval (num : Type) :=
| JUndefined
| JNull
| JNum (x : num)
| JStr (s : jsstring).

Arguments JUndefined {num}.
Arguments JNull {num}.
Arguments JNum {num} x.
Arguments JStr {num} s.

Section Conversions.
Context {num : Type} `{Arith num}.

(** Truthiness of a value (ToBoolean). *)
Definition truthy (v : jsval num) : bool :=
  match v with
  | JUndefined | JNull => false
  | JNum x => ToBoolean x
  | JStr s => negb (isEmpty s)
  end.

(** [Number(v)] (ToNumber). *)
Definition Number (v : jsval num) : num :=
  match v with
  | JUndefined => NaN
  | JNull => zero
  | JNum x => x
  | JStr s => StringToNumber s
  end.

(** [v || 0]. *)
Definition orZero (v : jsval num) : jsval num :=
  if truthy v then v else JNum zero.

End Conversions.

(** [String(v)] (ToString) of a value read from a row. *)
Definition ToString (host : float -> jsstring) (v : jsval float) : jsstring :=
  match v with
  | JUndefined => lit "undefined"
  | JNull => lit "null"
  | JNum x => NumberToString host x
  | JStr s => s
  end.

End JsValue.

Import JsValue.

Module JsObject.

(** A property of the accumulator holds a number, or a string once [+]
    has concatenated onto something that is not a number; the text of
    such a string is implementation-defined and is not modelled. *)
Inductive propval (num : Type) :=
| PNum (x : num)
| PText.

Arguments PNum {num} x.
Arguments PText {num}.

(** Own properties of an object literal [{}], in creation order. *)
Definition jsobj (num : Type) := list (jsstring * propval num).

(** Members every plain object inherits from [Object.prototype]
    (ECMA-262 20.1.3 and B.2.2). *)
Definition ObjectPrototypeNames : list jsstring :=
  List.map lit
    [ "constructor"; "hasOwnProperty"; "isPrototypeOf";
      "propertyIsEnumerable"; "toLocaleString"; "toString"; "valueOf";
      "__proto__"; "__defineGetter__"; "__defineSetter__";
      "__lookupGetter__"; "__lookupSetter__" ]%string.

Definition inherited (k : jsstring) : bool :=
  existsb (JsString.eqb k) ObjectPrototypeNames.

(** Outcome of reading [o[k]]. *)
Inductive lookup (num : Type) :=
| Absent                       (* undefined *)
| Own (v : propval num)
| Inherited.                   (* a function or object of the prototype *)

Arguments Absent {num}.
Arguments Own {num} v.
Arguments Inherited {num}.

Section Objects.
Context {num : Type} `{Arith num}.

Fixpoint getOwn (o : jsobj num) (k : jsstring) : option (propval num) :=
  match o with
  | [] => None
  | (k', v) :: o' => if JsString.eqb k k' then Some v else getOwn o' k
  end.

(** [o[k]]: own property first, then the prototype. *)
Definition Get (o : jsobj num) (k : jsstring) : lookup num :=
  match getOwn o k with
  | Some v => Own v
  | None => if inherited k then Inherited else Absent
  end.

Fixpoint putOwn (o : jsobj num) (k : jsstring) (v : propval num)
  : jsobj num :=
  match o with
  | [] => [(k, v)]
  | (k', v') :: o' =>
      if JsString.eqb k k' then (k', v) :: o'
      else (k', v') :: putOwn o' k v
  end.

(** [o[k] = v] for a number or string [v].  The inherited accessor
    [__proto__] ignores such a value; any other key becomes (or stays)
    an own property. *)
Definition Put (o : jsobj num) (k : jsstring) (v : propval num)
  : jsobj num :=
  if JsString.eqb k (lit "__proto__") then o else putOwn o k v.

(** [(x || 0) + amt] where [x] was read from the accumulator. *)
Definition orZeroPlus (x : lookup num) (amt : num) : propval num :=
  match x with
  | Absent => PNum (add zero amt)
  | Own (PNum m) => PNum (add (if ToBoolean m then m else zero) amt)
  | Own PText => PText
  | Inherited => PText
  end.

(** [sum + n] in the reducer over [Object.values]. *)
Definition plus (sum n : propval num) : propval num :=
  match sum, n with
  | PNum a, PNum b => PNum (add a b)
  | _, _ => PText
  end.

End Objects.

(** An array index: the canonical decimal text of an integer in
    [0, 2^32 - 2]. *)
Definition arrayIndex (k : jsstring) : option Z :=
  match k with
  | [] => None
  | c :: r =>
      if forallb isDigit k && (negb (c =? 48)%N || isEmpty r) then
        let v := digitsValue 10 digitVal k in
        if v <=? 4294967294 then Some v else None
      else None
  end.

Definition isIndexKey {A} (p : jsstring * A) : bool :=
  match arrayIndex (fst p) with Some _ => true | None => false end.

Definition indexOf {A} (p : jsstring * A) : Z :=
  match arrayIndex (fst p) with Some i => i | None => 0 end.

Fixpoint insertByIndex {A} (p : jsstring * A) (l : list (jsstring * A))
  : list (jsstring * A) :=
  match l with
  | [] => [p]
  | q :: l' =>
      if indexOf p <=? indexOf q then p :: l else q :: insertByIndex p l'
  end.

Definition sortByIndex {A} (l : list (jsstring * A)) : list (jsstring * A) :=
  fold_right insertByIndex [] l.

(** [Object.entries(o)]: array indices in ascending numeric order, then
    the other keys in creation order (OrdinaryOwnPropertyKeys). *)
Definition Object_entries {num} (o : jsobj num)
  : list (jsstring * propval num) :=
  sortByIndex (filter isIndexKey o)
  ++ filter (fun p => negb (isIndexKey p)) o.

Definition Object_keys {num} (o : jsobj num) : list jsstring :=
  List.map fst (Object_entries o).

Definition Object_values {num} (o : jsobj num) : list (propval num) :=
  List.map snd (Object_entries o).

End JsObject.

Import JsObject.

(* ================================================================== *)
(** * Dates (ECMA-262 21.4) *)

Module JsDate.

(** The host.  Its time zone is one without clock changes: local time is
    UTC plus [LocalTZA] milliseconds at every instant (ECMA-262's
    LocalTZA(t, isUTC) is constant in such a zone); a zone with daylight
    saving is outside this model.  [parseOtherFormats] is what
    [Date.parse] makes of a string that is not a calendar date in the
    date-only form [YYYY-MM-DD] (date-time forms and engine-specific
    formats). *)
Record platform := {
  LocalTZA : Z;
  parseOtherFormats : jsstring -> option Z
}.

Definition msPerDay : Z := 86400000.
Definition msPerHour : Z := 3600000.
Definition msPerMinute : Z := 60000.
Definition msPerSecond : Z := 1000.

Definition Day (t : Z) : Z := t / msPerDay.
Definition TimeWithinDay (t : Z) : Z := t mod msPerDay.

Definition DaysInYear (y : Z) : Z :=
  if negb (y mod 4 =? 0) then 365
  else if negb (y mod 100 =? 0) then 366
  else if negb (y mod 400 =? 0) then 365
  else 366.

Definition DayFromYear (y : Z) : Z :=
  365 * (y - 1970) + (y - 1969) / 4 - (y - 1901) / 100 + (y - 1601) / 400.

Definition TimeFromYear (y : Z) : Z := msPerDay * DayFromYear y.

(** The year whose first day is the last one not after day [d]. *)
Definition yearOfDay (d : Z) : Z :=
  let y := 1970 + (400 * d) / 146097 in
  if d <? DayFromYear y then y - 1
  else if DayFromYear (y + 1) <=? d then y + 1
  else y.

Definition YearFromTime (t : Z) : Z := yearOfDay (Day t).

Definition InLeapYear (t : Z) : Z :=
  if DaysInYear (YearFromTime t) =? 366 then 1 else 0.

Definition DayWithinYear (t : Z) : Z := Day t - DayFromYear (YearFromTime t).

(** Days of the year before month [m] (0..11), [leap] being 0 or 1. *)
Definition monthStart (m leap : Z) : Z :=
  if m =? 0 then 0
  else if m =? 1 then 31
  else if m =? 2 then 59 + leap
  else if m =? 3 then 90 + leap
  else if m =? 4 then 120 + leap
  else if m =? 5 then 151 + leap
  else if m =? 6 then 181 + leap
  else if m =? 7 then 212 + leap
  else if m =? 8 then 243 + leap
  else if m =? 9 then 273 + leap
  else if m =? 10 then 304 + leap
  else 334 + leap.

Definition monthOfDay (d leap : Z) : Z :=
  if d <? 31 then 0
  else if d <? 59 + leap then 1
  else if d <? 90 + leap then 2
  else if d <? 120 + leap then 3
  else if d <? 151 + leap then 4
  else if d <? 181 + leap then 5
  else if d <? 212 + leap then 6
  else if d <? 243 + leap then 7
  else if d <? 273 + leap then 8
  else if d <? 304 + leap then 9
  else if d <? 334 + leap then 10
  else 11.

Definition MonthFromTime (t : Z) : Z :=
  monthOfDay (DayWithinYear t) (InLeapYear t).

Definition DateFromTime (t : Z) : Z :=
  DayWithinYear t - monthStart (MonthFromTime t) (InLeapYear t) + 1.

Definition WeekDay (t : Z) : Z := (Day t + 4) mod 7.

Definition HourFromTime (t : Z) : Z := (t / msPerHour) mod 24.
Definition MinFromTime (t : Z) : Z := (t / msPerMinute) mod 60.
Definition SecFromTime (t : Z) : Z := (t / msPerSecond) mod 60.
Definition msFromTime (t : Z) : Z := t mod msPerSecond.

Definition MakeTime (hour min sec ms : Z) : Z :=
  hour * msPerHour + min * msPerMinute + sec * msPerSecond + ms.

Definition MakeDay (year month date : Z) : Z :=
  let ym := year + month / 12 in
  let mn := month mod 12 in
  DayFromYear ym + monthStart mn (if DaysInYear ym =? 366 then 1 else 0)
  + date - 1.

Definition MakeDate (day time : Z) : Z := day * msPerDay + time.

(** [TimeClip]: a time value further than 10^8 days from the epoch is
    not a date. *)
Definition TimeClip (t : Z) : option Z :=
  if Z.abs t <=? 8640000000000000 then Some t else None.

Definition DaysInMonth (y m : Z) : Z :=
  let leap := if DaysInYear y =? 366 then 1 else 0 in
  (if m =? 11 then 365 + leap else monthStart (m + 1) leap)
  - monthStart m leap.

(** ** Text of a date *)

(** [n] written on [k] decimal places. *)
Fixpoint padDigits (k : nat) (n : Z) : jsstring :=
  match k with
  | O => []
  | S k' => padDigits k' (n / 10) ++ [digitChar (n mod 10)]
  end.

Definition yearText (y : Z) : jsstring :=
  if (0 <=? y) && (y <=? 9999) then padDigits 4 y
  else (if y <? 0 then lit "-" else lit "+") ++ padDigits 6 (Z.abs y).

(** The date-only text [YYYY-MM-DD] of year [y], month [m] (1..12) and
    day [d]. *)
Definition isoDate (y m d : Z) : jsstring :=
  padDigits 4 y ++ lit "-" ++ padDigits 2 m ++ lit "-" ++ padDigits 2 d.

(** [Date.prototype.toISOString] on a valid time value. *)
Definition toISOString (t : Z) : jsstring :=
  yearText (YearFromTime t) ++ lit "-"
  ++ padDigits 2 (MonthFromTime t + 1) ++ lit "-"
  ++ padDigits 2 (DateFromTime t) ++ lit "T"
  ++ padDigits 2 (HourFromTime t) ++ lit ":"
  ++ padDigits 2 (MinFromTime t) ++ lit ":"
  ++ padDigits 2 (SecFromTime t) ++ lit "."
  ++ padDigits 3 (msFromTime t) ++ lit "Z".

(** Year, month (1..12) and day of a text of the shape [DDDD-DD-DD]. *)
Definition scanDateOnly (s : jsstring) : option (Z * Z * Z) :=
  match s with
  | [y1; y2; y3; y4; h1; m1; m2; h2; d1; d2] =>
      if forallb isDigit [y1; y2; y3; y4; m1; m2; d1; d2]
         && (h1 =? 45)%N && (h2 =? 45)%N
      then Some (digitsValue 10 digitVal [y1; y2; y3; y4],
                 digitsValue 10 digitVal [m1; m2],
                 digitsValue 10 digitVal [d1; d2])
      else None
  | _ => None
  end.

(** [Date.parse]: a calendar date in date-only form is midnight UTC of
    that day; every other string is left to the host. *)
Definition Date_parse (P : platform) (s : jsstring) : option Z :=
  match scanDateOnly s with
  | Some (y, m, d) =>
      if (1 <=? m) && (m <=? 12) && (1 <=? d) && (d <=? DaysInMonth y (m - 1))
      then Some (MakeDate (MakeDay y (m - 1) d) 0)
      else parseOtherFormats P s
  | None => parseOtherFormats P s
  end.

(** ** Date objects

    A Date object is its time value; [None] is the invalid date (NaN).
    Numbers handed to and from its methods are integers or NaN. *)
Definition Date := option Z.
Definition number := option Z.

Definition bindClip (d : option Z) (f : Z -> Z) : option Z :=
  match d with
  | Some t => TimeClip (f t)
  | None => None
  end.

(** [new Date(s)] for a string [s]. *)
Definition Date_of_string (P : platform) (s : jsstring) : Date :=
  bindClip (Date_parse P s) (fun t => t).

Definition LocalTime (P : platform) (t : Z) : Z := t + LocalTZA P.
Definition UTC (P : platform) (t : Z) : Z := t - LocalTZA P.

Definition getTime (d : Date) : number := d.

Definition getDay (P : platform) (d : Date) : number :=
  option_map (fun t => WeekDay (LocalTime P t)) d.

Definition getDate (P : platform) (d : Date) : number :=
  option_map (fun t => DateFromTime (LocalTime P t)) d.

Definition getMonth (P : platform) (d : Date) : number :=
  option_map (fun t => MonthFromTime (LocalTime P t)) d.

Definition getFullYear (P : platform) (d : Date) : number :=
  option_map (fun t => YearFromTime (LocalTime P t)) d.

(** [d.setDate(dt)], returning the updated object. *)
Definition setDate (P : platform) (d : Date) (dt : number) : Date :=
  match dt with
  | Some n =>
      bindClip d (fun t =>
        let l := LocalTime P t in
        UTC P (MakeDate (MakeDay (YearFromTime l) (MonthFromTime l) n)
                 (TimeWithinDay l)))
  | None => None
  end.

(** [d.setHours(hour, min, sec, ms)], returning the updated object. *)
Definition setHours (P : platform) (d : Date) (hour min sec ms : Z) : Date :=
  bindClip d (fun t =>
    UTC P (MakeDate (Day (LocalTime P t)) (MakeTime hour min sec ms))).

(** Arithmetic on numbers that may be NaN. *)
Definition lift2 (f : Z -> Z -> Z) (a b : number) : number :=
  match a, b with
  | Some x, Some y => Some (f x y)
  | _, _ => None
  end.

(** [a === b] on numbers: NaN equals nothing. *)
Definition strictEq (a b : number) : bool :=
  match a, b with
  | Some x, Some y => x =? y
  | _, _ => false
  end.

(** [a >= b] and [a <= b] on Date objects (compared by time value). *)
Definition geDate (a b : Date) : bool :=
  match a, b with
  | Some x, Some y => y <=? x
  | _, _ => false
  end.

Definition leDate (a b : Date) : bool :=
  match a, b with
  | Some x, Some y => x <=? y
  | _, _ => false
  end.

(** [Number.isNaN(x)] and the global [isNaN(d)] on a Date. *)
Definition isNaN (x : number) : bool :=
  match x with Some _ => false | None => true end.

End JsDate.

Import JsDate.

(* ================================================================== *)
(** * The record store: the [expenses] table behind expo-sqlite *)

Module Store.

(** A row as the screens read it back ([SELECT *]). *)
Record expense (num : Type) := {
  id : Z;
  amount : jsval num;
  category : option jsstring;
  note : option jsstring;
  date : option jsstring
}.

Arguments id {num} e.
Arguments amount {num} e.
Arguments category {num} e.
Arguments note {num} e.
Arguments date {num} e.

(** The four statements the screens send, with their bound values. *)
Inductive statement :=
| INSERT (amount : float) (category : jsstring) (note : option jsstring)
    (date : jsstring)
| UPDATE (amount : float) (category : jsstring) (note : option jsstring)
    (date : jsstring) (id : Z)
| DELETE (id : Z)
| SELECT_ALL.

(** The table, and the largest id given so far (AUTOINCREMENT). *)
Record db := {
  rows : list (expense float);
  seq : Z
}.

(** A double bound to the REAL column [amount] and read back: NaN is
    stored as NULL; a value without fractional part is kept as an integer
    and converted back on reading, which gives the same number except
    that a negative zero returns as 0. *)
Definition bindReal (x : float) : jsval float :=
  if is_nan x then JNull
  else if is_zero x then JNum 0%float
  else JNum x.

Definition setFields (a : float) (c : jsstring) (n : option jsstring)
  (d : jsstring) (i : Z) : expense float :=
  {| id := i; amount := bindReal a; category := Some c; note := n;
     date := Some d |}.

(** The id AUTOINCREMENT gives next: one more than the largest id ever
    given and than every id in the table. *)
Definition nextId (d : db) : Z :=
  fold_right Z.max (seq d) (List.map (fun r => id r) (rows d)) + 1.

Definition exec (s : statement) (d : db) : db :=
  match s with
  | INSERT a c n dt =>
      {| rows := rows d ++ [setFields a c n dt (nextId d)];
         seq := nextId d |}
  | UPDATE a c n dt i =>
      {| rows := List.map (fun r => if id r =? i then setFields a c n dt i
                                    else r) (rows d);
         seq := seq d |}
  | DELETE i =>
      {| rows := filter (fun r => negb (id r =? i)) (rows d);
         seq := seq d |}
  | SELECT_ALL => d
  end.

Fixpoint insertDesc (r : expense float) (l : list (expense float))
  : list (expense float) :=
  match l with
  | [] => [r]
  | r' :: l' => if id r' <=? id r then r :: l else r' :: insertDesc r l'
  end.

(** [SELECT * FROM expenses ORDER BY id DESC]. *)
Definition selectAll (d : db) : list (expense float) :=
  fold_right insertDesc [] (rows d).

(** The store together with the statements sent to it so far. *)
Record world := {
  database : db;
  log : list statement
}.

Definition runAsync (s : statement) (w : world) : world :=
  {| database := exec s (database w); log := log w ++ [s] |}.

Definition getAllAsync (w : world) : list (expense float) * world :=
  (selectAll (database w),
   {| database := database w; log := log w ++ [SELECT_ALL] |}).

(** A create or an update. *)
Definition isWrite (s : statement) : bool :=
  match s with
  | INSERT _ _ _ _ | UPDATE _ _ _ _ _ => true
  | DELETE _ | SELECT_ALL => false
  end.

End Store.

Import Store.

(* ================================================================== *)
(** * The first screen *)

Module Legacy.

Record state := {
  amount : jsstring;
  category : jsstring;
  note : jsstring;
  date : jsstring;
  expenses : list (expense float)
}.

Definition loadExpenses (s : state) (w : world) : state * world :=
  let (rows, w') := getAllAsync w in
  ({| amount := amount s; category := category s; note := note s;
      date := date s; expenses := rows |}, w').

Definition saveExpense (s : state) (w : world) : state * world :=
  if isEmpty (amount s) || isEmpty (category s) || isEmpty (date s)
  then (s, w)
  else
    let w1 :=
      runAsync (INSERT (parseFloat (amount s)) (category s)
                  (Some (note s)) (date s)) w in
    loadExpenses
      {| amount := []; category := []; note := []; date := [];
         expenses := expenses s |} w1.

Definition deleteExpense (id : Z) (s : state) (w : world) : state * world :=
  loadExpenses s (runAsync (DELETE id) w).

Section ChartData.
Context {num : Type} `{Arith num}.

(** The key [totals[category]] addresses: the text itself, or the text
    of [null] for a column read back as NULL. *)
Definition keyOf (c : option jsstring) : jsstring :=
  match c with
  | Some k => k
  | None => lit "null"
  end.

(** [(x || 0) + v] where [x] was read from the accumulator and [v] is
    the amount as the row has it. *)
Definition orZeroPlusValue (x : lookup num) (v : jsval num) : propval num :=
  let left :=
    match x with
    | Absent => PNum zero
    | Own (PNum m) => PNum (if ToBoolean m then m else zero)
    | Own PText => PText
    | Inherited => PText
    end in
  match left, v with
  | PNum a, JNum b => PNum (add a b)
  | PNum a, JNull => PNum (add a zero)
  | PNum a, JUndefined => PNum (add a NaN)
  | PNum _, JStr _ => PText
  | PText, _ => PText
  end.

Definition chartTotals (expenses : list (expense num)) : jsobj num :=
  fold_left
    (fun totals item =>
       let category := keyOf (Store.category item) in
       Put totals category
         (orZeroPlusValue (Get totals category) (Store.amount item)))
    expenses [].

(** The pair [{ labels, values }]. *)
Definition transformExpensesForChart (expenses : list (expense num))
  : list jsstring * list (propval num) :=
  let totals := chartTotals expenses in
  (Object_keys totals, Object_values totals).

End ChartData.

End Legacy.

(* ================================================================== *)
(** * The screen with filters, totals and edit mode *)

Module Screen.

Inductive FILTERS := ALL | WEEK | MONTH.

Record state := {
  expenses : list (expense float);
  amount : jsstring;
  category : jsstring;
  note : jsstring;
  date : jsstring;
  filter : FILTERS;
  editingId : option Z
}.

(** Store date as "YYYY-MM-DD". *)
Definition formatDateForDb (date : Z) : jsstring :=
  slice0 10 (toISOString date).

Definition isInCurrentWeek (P : platform) (clock : Z)
  (dateStr : option jsstring) : bool :=
  match dateStr with
  | None => false
  | Some s =>
      if isEmpty s then false
      else
        let d := Date_of_string P s in
        if isNaN (getTime d) then false
        else
          let now : Date := Some clock in
          (* Make Monday the start of the week *)
          let dayOfWeek :=
            lift2 Z.rem (lift2 Z.add (getDay P now) (Some 6)) (Some 7) in
          let monday := now in
          let monday :=
            setDate P monday (lift2 Z.sub (getDate P now) dayOfWeek) in
          let monday := setHours P monday 0 0 0 0 in
          let sunday := monday in
          let sunday :=
            setDate P sunday (lift2 Z.add (getDate P monday) (Some 6)) in
          let sunday := setHours P sunday 23 59 59 999 in
          geDate d monday && leDate d sunday
  end.

Definition isInCurrentMonth (P : platform) (clock : Z)
  (dateStr : option jsstring) : bool :=
  match dateStr with
  | None => false
  | Some s =>
      if isEmpty s then false
      else
        let d := Date_of_string P s in
        if isNaN (getTime d) then false
        else
          let now : Date := Some clock in
          strictEq (getFullYear P d) (getFullYear P now)
          && strictEq (getMonth P d) (getMonth P now)
  end.

Definition loadExpenses (s : state) (w : world) : state * world :=
  let (rows, w') := getAllAsync w in
  ({| expenses := rows; amount := amount s; category := category s;
      note := note s; date := date s; filter := filter s;
      editingId := editingId s |}, w').

Definition resetForm (s : state) : state :=
  {| expenses := expenses s; amount := []; category := []; note := [];
     date := []; filter := filter s; editingId := None |}.

Definition handleSubmit (clock : Z) (s : state) (w : world) : state * world :=
  let amountNumber := parseFloat (amount s) in
  if is_nan amountNumber || (amountNumber <=? 0)%float then
    (* basic validation *)
    (s, w)
  else
    let trimmedCategory := trim (category s) in
    let trimmedNote := trim (note s) in
    if isEmpty trimmedCategory then (s, w)
    else
      let expenseDate :=
        if isEmpty (trim (date s)) then formatDateForDb clock
        else trim (date s) in
      let noteOrNull :=
        if isEmpty trimmedNote then None else Some trimmedNote in
      let w1 :=
        match editingId s with
        | None =>
            (* ADD (INSERT) *)
            runAsync (INSERT amountNumber trimmedCategory noteOrNull
                        expenseDate) w
        | Some i =>
            (* EDIT (UPDATE) *)
            runAsync (UPDATE amountNumber trimmedCategory noteOrNull
                        expenseDate i) w
        end in
      loadExpenses (resetForm s) w1.

Definition deleteExpense (id : Z) (s : state) (w : world) : state * world :=
  loadExpenses s (runAsync (DELETE id) w).

(** The form takes the item's fields.  A row of the table always has a
    category (the column is NOT NULL); for an item without one the form
    would hold [null], which no state here stands for. *)
Definition startEditing (host : float -> jsstring) (item : expense float)
  (s : state) : option state :=
  match Store.category item with
  | Some c =>
      Some {| expenses := expenses s;
              amount := ToString host (Store.amount item);
              category := c;
              note := match Store.note item with
                      | Some n => n
                      | None => []
                      end;
              date := match Store.date item with
                      | Some d => d
                      | None => []
                      end;
              filter := filter s;
              editingId := Some (id item) |}
  | None => None
  end.

(** === Filtering ===
    Each call of a classifier reads the clock; one reading serves the
    whole pass over the list. *)
Definition filteredExpenses (P : platform) (clock : Z) (s : state)
  : list (expense float) :=
  match filter s with
  | ALL => expenses s
  | WEEK =>
      List.filter (fun e => isInCurrentWeek P clock (Store.date e))
        (expenses s)
  | MONTH =>
      List.filter (fun e => isInCurrentMonth P clock (Store.date e))
        (expenses s)
  end.

(** === Totals === *)
Section Totals.
Context {num : Type} `{Arith num}.

Definition totalSpending (filteredExpenses : list (expense num)) : num :=
  fold_left
    (fun sum e => add sum (Number (orZero (Store.amount e))))
    filteredExpenses zero.

Definition categoryOr (fallback : jsstring) (e : expense num) : jsstring :=
  match Store.category e with
  | Some c => if isEmpty c then fallback else c
  | None => fallback
  end.

Definition totalsByCategory (filteredExpenses : list (expense num))
  : jsobj num :=
  fold_left
    (fun map e =>
       let cat := categoryOr (lit "Uncategorized") e in
       let amt := Number (orZero (Store.amount e)) in
       Put map cat (orZeroPlus (Get map cat) amt))
    filteredExpenses [].

End Totals.

End Screen.

(* ================================================================== *)
(** * The screen with the bar chart *)

Module Chart.

Import Screen.

Definition formatDateForDb (date : Z) : jsstring :=
  slice0 10 (toISOString date).

Definition isInCurrentWeek (P : platform) (clock : Z)
  (dateStr : option jsstring) : bool :=
  match dateStr with
  | None => false
  | Some s =>
      if isEmpty s then false
      else
        let d := Date_of_string P s in
        if isNaN d then false
        else
          let now : Date := Some clock in
          let dayOfWeek :=
            lift2 Z.rem (lift2 Z.add (getDay P now) (Some 6)) (Some 7) in
          let monday := now in
          let monday :=
            setDate P monday (lift2 Z.sub (getDate P now) dayOfWeek) in
          let monday := setHours P monday 0 0 0 0 in
          let sunday := monday in
          let sunday :=
            setDate P sunday (lift2 Z.add (getDate P monday) (Some 6)) in
          let sunday := setHours P sunday 23 59 59 999 in
          geDate d monday && leDate d sunday
  end.

(** No invalid-date guard here: the getters of an invalid date give NaN. *)
Definition isInCurrentMonth (P : platform) (clock : Z)
  (dateStr : option jsstring) : bool :=
  match dateStr with
  | None => false
  | Some s =>
      if isEmpty s then false
      else
        let d := Date_of_string P s in
        let now : Date := Some clock in
        strictEq (getFullYear P d) (getFullYear P now)
        && strictEq (getMonth P d) (getMonth P now)
  end.

Definition handleSubmit (clock : Z) (s : state) (w : world) : state * world :=
  let amountNum := parseFloat (amount s) in
  if is_nan amountNum || (amountNum <=? 0)%float then (s, w)
  else if isEmpty (trim (category s)) then (s, w)
  else
    let finalDate :=
      if isEmpty (trim (date s)) then formatDateForDb clock
      else trim (date s) in
    let w1 :=
      match editingId s with
      | None =>
          runAsync (INSERT amountNum (category s) (Some (note s)) finalDate) w
      | Some i =>
          (* [!editingId] also holds for the number 0 *)
          if i =? 0 then
            runAsync (INSERT amountNum (category s) (Some (note s)) finalDate)
              w
          else
            runAsync (UPDATE amountNum (category s) (Some (note s))
                        finalDate i) w
      end in
    loadExpenses (resetForm s) w1.

Definition deleteExpense (id : Z) (s : state) (w : world) : state * world :=
  loadExpenses s (runAsync (DELETE id) w).

Definition startEditing (host : float -> jsstring) (expense : expense float)
  (s : state) : option state :=
  match Store.category expense with
  | Some c =>
      Some {| expenses := expenses s;
              amount := ToString host (Store.amount expense);
              category := c;
              note := match Store.note expense with
                      | Some n => n
                      | None => []
                      end;
              date := match Store.date expense with
                      | Some d => d
                      | None => []
                      end;
              filter := filter s;
              editingId := Some (id expense) |}
  | None => None
  end.

Definition filteredExpenses (P : platform) (clock : Z) (s : state)
  : list (expense float) :=
  match filter s with
  | WEEK =>
      List.filter (fun e => isInCurrentWeek P clock (Store.date e))
        (expenses s)
  | MONTH =>
      List.filter (fun e => isInCurrentMonth P clock (Store.date e))
        (expenses s)
  | ALL => expenses s
  end.

Section Totals.
Context {num : Type} `{Arith num}.

Definition totalsByCategory (filteredExpenses : list (expense num))
  : jsobj num :=
  fold_left
    (fun map e =>
       let cat := categoryOr (lit "Other") e in
       Put map cat (orZeroPlus (Get map cat) (Number (Store.amount e))))
    filteredExpenses [].

Definition totalSpending (filteredExpenses : list (expense num))
  : propval num :=
  fold_left (fun sum n => plus sum n)
    (Object_values (totalsByCategory filteredExpenses)) (PNum zero).

End Totals.

End Chart.


(* ================================================================== *)
(** * Vocabulary of the statements below *)

Module Spec.

(** ** Calendar *)

Definition leapOf (y : Z) : Z := if DaysInYear y =? 366 then 1 else 0.

(** The date-only text [YYYY-MM-DD] of the UTC day of time value [t]. *)
Definition dateText (t : Z) : jsstring :=
  isoDate (YearFromTime t) (MonthFromTime t + 1) (DateFromTime t).

(** A clock between 1970-01-01 and 9999-12-31, both at 00:00 UTC. *)
Definition plausibleClock (clock : Z) : Prop :=
  0 <= clock <= 253402214400000.

(** Day number (local calendar) of the Monday on or before "now":
    now minus ((weekday(now) + 6) mod 7) days. *)
Definition mondayDay (P : platform) (clock : Z) : Z :=
  Day (LocalTime P clock) - (WeekDay (LocalTime P clock) + 6) mod 7.

(** Monday 00:00:00.000 and Sunday 23:59:59.999, local time, as time
    values. *)
Definition weekStart (P : platform) (clock : Z) : Z :=
  UTC P (MakeDate (mondayDay P clock) 0).

Definition weekEnd (P : platform) (clock : Z) : Z :=
  UTC P (MakeDate (mondayDay P clock + 6) (MakeTime 23 59 59 999)).

(** The two Date objects the week classifier builds. *)
Definition weekBounds (P : platform) (clock : Z) : Date * Date :=
  let now : Date := Some clock in
  let dayOfWeek := lift2 Z.rem (lift2 Z.add (getDay P now) (Some 6)) (Some 7) in
  let monday :=
    setHours P (setDate P now (lift2 Z.sub (getDate P now) dayOfWeek)) 0 0 0 0 in
  let sunday :=
    setHours P (setDate P monday (lift2 Z.add (getDate P monday) (Some 6)))
      23 59 59 999 in
  (monday, sunday).

(** Same calendar year and month in local time. *)
Definition sameMonth (P : platform) (t clock : Z) : Prop :=
  YearFromTime (LocalTime P t) = YearFromTime (LocalTime P clock)
  /\ MonthFromTime (LocalTime P t) = MonthFromTime (LocalTime P clock).

(** ** Aggregation *)

Definition mem (k : jsstring) (l : list jsstring) : bool :=
  existsb (JsString.eqb k) l.

(** The distinct elements of a list, each at its first occurrence. *)
Fixpoint firstSeen (l : list jsstring) : list jsstring :=
  match l with
  | [] => []
  | k :: r => k :: filter (fun x => negb (JsString.eqb x k)) (firstSeen r)
  end.

Definition firstSeenFrom (acc l : list jsstring) : list jsstring :=
  fold_left (fun acc k => if mem k acc then acc else acc ++ [k]) l acc.

(** A label that is neither a member of [Object.prototype] nor an array
    index. *)
Definition plainKey (k : jsstring) : Prop :=
  inherited k = false /\ arrayIndex k = None.

Definition labelled {num} (e : expense num) : Prop :=
  match Store.category e with
  | Some c => plainKey c
  | None => True
  end.

(** A label that is not the name of a member of [Object.prototype]. *)
Definition safeLabel {num} (e : expense num) : Prop :=
  match Store.category e with
  | Some c => inherited c = false
  | None => True
  end.

Section Sums.
Context {num : Type} `{Arith num}.

(** Left-to-right sum starting from 0. *)
Definition sumLeft (l : list num) : num := fold_left add l zero.

(** What a record adds to the direct total: [Number(e.amount || 0)]. *)
Definition contribution (e : expense num) : num :=
  Number (orZero (Store.amount e)).

(** What the grouping loop leaves under a key: each amount is added to
    [m || 0], where [m] is the value so far. *)
Definition runningSum (l : list num) : num :=
  fold_left (fun m a => add (if ToBoolean m then m else zero) a) l zero.

(** [m || 0] is [m]: a number other than NaN and the negative zero. *)
Definition steady (m : num) : Prop :=
  (if ToBoolean m then m else zero) = m.

(** The partial sums of the left-to-right sum of [l] from [a]. *)
Fixpoint partialSumsFrom (a : num) (l : list num) : list num :=
  match l with
  | [] => []
  | x :: r => add a x :: partialSumsFrom (add a x) r
  end.

Definition partialSums (l : list num) : list num := partialSumsFrom zero l.

(** The amounts of the records labelled [c], in input order. *)
Definition amountsOf (catOf : expense num -> jsstring)
  (amtOf : expense num -> num) (c : jsstring) (es : list (expense num))
  : list num :=
  List.map amtOf (filter (fun e => JsString.eqb (catOf e) c) es).

(** The grouping loop of both screens, from an accumulator [o]. *)
Definition accumulate (catOf : expense num -> jsstring)
  (amtOf : expense num -> num) (o : jsobj num) (es : list (expense num))
  : jsobj num :=
  fold_left
    (fun map e =>
       Put map (catOf e) (orZeroPlus (Get map (catOf e)) (amtOf e))) es o.

Definition ownLookup (cur : option (propval num)) : lookup num :=
  match cur with Some v => Own v | None => Absent end.

Definition step (cur : option (propval num)) (a : num)
  : option (propval num) :=
  Some (orZeroPlus (ownLookup cur) a).

Definition isNaNTotal (v : propval float) : bool :=
  match v with PNum x => is_nan x | PText => false end.

(** ** Whole amounts *)

Definition sumZ (zs : list Z) : Z := fold_right Z.add 0 zs.

Definition sumAbs (zs : list Z) : Z :=
  fold_right (fun z s => Z.abs z + s) 0 zs.

(** [ofZ] writes the whole multiples of a unit as numbers, and up to [B]
    units the arithmetic adds them without rounding. *)
Definition exactUpTo (ofZ : Z -> num) (B : Z) : Prop :=
  ofZ 0 = zero
  /\ (forall a, a <> 0 -> Z.abs a <= B -> ToBoolean (ofZ a) = true)
  /\ (forall a b,
        Z.abs a <= B -> Z.abs b <= B -> Z.abs (a + b) <= B ->
        add (ofZ a) (ofZ b) = ofZ (a + b)).

(** An accumulator whose values are whole amounts. *)
Definition wholeObject (ofZ : Z -> num) (io : list (jsstring * Z))
  : jsobj num :=
  List.map (fun p => (fst p, PNum (ofZ (snd p)))) io.

(** The amounts of [es] are the numbers [ofZ z] for [z] in [zs], in
    order. *)
Definition wholeAmounts (ofZ : Z -> num) (zs : list Z)
  (es : list (expense num)) : Prop :=
  List.map (fun e => Store.amount e) es
  = List.map (fun z => JNum (ofZ z)) zs.

End Sums.

End Spec.

Import Spec.

(* ================================================================== *)
(** * Concrete inputs *)

Module Examples.

(** A host five hours west of Greenwich all year (as Bogota or Lima are)
    and one an hour east of it (as Lagos or Algiers); both reject every
    string that is not a date-only calendar date. *)
Definition west : platform :=
  {| LocalTZA := -18000000; parseOtherFormats := fun _ => None |}.

Definition east : platform :=
  {| LocalTZA := 3600000; parseOtherFormats := fun _ => None |}.

(** Wednesday 2024-01-17 17:00:00 UTC and Thursday 2024-02-15 17:00:00
    UTC. *)
Definition wednesday : Z := 1705510800000.
Definition midFebruary : Z := 1708016400000.

(** Thursday 2024-01-18 01:00:00 UTC: still Wednesday evening, 20:00,
    five hours west of Greenwich. *)
Definition lateEvening : Z := 1705539600000.

(** A whole number as a binary64 value (the nearest one). *)
Definition wholeNumber (z : Z) : float :=
  roundDecimal (z <? 0) (Z.abs z) 0.

(** The number of binary digits of a positive whole number. *)
Definition bitLength (p : positive) : Z := Zpos (digits2_pos p).

(** The normal binary64 form of [(-1)^s * q], for [q] of at most 53
    binary digits: the digits of [q] moved to the top of the 53-bit
    mantissa. *)
Definition normalForm (s : bool) (q : positive) : spec_float :=
  S754_finite s (Z.to_pos (Zpos q * 2 ^ (53 - bitLength q)))
    (bitLength q - 53).

(** The binary64 value of a whole number below 2^53, as the float
    library writes it. *)
Definition wholeSF (z : Z) : spec_float :=
  match z with
  | Z0 => S754_zero false
  | Zpos p => normalForm false p
  | Zneg p => normalForm true p
  end.

(** A row whose amount is the number written [a]. *)
Definition entry (i : Z) (a c : string) : expense float :=
  {| id := i; amount := JNum (parseFloat (lit a)); category := Some (lit c);
     note := None; date := Some (lit "2024-01-17") |}.

Definition withAmount (i : Z) (v : jsval float) (c : string) : expense float :=
  {| id := i; amount := v; category := Some (lit c); note := None;
     date := Some (lit "2024-01-17") |}.

(** The aggregation example of the specification. *)
Definition foodAndRent : list (expense float) :=
  [entry 3 "10" "Food"; entry 2 "5" "Food"; entry 1 "3" "Rent"].

Definition rounding : list (expense float) :=
  [entry 3 "1.1" "A"; entry 2 "2.2" "B"; entry 1 "3.3" "A"].

Definition numberedLabel : list (expense float) :=
  [entry 2 "10" "Food"; entry 1 "5" "7"].

Definition textAmount : list (expense float) :=
  [entry 2 "5" "Food"; withAmount 1 (JStr (lit "abc")) "Food"].

(** Amounts that cancel to NaN before a third one. *)
Definition cancelling : list (expense float) :=
  [entry 3 "Infinity" "Food"; entry 2 "-Infinity" "Food"; entry 1 "5" "Food"].

(** A label that names a member of [Object.prototype]. *)
Definition inheritedLabel : list (expense float) :=
  [entry 1 "5" "constructor"].

Definition badDates : list (expense float) :=
  [ {| id := 2; amount := JNum (parseFloat (lit "4")); category := Some (lit "Food");
       note := None; date := Some (lit "yesterday") |};
    {| id := 1; amount := JNum (parseFloat (lit "6")); category := Some (lit "Rent");
       note := None; date := None |} ].

Definition emptyWorld : world :=
  {| database := {| rows := []; seq := 0 |}; log := [] |}.

Definition form (a c n d : string) (editing : option Z) : Screen.state :=
  {| Screen.expenses := []; Screen.amount := lit a; Screen.category := lit c;
     Screen.note := lit n; Screen.date := lit d; Screen.filter := Screen.ALL;
     Screen.editingId := editing |}.

Definition legacyForm (a c n d : string) : Legacy.state :=
  {| Legacy.amount := lit a; Legacy.category := lit c; Legacy.note := lit n;
     Legacy.date := lit d; Legacy.expenses := [] |}.

End Examples.

(* ================================================================== *)
(** * A session on the screen with filters *)

Module Session.

Import Screen.

(** What the user can do, as the JSX binds it: typing in one of the four
    inputs, the three filter buttons, the submit button, "Cancel Edit",
    and the two buttons of a row of the list.  A handler runs to its end
    before the next event is taken.  [rendered] is the clock reading of
    the render that drew the list. *)
Inductive event :=
| ChangeAmount (text : jsstring)
| ChangeCategory (text : jsstring)
| ChangeNote (text : jsstring)
| ChangeDate (text : jsstring)
| PressFilter (f : FILTERS)
| PressSubmit (clock : Z)
| PressCancel
| PressEdit (rendered : Z) (row : nat)
| PressDelete (rendered : Z) (row : nat).

Definition setAmount (text : jsstring) (s : state) : state :=
  {| expenses := expenses s; amount := text; category := category s;
     note := note s; date := date s; filter := filter s;
     editingId := editingId s |}.

Definition setCategory (text : jsstring) (s : state) : state :=
  {| expenses := expenses s; amount := amount s; category := text;
     note := note s; date := date s; filter := filter s;
     editingId := editingId s |}.

Definition setNote (text : jsstring) (s : state) : state :=
  {| expenses := expenses s; amount := amount s; category := category s;
     note := text; date := date s; filter := filter s;
     editingId := editingId s |}.

Definition setDate (text : jsstring) (s : state) : state :=
  {| expenses := expenses s; amount := amount s; category := category s;
     note := note s; date := text; filter := filter s;
     editingId := editingId s |}.

Definition setFilter (f : FILTERS) (s : state) : state :=
  {| expenses := expenses s; amount := amount s; category := category s;
     note := note s; date := date s; filter := f;
     editingId := editingId s |}.

(** One event.  A button that is not on the screen (a row past the end
    of the list, "Cancel Edit" in add mode) cannot be pressed: nothing
    happens.  [None]: the form has taken a value that is no string. *)
Definition dispatch (P : platform) (host : float -> jsstring) (e : event)
  (sw : state * world) : option (state * world) :=
  let (s, w) := sw in
  match e with
  | ChangeAmount text => Some (setAmount text s, w)
  | ChangeCategory text => Some (setCategory text s, w)
  | ChangeNote text => Some (setNote text s, w)
  | ChangeDate text => Some (setDate text s, w)
  | PressFilter f => Some (setFilter f s, w)
  | PressSubmit clock => Some (handleSubmit clock s w)
  | PressCancel =>
      match editingId s with
      | Some _ => Some (resetForm s, w)
      | None => Some (s, w)
      end
  | PressEdit rendered row =>
      match nth_error (filteredExpenses P rendered s) row with
      | Some item =>
          match startEditing host item s with
          | Some s' => Some (s', w)
          | None => None
          end
      | None => Some (s, w)
      end
  | PressDelete rendered row =>
      match nth_error (filteredExpenses P rendered s) row with
      | Some item => Some (deleteExpense (id item) s w)
      | None => Some (s, w)
      end
  end.

(** The events of a session, one after the other. *)
Definition run (P : platform) (host : float -> jsstring) (evs : list event)
  (sw : state * world) : option (state * world) :=
  fold_left
    (fun acc e =>
       match acc with
       | Some sw' => dispatch P host e sw'
       | None => None
       end)
    evs (Some sw).

End Session.

(* ================================================================== *)
(** * Vocabulary of the properties of the table and of a session *)

Module Invariants.

(** Not empty, and with no white space at either end. *)
Definition trimmed (t : jsstring) : bool :=
  negb (isEmpty t) && JsString.eqb (trim t) t.

(** A number above zero. *)
Definition aboveZero (v : jsval float) : bool :=
  match v with
  | JNum a => negb (is_nan a || (a <=? 0)%float)
  | _ => false
  end.

(** A row as the screen with filters writes it. *)
Definition validRow (r : expense float) : bool :=
  aboveZero (Store.amount r)
  && match Store.category r with Some c => trimmed c | None => false end
  && match Store.note r with Some n => trimmed n | None => true end
  && match Store.date r with Some d => trimmed d | None => false end.

(** A row as the screen with the chart writes it: the category and the
    note are stored as typed. *)
Definition chartRow (r : expense float) : bool :=
  aboveZero (Store.amount r)
  && match Store.category r with
     | Some c => negb (isEmpty (trim c))
     | None => false
     end
  && match Store.note r with Some _ => true | None => false end
  && match Store.date r with Some d => trimmed d | None => false end.

Definition ids (d : db) : list Z := List.map (fun r => id r) (rows d).

(** The primary key: no id twice, none above the AUTOINCREMENT counter. *)
Definition keyed (d : db) : Prop :=
  NoDup (ids d) /\ Forall (fun i => i <= seq d) (ids d).

Definition tableOk (d : db) : Prop :=
  keyed d /\ Forall (fun r => validRow r = true) (rows d).

(** The table as the screen with the chart keeps it: ids start at 1. *)
Definition chartOk (d : db) : Prop :=
  keyed d /\ 0 <= seq d
  /\ Forall (fun r => chartRow r = true /\ 0 < id r) (rows d).

(** Larger ids first. *)
Definition newestFirst (l : list (expense float)) : Prop :=
  Sorted (fun a b => id b < id a) l.

(** The list on the screen is the table, newest first. *)
Definition inSync (sw : Screen.state * world) : Prop :=
  Screen.expenses (fst sw) = selectAll (database (snd sw)).

(** The form after a submit that went through. *)
Definition cleared (s s' : Screen.state) : Prop :=
  Screen.amount s' = [] /\ Screen.category s' = [] /\ Screen.note s' = []
  /\ Screen.date s' = [] /\ Screen.editingId s' = None
  /\ Screen.filter s' = Screen.filter s.

(** The form passes the checks of [handleSubmit]. *)
Definition accepted (s : Screen.state) : bool :=
  negb (is_nan (parseFloat (Screen.amount s))
        || (parseFloat (Screen.amount s) <=? 0)%float)
  && negb (isEmpty (trim (Screen.category s))).

(** [trimmedNote || null]. *)
Definition noteOrNull (s : Screen.state) : option jsstring :=
  if isEmpty (trim (Screen.note s)) then None
  else Some (trim (Screen.note s)).

(** The date the handlers bind: the trimmed field, or today's. *)
Definition dateOrToday (clock : Z) (s : Screen.state) : jsstring :=
  if isEmpty (trim (Screen.date s)) then Screen.formatDateForDb clock
  else trim (Screen.date s).

(** The row a submit of the screen with filters writes under id [i]. *)
Definition written (clock : Z) (s : Screen.state) (i : Z) : expense float :=
  setFields (parseFloat (Screen.amount s)) (trim (Screen.category s))
    (noteOrNull s) (dateOrToday clock s) i.

(** The text of a note in the form: [note || ""]. *)
Definition noteText (r : expense float) : jsstring :=
  match Store.note r with Some n => n | None => [] end.

End Invariants.

Import Invariants.

(* ================================================================== *)
(** * Concrete sessions *)

Module Scenarios.

Import Examples.

(** A host on UTC. *)
Definition greenwich : platform :=
  {| LocalTZA := 0; parseOtherFormats := fun _ => None |}.

(** A host that prints no digits of its own. *)
Definition noDigits : float -> jsstring := fun _ => [].

Definition lunch : expense float :=
  {| id := 1; amount := JNum (parseFloat (lit "12")); category := Some (lit "Food");
     note := Some (lit "lunch"); date := Some (lit "2024-01-17") |}.

Definition rent : expense float :=
  {| id := 2; amount := JNum (parseFloat (lit "800")); category := Some (lit "Rent");
     note := None; date := Some (lit "2024-01-01") |}.

Definition twoRows : world :=
  {| database := {| rows := [lunch; rent]; seq := 2 |}; log := [] |}.

Definition blankForm : Screen.state := form "" "" "" "" None.

End Scenarios.

(* ================================================================== *)
(** * The platform model on concrete inputs *)

Section Checks.

Example parseFloat_decimal : parseFloat (lit "12.50") = 12.5%float.
Proof. vm_compute. reflexivity. Qed.

Example parseFloat_prefix : parseFloat (lit "  7px") = 7%float.
Proof. vm_compute. reflexivity. Qed.

Example parseFloat_text : is_nan (parseFloat (lit "abc")) = true.
Proof. vm_compute. reflexivity. Qed.

Example parseFloat_empty : is_nan (parseFloat []) = true.
Proof. vm_compute. reflexivity. Qed.

(** A positive literal too small for binary64 parses to 0. *)
Example parseFloat_underflow : parseFloat (lit "1e-400") = 0%float.
Proof. vm_compute. reflexivity. Qed.

Example parseFloat_infinity : parseFloat (lit "1e400") = infinity.
Proof. vm_compute. reflexivity. Qed.

Example stringToNumber_blank : stringToNumber (lit "  ") = 0%float.
Proof. vm_compute. reflexivity. Qed.

Example stringToNumber_suffix : is_nan (stringToNumber (lit "7px")) = true.
Proof. vm_compute. reflexivity. Qed.

Example stringToNumber_hex : stringToNumber (lit "0x1F") = 31%float.
Proof. vm_compute. reflexivity. Qed.

Example trim_both_ends : trim (lit "  a b  ") = lit "a b".
Proof. vm_compute. reflexivity. Qed.

Example toISOString_leap_day :
  toISOString 1709210096789 = lit "2024-02-29T12:34:56.789Z".
Proof. vm_compute. reflexivity. Qed.

Example toISOString_before_epoch :
  toISOString (-1) = lit "1969-12-31T23:59:59.999Z".
Proof. vm_compute. reflexivity. Qed.

Example toISOString_five_digit_year :
  toISOString 253402300800000 = lit "+010000-01-01T00:00:00.000Z".
Proof. vm_compute. reflexivity. Qed.

Example Date_parse_date_only :
  Date_parse Examples.west (lit "2024-01-15") = Some 1705276800000.
Proof. vm_compute. reflexivity. Qed.

Example WeekDay_of_a_monday : WeekDay 1705276800000 = 1.
Proof. vm_compute. reflexivity. Qed.

(** Not a calendar date: left to the host, which here rejects it. *)
Example Date_parse_february_30 :
  Date_parse Examples.west (lit "2024-02-30") = None.
Proof. vm_compute. reflexivity. Qed.

Example arrayIndex_canonical :
  arrayIndex (lit "7") = Some 7 /\ arrayIndex (lit "07") = None
  /\ arrayIndex (lit "4294967295") = None.
Proof. repeat split; vm_compute; reflexivity. Qed.

Example selectAll_newest_first :
  List.map (fun r => id r)
    (selectAll {| rows := [Examples.entry 1 "3" "Rent";
                           Examples.entry 3 "10" "Food";
                           Examples.entry 2 "5" "Food"];
                  seq := 3 |})
  = [3; 2; 1].
Proof. vm_compute. reflexivity. Qed.

End Checks.

(* ================================================================== *)
(** * The calendar *)

Section Calendar.

Lemma DayFromYear_succ y : DayFromYear (y + 1) = DayFromYear y + DaysInYear y.
Proof.
  unfold DayFromYear, DaysInYear.
  destruct (Z.eqb_spec (y mod 4) 0), (Z.eqb_spec (y mod 100) 0),
    (Z.eqb_spec (y mod 400) 0); cbn [negb];
    Z.div_mod_to_equations; lia.
Qed.

Lemma DaysInYear_cases y : DaysInYear y = 365 \/ DaysInYear y = 366.
Proof.
  unfold DaysInYear.
  destruct (y mod 4 =? 0), (y mod 100 =? 0), (y mod 400 =? 0); cbn; auto.
Qed.

Lemma leapOf_cases y :
  (leapOf y = 0 /\ DaysInYear y = 365) \/ (leapOf y = 1 /\ DaysInYear y = 366).
Proof.
  unfold leapOf. destruct (DaysInYear_cases y) as [E|E]; rewrite E; cbn; auto.
Qed.

Lemma DayFromYear_lower y k :
  0 <= k -> DayFromYear y + 365 * k <= DayFromYear (y + k).
Proof. intros Hk. unfold DayFromYear. Z.div_mod_to_equations. lia. Qed.

Lemma DayFromYear_mono y y' : y <= y' -> DayFromYear y <= DayFromYear y'.
Proof.
  intros Hle. pose proof (DayFromYear_lower y (y' - y)) as L.
  replace (y + (y' - y)) with y' in L by lia. lia.
Qed.

(** [yearOfDay] is the year the ECMA-262 definition asks for. *)
Lemma yearOfDay_spec d :
  DayFromYear (yearOfDay d) <= d < DayFromYear (yearOfDay d + 1).
Proof.
  unfold yearOfDay.
  set (y := 1970 + 400 * d / 146097).
  destruct (Z.ltb_spec d (DayFromYear y)) as [H1|H1].
  - replace (y - 1 + 1) with y by lia. split; [|lia].
    subst y. unfold DayFromYear in *. Z.div_mod_to_equations. lia.
  - destruct (Z.leb_spec (DayFromYear (y + 1)) d) as [H2|H2]; [|lia].
    split; [lia|].
    subst y. unfold DayFromYear in *. Z.div_mod_to_equations. lia.
Qed.

Lemma year_range_of_day n :
  DayFromYear 0 <= n < DayFromYear 10000 -> 0 <= yearOfDay n <= 9999.
Proof.
  intros [A B]. pose proof (yearOfDay_spec n) as [S1 S2]. split.
  - destruct (Z.le_gt_cases 0 (yearOfDay n)); auto.
    pose proof (DayFromYear_mono (yearOfDay n + 1) 0 ltac:(lia)). lia.
  - destruct (Z.le_gt_cases (yearOfDay n) 9999); auto.
    pose proof (DayFromYear_mono 10000 (yearOfDay n) ltac:(lia)). lia.
Qed.

Lemma DayWithinYear_bounds t :
  0 <= DayWithinYear t < DaysInYear (YearFromTime t).
Proof.
  unfold DayWithinYear, YearFromTime.
  pose proof (yearOfDay_spec (Day t)) as [A B].
  rewrite DayFromYear_succ in B. lia.
Qed.

Lemma month_cases m :
  0 <= m <= 11 ->
  m = 0 \/ m = 1 \/ m = 2 \/ m = 3 \/ m = 4 \/ m = 5 \/ m = 6 \/ m = 7
  \/ m = 8 \/ m = 9 \/ m = 10 \/ m = 11.
Proof. lia. Qed.

Ltac each_month C := repeat (destruct C as [C|C]; [subst|]); [..|subst].

Ltac split_ltb :=
  repeat match goal with
         | |- context [if ?a <? ?b then _ else _] =>
             destruct (Z.ltb_spec a b); try lia
         end.

Lemma monthOfDay_bounds d leap : 0 <= monthOfDay d leap <= 11.
Proof. unfold monthOfDay. split_ltb. Qed.

Lemma MonthFromTime_bounds t : 0 <= MonthFromTime t <= 11.
Proof. apply monthOfDay_bounds. Qed.

Lemma monthStart_monthOfDay d leap :
  0 <= d -> d < 365 + leap -> leap = 0 \/ leap = 1 ->
  monthStart (monthOfDay d leap) leap <= d
  /\ d < (if monthOfDay d leap =? 11 then 365 + leap
          else monthStart (monthOfDay d leap + 1) leap).
Proof.
  intros H0 H1 Hl. unfold monthOfDay.
  destruct Hl; subst leap; split_ltb; cbn in *; lia.
Qed.

Lemma InLeapYear_eq t : InLeapYear t = leapOf (YearFromTime t).
Proof. reflexivity. Qed.

Lemma DateFromTime_bounds t :
  1 <= DateFromTime t <= DaysInMonth (YearFromTime t) (MonthFromTime t).
Proof.
  unfold DateFromTime, DaysInMonth, MonthFromTime.
  pose proof (DayWithinYear_bounds t) as B.
  rewrite InLeapYear_eq. fold (leapOf (YearFromTime t)).
  destruct (leapOf_cases (YearFromTime t)) as [[E1 E2]|[E1 E2]];
    rewrite E1, E2 in *;
    [ pose proof (monthStart_monthOfDay (DayWithinYear t) 0) as M
    | pose proof (monthStart_monthOfDay (DayWithinYear t) 1) as M ];
    lia.
Qed.

Lemma DaysInMonth_range y m : 0 <= m <= 11 -> 28 <= DaysInMonth y m <= 31.
Proof.
  intros Hm. unfold DaysInMonth. fold (leapOf y).
  pose proof (month_cases m Hm) as C.
  destruct (leapOf_cases y) as [[E _]|[E _]]; rewrite E; each_month C;
    cbn; lia.
Qed.

Lemma MakeDay_in_month y m k :
  0 <= m <= 11 ->
  MakeDay y m k = DayFromYear y + monthStart m (leapOf y) + k - 1.
Proof.
  intros Hm. unfold MakeDay.
  replace (m / 12) with 0 by (Z.div_mod_to_equations; lia).
  replace (m mod 12) with m by (Z.div_mod_to_equations; lia).
  rewrite Z.add_0_r. reflexivity.
Qed.

(** Stepping the day of the month by [k] steps the day number by [k],
    across month and year ends. *)
Lemma MakeDay_of_time t k :
  MakeDay (YearFromTime t) (MonthFromTime t) (DateFromTime t + k) = Day t + k.
Proof.
  rewrite MakeDay_in_month by apply MonthFromTime_bounds.
  unfold DateFromTime, DayWithinYear. rewrite InLeapYear_eq. lia.
Qed.

Lemma Day_MakeDate n tm : 0 <= tm < msPerDay -> Day (MakeDate n tm) = n.
Proof.
  unfold Day, MakeDate, msPerDay. intros Htm. Z.div_mod_to_equations. lia.
Qed.

Lemma Day_decompose t : t = Day t * msPerDay + TimeWithinDay t.
Proof. unfold Day, TimeWithinDay, msPerDay. Z.div_mod_to_equations. lia. Qed.

Lemma YearFromTime_day t u : Day t = Day u -> YearFromTime t = YearFromTime u.
Proof. unfold YearFromTime. congruence. Qed.

End Calendar.

(* ================================================================== *)
(** * Date text and parsing *)

Section DateText.

Lemma isEmpty_false_iff (s : jsstring) : isEmpty s = false <-> s <> [].
Proof. destruct s; cbn; split; intros; congruence. Qed.

Lemma isDigit_digitChar n : isDigit (digitChar (n mod 10)) = true.
Proof.
  unfold isDigit, digitChar.
  assert (0 <= n mod 10 < 10) by (apply Z.mod_pos_bound; lia).
  apply andb_true_intro; split; apply N.leb_le; lia.
Qed.

Lemma digitVal_digitChar n : digitVal (digitChar (n mod 10)) = n mod 10.
Proof.
  unfold digitVal, digitChar.
  assert (0 <= n mod 10 < 10) by (apply Z.mod_pos_bound; lia).
  lia.
Qed.

(** Reading back a date-only text. *)
Lemma scanDateOnly_isoDate y m d :
  0 <= y <= 9999 -> 0 <= m <= 99 -> 0 <= d <= 99 ->
  scanDateOnly (isoDate y m d) = Some (y, m, d).
Proof.
  intros Hy Hm Hd. unfold isoDate.
  cbn [padDigits app]. change (lit "-"%string) with [45%N]. cbn [app].
  unfold scanDateOnly. cbn [forallb].
  rewrite !isDigit_digitChar. cbn [andb N.eqb Pos.eqb].
  unfold digitsValue. cbn [fold_left]. rewrite !digitVal_digitChar.
  f_equal. f_equal; [f_equal|]; Z.div_mod_to_equations; lia.
Qed.

Lemma isoDate_nonempty y m d : isoDate y m d <> [].
Proof.
  unfold isoDate. cbn [padDigits app].
  destruct (padDigits 0 (y / 10 / 10 / 10 / 10)); discriminate.
Qed.

(** The first ten code units of the ISO text, for a four-digit year. *)
Lemma slice_toISOString t :
  0 <= YearFromTime t <= 9999 -> slice0 10 (toISOString t) = dateText t.
Proof.
  intros Hy. unfold toISOString, yearText, dateText, isoDate, slice0.
  replace ((0 <=? YearFromTime t) && (YearFromTime t <=? 9999)) with true
    by (symmetry; apply andb_true_intro; split; apply Z.leb_le; lia).
  cbn [padDigits app]. change (lit "-"%string) with [45%N]. cbn [app firstn].
  reflexivity.
Qed.

(** A real calendar date in date-only form parses to midnight UTC. *)
Lemma Date_parse_isoDate P y m d :
  0 <= y <= 9999 -> 0 <= m <= 11 -> 1 <= d <= DaysInMonth y m ->
  Date_parse P (isoDate y (m + 1) d) = Some (MakeDate (MakeDay y m d) 0).
Proof.
  intros Hy Hm Hd. unfold Date_parse.
  pose proof (DaysInMonth_range y m Hm).
  rewrite scanDateOnly_isoDate by lia.
  replace (m + 1 - 1) with m by lia.
  replace ((1 <=? m + 1) && (m + 1 <=? 12) && (1 <=? d)
           && (d <=? DaysInMonth y m)) with true; [reflexivity|].
  symmetry. repeat (apply andb_true_intro; split); apply Z.leb_le; lia.
Qed.

Lemma Date_parse_dateText P t :
  0 <= YearFromTime t <= 9999 ->
  Date_parse P (dateText t) = Some (Day t * msPerDay).
Proof.
  intros Hy. unfold dateText.
  rewrite Date_parse_isoDate;
    auto using MonthFromTime_bounds, DateFromTime_bounds.
  pose proof (MakeDay_of_time t 0) as E. rewrite Z.add_0_r in E. rewrite E.
  unfold MakeDate. f_equal. lia.
Qed.

Lemma TimeClip_in_range t :
  Z.abs t <= 8640000000000000 -> TimeClip t = Some t.
Proof.
  intros Hr. unfold TimeClip. apply Z.leb_le in Hr. rewrite Hr. reflexivity.
Qed.

Lemma Date_of_string_dateText P t :
  0 <= YearFromTime t <= 9999 ->
  Date_of_string P (dateText t) = Some (Day t * msPerDay).
Proof.
  intros Hy. unfold Date_of_string. rewrite Date_parse_dateText by assumption.
  unfold bindClip. apply TimeClip_in_range.
  unfold YearFromTime in Hy.
  pose proof (yearOfDay_spec (Day t)) as [A B].
  pose proof (DayFromYear_mono 0 (yearOfDay (Day t)) ltac:(lia)).
  pose proof (DayFromYear_mono (yearOfDay (Day t) + 1) 10000 ltac:(lia)).
  change (DayFromYear 0) with (-719528) in *.
  change (DayFromYear 10000) with 2932897 in *.
  unfold msPerDay. lia.
Qed.

End DateText.

(* ================================================================== *)
(** * The week classifier *)

Section Week.

Variable P : platform.
Variable clock : Z.

Lemma weekStart_bounds :
  clock - 7 * msPerDay < weekStart P clock <= clock.
Proof.
  unfold weekStart, mondayDay, UTC, MakeDate, WeekDay, LocalTime, Day, msPerDay.
  Z.div_mod_to_equations. lia.
Qed.

Lemma weekEnd_eq : weekEnd P clock = weekStart P clock + 7 * msPerDay - 1.
Proof.
  unfold weekEnd, weekStart, UTC, MakeDate, MakeTime, msPerDay, msPerHour,
    msPerMinute, msPerSecond. lia.
Qed.

Lemma setDate_shift t k :
  setDate P (Some t) (Some (DateFromTime (LocalTime P t) + k))
  = TimeClip (t + k * msPerDay).
Proof.
  unfold setDate, bindClip. f_equal.
  rewrite MakeDay_of_time. unfold UTC, MakeDate.
  pose proof (Day_decompose (LocalTime P t)). unfold LocalTime in *. lia.
Qed.

Lemma setHours_value t h m s ms :
  setHours P (Some t) h m s ms
  = TimeClip (UTC P (MakeDate (Day (LocalTime P t)) (MakeTime h m s ms))).
Proof. reflexivity. Qed.

(** What [monday] and [sunday] hold when the comparison is made. *)
Lemma weekBounds_value :
  plausibleClock clock ->
  weekBounds P clock = (Some (weekStart P clock), Some (weekEnd P clock)).
Proof.
  intros Hc. unfold plausibleClock in Hc.
  pose proof weekStart_bounds as WB.
  pose proof weekEnd_eq as WE.
  unfold weekBounds. cbn [getDay getDate option_map lift2].
  set (l := LocalTime P clock).
  assert (Hrem : Z.rem (WeekDay l + 6) 7 = (WeekDay l + 6) mod 7).
  { apply Z.rem_mod_nonneg; [|lia]. unfold WeekDay.
    pose proof (Z.mod_pos_bound (Day l + 4) 7 ltac:(lia)). lia. }
  rewrite Hrem.
  set (dow := (WeekDay l + 6) mod 7).
  assert (Hdow : 0 <= dow < 7) by (apply Z.mod_pos_bound; lia).
  replace (DateFromTime l - dow) with (DateFromTime l + - dow) by lia.
  subst l. rewrite setDate_shift.
  rewrite TimeClip_in_range by (unfold msPerDay in *; lia).
  rewrite setHours_value.
  assert (D1 : Day (LocalTime P (clock + - dow * msPerDay)) = mondayDay P clock).
  { unfold mondayDay. fold dow. unfold LocalTime, Day, msPerDay.
    Z.div_mod_to_equations. lia. }
  rewrite D1. change (MakeTime 0 0 0 0) with 0. fold (weekStart P clock).
  rewrite TimeClip_in_range by (unfold msPerDay in *; lia).
  cbn [getDate option_map lift2].
  rewrite setDate_shift.
  rewrite TimeClip_in_range by (unfold msPerDay in *; lia).
  rewrite setHours_value.
  assert (D2 : Day (LocalTime P (weekStart P clock + 6 * msPerDay))
               = mondayDay P clock + 6).
  { unfold weekStart, UTC, LocalTime, MakeDate, Day, msPerDay.
    Z.div_mod_to_equations. lia. }
  rewrite D2. fold (weekEnd P clock).
  rewrite TimeClip_in_range by (unfold msPerDay in *; lia).
  reflexivity.
Qed.

Lemma mondayDay_is_monday :
  WeekDay (LocalTime P (weekStart P clock)) = 1
  /\ mondayDay P clock <= Day (LocalTime P clock) <= mondayDay P clock + 6.
Proof.
  unfold weekStart, LocalTime, UTC.
  replace (MakeDate (mondayDay P clock) 0 - LocalTZA P + LocalTZA P)
    with (MakeDate (mondayDay P clock) 0) by lia.
  unfold WeekDay. rewrite Day_MakeDate by (unfold msPerDay; lia).
  unfold mondayDay, WeekDay, LocalTime.
  set (d := Day (clock + LocalTZA P)). Z.div_mod_to_equations. lia.
Qed.

Lemma week_unfold s :
  Screen.isInCurrentWeek P clock (Some s)
  = if isEmpty s then false
    else if isNaN (Date_of_string P s) then false
    else geDate (Date_of_string P s) (fst (weekBounds P clock))
         && leDate (Date_of_string P s) (snd (weekBounds P clock)).
Proof.
  unfold Screen.isInCurrentWeek, weekBounds, getTime. cbv zeta. cbn [fst snd].
  reflexivity.
Qed.

Lemma week_chart_eq s :
  Chart.isInCurrentWeek P clock s = Screen.isInCurrentWeek P clock s.
Proof.
  unfold Chart.isInCurrentWeek, Screen.isInCurrentWeek, getTime. reflexivity.
Qed.

Lemma week_iff s :
  plausibleClock clock ->
  Screen.isInCurrentWeek P clock (Some s) = true <->
  s <> [] /\ exists t, Date_of_string P s = Some t
                       /\ weekStart P clock <= t <= weekEnd P clock.
Proof.
  intros Hc. rewrite week_unfold, (weekBounds_value Hc). cbn [fst snd].
  destruct s as [|c s']; cbn [isEmpty].
  - split; [discriminate|]. intros [H _]. congruence.
  - destruct (Date_of_string P (c :: s')) as [t|]; cbn [isNaN geDate leDate].
    + rewrite andb_true_iff, !Z.leb_le. split.
      * intros [A B]. split; [discriminate|]. exists t. auto.
      * intros [_ [t' [E [A B]]]]. inversion E; subst. auto.
    + split; [discriminate|]. intros [_ [t' [E _]]]. discriminate.
Qed.

End Week.

(* ================================================================== *)
(** * The month classifier *)

Section Month.

Variable P : platform.

Lemma month_iff clock s :
  Screen.isInCurrentMonth P clock (Some s) = true <->
  s <> [] /\ exists t, Date_of_string P s = Some t /\ sameMonth P t clock.
Proof.
  unfold Screen.isInCurrentMonth, sameMonth, getTime. cbv zeta.
  destruct s as [|c s']; cbn [isEmpty].
  - split; [discriminate|]. intros [H _]. congruence.
  - destruct (Date_of_string P (c :: s')) as [t|];
      cbn [isNaN getFullYear getMonth option_map strictEq].
    + rewrite andb_true_iff, !Z.eqb_eq. split.
      * intros [A B]. split; [discriminate|]. exists t. auto.
      * intros [_ [t' [E [A B]]]]. inversion E; subst. auto.
    + split; [discriminate|]. intros [_ [t' [E _]]]. discriminate.
Qed.

(** The guard dropped by the chart screen changes no answer. *)
Lemma month_chart_eq clock s :
  Chart.isInCurrentMonth P clock s = Screen.isInCurrentMonth P clock s.
Proof.
  unfold Chart.isInCurrentMonth, Screen.isInCurrentMonth, getTime. cbv zeta.
  destruct s as [s|]; [|reflexivity].
  destruct (isEmpty s); [reflexivity|].
  destruct (Date_of_string P s); reflexivity.
Qed.

End Month.

(* ================================================================== *)
(** * Keys and values of the accumulator *)

Section Keys.

Lemma jsstring_eqb_eq a b : JsString.eqb a b = true <-> a = b.
Proof.
  revert b. induction a as [|x a IH]; destruct b as [|y b]; cbn; split;
    try congruence.
  - intros E. apply andb_true_iff in E. destruct E as [E1 E2].
    apply N.eqb_eq in E1. apply IH in E2. congruence.
  - intros E. inversion E; subst. rewrite N.eqb_refl. cbn. apply IH.
    reflexivity.
Qed.

Lemma jsstring_eqb_refl a : JsString.eqb a a = true.
Proof. apply jsstring_eqb_eq. reflexivity. Qed.

Lemma jsstring_eqb_sym a b : JsString.eqb a b = JsString.eqb b a.
Proof.
  destruct (JsString.eqb a b) eqn:E1, (JsString.eqb b a) eqn:E2; auto.
  - apply jsstring_eqb_eq in E1. subst. rewrite jsstring_eqb_refl in E2.
    discriminate.
  - apply jsstring_eqb_eq in E2. subst. rewrite jsstring_eqb_refl in E1.
    discriminate.
Qed.

Lemma filter_twice {A} (f g : A -> bool) l :
  filter f (filter g l) = filter (fun x => g x && f x) l.
Proof.
  induction l as [|x l IH]; cbn; auto.
  destruct (g x); cbn; [destruct (f x)|]; rewrite IH; reflexivity.
Qed.

Lemma firstSeenFrom_spec l : forall acc,
  firstSeenFrom acc l = acc ++ filter (fun x => negb (mem x acc)) (firstSeen l).
Proof.
  induction l as [|k l IH]; intros acc; cbn.
  - rewrite app_nil_r. reflexivity.
  - fold (firstSeenFrom (if mem k acc then acc else acc ++ [k]) l).
    rewrite IH. destruct (mem k acc) eqn:M; cbn.
    + f_equal. rewrite filter_twice. apply filter_ext_in. intros x _.
      destruct (JsString.eqb x k) eqn:E; cbn; auto.
      apply jsstring_eqb_eq in E. subst. rewrite M. reflexivity.
    + rewrite <- app_assoc. cbn. f_equal. f_equal.
      rewrite filter_twice. apply filter_ext. intros x.
      unfold mem. rewrite existsb_app. cbn. rewrite orb_false_r, negb_orb.
      apply andb_comm.
Qed.

Lemma firstSeenFrom_nil l : firstSeenFrom [] l = firstSeen l.
Proof.
  rewrite firstSeenFrom_spec. cbn.
  induction (firstSeen l) as [|x r IH]; cbn; [reflexivity|]. now rewrite IH.
Qed.

Lemma firstSeen_In l k : In k (firstSeen l) <-> In k l.
Proof.
  induction l as [|x l IH]; cbn; [tauto|].
  rewrite filter_In, IH. split.
  - intros [E|[I _]]; auto.
  - intros [E|I]; auto. destruct (JsString.eqb k x) eqn:E.
    + apply jsstring_eqb_eq in E. auto.
    + right. split; auto.
Qed.

Lemma isIndexKey_plain {A} (p : jsstring * A) :
  arrayIndex (fst p) = None -> isIndexKey p = false.
Proof. unfold isIndexKey. intros E. rewrite E. reflexivity. Qed.

(** Without array indices among the keys, the enumeration order is the
    creation order. *)
Lemma Object_entries_plain {num} (o : jsobj num) :
  Forall (fun p => arrayIndex (fst p) = None) o -> Object_entries o = o.
Proof.
  intros Ho. unfold Object_entries.
  induction Ho as [|p o Hp Ho IH]; [reflexivity|].
  cbn [filter]. rewrite (isIndexKey_plain p Hp). cbn [negb].
  destruct (filter isIndexKey o) as [|q r] eqn:E.
  - cbn [sortByIndex fold_right app] in *. now rewrite IH.
  - exfalso.
    assert (In q (filter isIndexKey o)) as I by (rewrite E; left; reflexivity).
    apply filter_In in I. destruct I as [I Q].
    rewrite Forall_forall in Ho. rewrite (isIndexKey_plain q (Ho q I)) in Q.
    discriminate.
Qed.

Lemma insertByIndex_perm {A} (p : jsstring * A) l :
  Permutation (insertByIndex p l) (p :: l).
Proof.
  induction l as [|q l IH]; cbn; auto.
  destruct (indexOf p <=? indexOf q); auto.
  eapply perm_trans; [apply perm_skip, IH|apply perm_swap].
Qed.

Lemma sortByIndex_perm {A} (l : list (jsstring * A)) :
  Permutation (sortByIndex l) l.
Proof.
  induction l as [|p l IH]; cbn; auto.
  eapply perm_trans; [apply insertByIndex_perm|]. auto.
Qed.

Lemma filter_partition_perm {A} (f : A -> bool) l :
  Permutation (filter f l ++ filter (fun x => negb (f x)) l) l.
Proof.
  induction l as [|x l IH]; cbn; auto.
  destruct (f x); cbn; auto.
  eapply perm_trans; [apply Permutation_sym, Permutation_middle|]. auto.
Qed.

(** In any case the enumeration is a rearrangement of the properties. *)
Lemma Object_entries_perm {num} (o : jsobj num) :
  Permutation (Object_entries o) o.
Proof.
  unfold Object_entries.
  eapply perm_trans; [|apply (filter_partition_perm isIndexKey)].
  apply Permutation_app_tail, sortByIndex_perm.
Qed.

End Keys.

Section Accumulator.

Context {num : Type} `{Arith num}.
Variable catOf : expense num -> jsstring.
Variable amtOf : expense num -> num.

Lemma Put_safe (o : jsobj num) k v :
  inherited k = false -> Put o k v = putOwn o k v.
Proof.
  intros Hk. unfold Put.
  destruct (JsString.eqb k (lit "__proto__")) eqn:E; auto.
  apply jsstring_eqb_eq in E. subst k. discriminate Hk.
Qed.

Lemma Get_safe (o : jsobj num) k :
  inherited k = false -> Get o k = ownLookup (getOwn o k).
Proof.
  intros Hk. unfold Get. rewrite Hk. destruct (getOwn o k); reflexivity.
Qed.

Lemma getOwn_putOwn (o : jsobj num) k v k' :
  getOwn (putOwn o k v) k' = if JsString.eqb k' k then Some v else getOwn o k'.
Proof.
  induction o as [|[k0 v0] o IH]; cbn.
  - reflexivity.
  - destruct (JsString.eqb k k0) eqn:E; cbn.
    + apply jsstring_eqb_eq in E. subst k0.
      destruct (JsString.eqb k' k); reflexivity.
    + rewrite IH. destruct (JsString.eqb k' k0) eqn:E0; auto.
      destruct (JsString.eqb k' k) eqn:E1; auto.
      apply jsstring_eqb_eq in E0, E1. subst.
      rewrite jsstring_eqb_refl in E. discriminate.
Qed.

Lemma keys_putOwn (o : jsobj num) k v :
  List.map fst (putOwn o k v)
  = if mem k (List.map fst o) then List.map fst o else List.map fst o ++ [k].
Proof.
  induction o as [|[k0 v0] o IH]; cbn.
  - reflexivity.
  - unfold mem in *. destruct (JsString.eqb k k0) eqn:E; cbn.
    + reflexivity.
    + rewrite IH.
      destruct (existsb (JsString.eqb k) (List.map fst o)); reflexivity.
Qed.

Lemma accumulate_cons (o : jsobj num) e es :
  accumulate catOf amtOf o (e :: es)
  = accumulate catOf amtOf
      (Put o (catOf e) (orZeroPlus (Get o (catOf e)) (amtOf e))) es.
Proof. reflexivity. Qed.

Lemma keys_accumulate es : forall o,
  Forall (fun e => inherited (catOf e) = false) es ->
  List.map fst (accumulate catOf amtOf o es)
  = firstSeenFrom (List.map fst o) (List.map catOf es).
Proof.
  induction es as [|e es IH]; intros o Hs.
  - reflexivity.
  - inversion Hs as [|? ? He Hes]; subst.
    rewrite accumulate_cons, IH by assumption.
    rewrite Put_safe, keys_putOwn by assumption. reflexivity.
Qed.

Lemma values_accumulate c es : forall o,
  Forall (fun e => inherited (catOf e) = false) es ->
  getOwn (accumulate catOf amtOf o es) c
  = fold_left step (amountsOf catOf amtOf c es) (getOwn o c).
Proof.
  induction es as [|e es IH]; intros o Hs.
  - reflexivity.
  - inversion Hs as [|? ? He Hes]; subst.
    rewrite accumulate_cons, IH by assumption.
    rewrite Put_safe, Get_safe, getOwn_putOwn by assumption.
    unfold amountsOf. cbn [filter]. rewrite (jsstring_eqb_sym c (catOf e)).
    destruct (JsString.eqb (catOf e) c) eqn:E; cbn [List.map fold_left].
    + apply jsstring_eqb_eq in E. subst c. reflexivity.
    + reflexivity.
Qed.

Lemma fold_step_num l : forall m,
  fold_left step l (Some (PNum m))
  = Some (PNum (fold_left
                  (fun m a => add (if ToBoolean m then m else zero) a) l m)).
Proof.
  induction l as [|a l IH]; intros m; cbn; [reflexivity|].
  unfold step at 2. cbn. apply IH.
Qed.

Lemma fold_step_none l :
  l <> [] -> fold_left step l None = Some (PNum (runningSum l)).
Proof.
  destruct l as [|a l]; [congruence|]. intros _. cbn [fold_left].
  unfold step at 2. cbn [ownLookup orZeroPlus]. rewrite fold_step_num.
  unfold runningSum. cbn [fold_left]. destruct (ToBoolean zero); reflexivity.
Qed.

Lemma amountsOf_nonempty c es :
  In c (List.map catOf es) -> amountsOf catOf amtOf c es <> [].
Proof.
  intros I. apply in_map_iff in I. destruct I as [e [E I]].
  unfold amountsOf. intros C. apply map_eq_nil in C.
  assert (In e (filter (fun e0 => JsString.eqb (catOf e0) c) es)) as F.
  { apply filter_In. split; auto. apply jsstring_eqb_eq. assumption. }
  rewrite C in F. destruct F.
Qed.

(** Keys come out in order of first encounter. *)
Lemma keys_of_accumulate es :
  Forall (fun e => plainKey (catOf e)) es ->
  Object_keys (accumulate catOf amtOf [] es) = firstSeen (List.map catOf es).
Proof.
  intros Hp.
  assert (Hs : Forall (fun e => inherited (catOf e) = false) es).
  { eapply Forall_impl; [|exact Hp]. intros e [A _]. exact A. }
  pose proof (keys_accumulate es [] Hs) as K. cbn [List.map] in K.
  rewrite firstSeenFrom_nil in K.
  unfold Object_keys. rewrite Object_entries_plain; [exact K|].
  apply Forall_forall. intros p Ip.
  assert (In (fst p) (firstSeen (List.map catOf es))) as I
      by (rewrite <- K; apply in_map; exact Ip).
  apply firstSeen_In, in_map_iff in I. destruct I as [e [E I]].
  rewrite Forall_forall in Hp. destruct (Hp e I) as [_ B]. congruence.
Qed.

(** Each value is the running sum of its category's amounts. *)
Lemma value_of_accumulate es c :
  Forall (fun e => inherited (catOf e) = false) es ->
  In c (List.map catOf es) ->
  getOwn (accumulate catOf amtOf [] es) c
  = Some (PNum (runningSum (amountsOf catOf amtOf c es))).
Proof.
  intros Hs Ic. rewrite values_accumulate by assumption. cbn [getOwn].
  apply fold_step_none, amountsOf_nonempty, Ic.
Qed.

End Accumulator.

(* ================================================================== *)
(** * The key set of the accumulator *)

Section KeysOfTotals.

Context {num E : Type}.
Variable key : E -> jsstring.
Variable val : jsobj num -> E -> propval num.

Lemma mem_spec k l : mem k l = true <-> In k l.
Proof.
  unfold mem. rewrite existsb_exists. split.
  - intros [x [Hx Ex]]. apply jsstring_eqb_eq in Ex. subst. exact Hx.
  - intro H. exists k. split; [exact H | apply jsstring_eqb_refl].
Qed.

Lemma keys_Put_In (o : jsobj num) k v x :
  In x (List.map fst (Put o k v))
  <-> In x (List.map fst o) \/ (x = k /\ k <> lit "__proto__").
Proof.
  unfold Put. destruct (JsString.eqb k (lit "__proto__")) eqn:Ep.
  - apply jsstring_eqb_eq in Ep. tauto.
  - assert (k <> lit "__proto__").
    { intro Ek. rewrite Ek, jsstring_eqb_refl in Ep. discriminate. }
    rewrite keys_putOwn. destruct (mem k (List.map fst o)) eqn:Em.
    + apply mem_spec in Em. split; [tauto|]. intros [Hx|[-> _]]; assumption.
    + rewrite in_app_iff. simpl. split.
      * intros [Hx|[<-|[]]]; tauto.
      * intros [Hx|[-> _]]; tauto.
Qed.

Lemma keys_Put_NoDup (o : jsobj num) k v :
  NoDup (List.map fst o) -> NoDup (List.map fst (Put o k v)).
Proof.
  intro N. unfold Put. destruct (JsString.eqb k (lit "__proto__")); [exact N|].
  rewrite keys_putOwn. destruct (mem k (List.map fst o)) eqn:Em; [exact N|].
  apply NoDup_app; [exact N | repeat constructor; simpl; tauto |].
  intros x Hx [<-|[]]. apply mem_spec in Hx. congruence.
Qed.

Lemma keys_of_fold es (o : jsobj num) :
  NoDup (List.map fst o) ->
  NoDup (List.map fst (fold_left (fun m e => Put m (key e) (val m e)) es o))
  /\ forall x,
       In x (List.map fst
               (fold_left (fun m e => Put m (key e) (val m e)) es o))
       <-> In x (List.map fst o)
           \/ (x <> lit "__proto__" /\ exists e, In e es /\ key e = x).
Proof.
  revert o. induction es as [|e es IH]; intros o N; simpl.
  - split; [exact N|]. intro x. split; [tauto|].
    intros [H|[_ [e [[] _]]]]. exact H.
  - destruct (IH (Put o (key e) (val o e)) (keys_Put_NoDup _ _ _ N))
      as [N' K]. split; [exact N'|]. intro x. rewrite K, keys_Put_In.
    split.
    + intros [[H|[-> Hp]]|[Hp [e' [He' Ek]]]].
      * left. exact H.
      * right. split; [exact Hp|]. exists e. auto.
      * right. split; [exact Hp|]. exists e'. auto.
    + intros [H|[Hp [e' [[<-|He'] Ek]]]].
      * left. left. exact H.
      * left. right. split; congruence.
      * right. split; [exact Hp|]. exists e'. auto.
Qed.

Lemma Object_keys_of_fold es :
  NoDup (Object_keys
           (fold_left (fun m e => Put m (key e) (val m e)) es []))
  /\ forall x,
       In x (Object_keys
               (fold_left (fun m e => Put m (key e) (val m e)) es []))
       <-> x <> lit "__proto__" /\ exists e, In e es /\ key e = x.
Proof.
  destruct (keys_of_fold es [] (NoDup_nil _)) as [N K].
  assert (P : Permutation
                (Object_keys
                   (fold_left (fun m e => Put m (key e) (val m e)) es []))
                (List.map fst
                   (fold_left (fun m e => Put m (key e) (val m e)) es [])))
    by (apply Permutation_map, Object_entries_perm).
  split.
  - eapply Permutation_NoDup; [apply Permutation_sym, P | exact N].
  - intro x. split.
    + intro H. apply (Permutation_in _ P), K in H. simpl in H. tauto.
    + intro H. apply (Permutation_in _ (Permutation_sym P)), K. tauto.
Qed.

End KeysOfTotals.

Lemma keys_values_length {num} (o : jsobj num) :
  List.length (Object_values o) = List.length (Object_keys o).
Proof. unfold Object_values, Object_keys. rewrite !length_map. reflexivity. Qed.

(* ================================================================== *)
(** * Sums by category *)

Section Grouped.

Context {num : Type} `{Arith num}.
Variable catOf : expense num -> jsstring.
Variable amtOf : expense num -> num.

Lemma steady_zero : steady (@zero num _).
Proof. unfold steady. destruct (ToBoolean zero); reflexivity. Qed.

Lemma fold_steady l : forall a,
  steady a -> Forall steady (partialSumsFrom a l) ->
  fold_left (fun m x => add (if ToBoolean m then m else zero) x) l a
  = fold_left add l a.
Proof.
  induction l as [|x l IH]; intros a Sa F; [reflexivity|].
  cbn [partialSumsFrom] in F. inversion F as [|? ? S1 F1]; subst.
  cbn [fold_left]. unfold steady in Sa. rewrite Sa. apply IH; assumption.
Qed.

(** Where no partial sum is NaN or the negative zero, a key holds the
    plain left-to-right sum. *)
Lemma runningSum_steady l :
  Forall steady (partialSums l) -> runningSum l = sumLeft l.
Proof. intro F. apply fold_steady; [apply steady_zero | exact F]. Qed.

Lemma getOwn_In (o : jsobj num) k v :
  NoDup (List.map fst o) -> In (k, v) o -> getOwn o k = Some v.
Proof.
  induction o as [|[k0 v0] o IH]; cbn [List.map fst getOwn]; intros N I.
  - destruct I.
  - inversion N as [|? ? Hk N']; subst. destruct I as [E|I].
    + inversion E; subst. rewrite jsstring_eqb_refl. reflexivity.
    + destruct (JsString.eqb k k0) eqn:Ek.
      * apply jsstring_eqb_eq in Ek. subst k0. exfalso. apply Hk.
        apply in_map_iff. exists (k, v). auto.
      * apply IH; assumption.
Qed.

Lemma accumulate_keys_NoDup es :
  NoDup (List.map fst (accumulate catOf amtOf [] es)).
Proof.
  apply (keys_of_fold catOf
           (fun m e => orZeroPlus (Get m (catOf e)) (amtOf e)) es []).
  constructor.
Qed.

Lemma accumulate_keys_labels es k :
  In k (List.map fst (accumulate catOf amtOf [] es)) ->
  In k (List.map catOf es).
Proof.
  intro I.
  apply (keys_of_fold catOf
           (fun m e => orZeroPlus (Get m (catOf e)) (amtOf e)) es []
           (NoDup_nil _)) in I.
  destruct I as [[]|[_ [e [He Ek]]]]. apply in_map_iff. eauto.
Qed.

(** The values of the mapping, key by key. *)
Lemma values_by_key es :
  Forall (fun e => inherited (catOf e) = false) es ->
  Object_values (accumulate catOf amtOf [] es)
  = List.map (fun k => PNum (runningSum (amountsOf catOf amtOf k es)))
      (Object_keys (accumulate catOf amtOf [] es)).
Proof.
  intro Hs. unfold Object_values, Object_keys. rewrite map_map.
  apply map_ext_in. intros [k v] I. cbn [fst snd].
  assert (Io : In (k, v) (accumulate catOf amtOf [] es))
    by (eapply Permutation_in; [apply Object_entries_perm | exact I]).
  pose proof (getOwn_In _ k v (accumulate_keys_NoDup es) Io) as G.
  assert (Ik : In k (List.map catOf es)).
  { apply accumulate_keys_labels. apply in_map_iff. exists (k, v). auto. }
  rewrite (value_of_accumulate catOf amtOf es k Hs Ik) in G. congruence.
Qed.

Lemma fold_plus_numbers (l : list num) : forall a,
  fold_left (fun sum n => plus sum n) (List.map PNum l) (PNum a)
  = PNum (fold_left add l a).
Proof.
  induction l as [|x l IH]; intro a; [reflexivity|]. cbn. apply IH.
Qed.

(** The total folded over the mapping: the sum, key by key in the order
    the mapping lists them, of each key's sum. *)
Lemma total_by_key es :
  Forall (fun e => inherited (catOf e) = false) es ->
  (forall c, Forall steady (partialSums (amountsOf catOf amtOf c es))) ->
  fold_left (fun sum n => plus sum n)
    (Object_values (accumulate catOf amtOf [] es)) (PNum zero)
  = PNum (sumLeft
            (List.map (fun c => sumLeft (amountsOf catOf amtOf c es))
               (Object_keys (accumulate catOf amtOf [] es)))).
Proof.
  intros Hs St. rewrite (values_by_key es Hs).
  rewrite <- (map_map (fun k => runningSum (amountsOf catOf amtOf k es)) PNum).
  rewrite fold_plus_numbers. unfold sumLeft. f_equal. f_equal.
  apply map_ext. intro c. apply runningSum_steady, St.
Qed.

End Grouped.

Lemma safeLabel_fallback {num} (fb : jsstring) (e : expense num) :
  inherited fb = false -> safeLabel e ->
  inherited (Screen.categoryOr fb e) = false.
Proof.
  unfold safeLabel, Screen.categoryOr. intros Hf He.
  destruct (Store.category e) as [c|]; auto. destruct (isEmpty c); auto.
Qed.

(* ================================================================== *)
(** * Whole amounts *)

Section Whole.

Context {num : Type} `{Arith num}.
Variable ofZ : Z -> num.
Variable B : Z.
Hypothesis exact : exactUpTo ofZ B.

Lemma sumAbs_nonneg zs : 0 <= sumAbs zs.
Proof.
  unfold sumAbs. induction zs as [|z zs IH]; cbn [fold_right]; lia.
Qed.

Lemma sumZ_perm l l' : Permutation l l' -> sumZ l = sumZ l'.
Proof. unfold sumZ. induction 1; cbn [fold_right]; lia. Qed.

Lemma sumAbs_perm l l' : Permutation l l' -> sumAbs l = sumAbs l'.
Proof. unfold sumAbs. induction 1; cbn [fold_right]; lia. Qed.

Lemma sumZ_cons z zs : sumZ (z :: zs) = z + sumZ zs.
Proof. reflexivity. Qed.

Lemma sumAbs_cons z zs : sumAbs (z :: zs) = Z.abs z + sumAbs zs.
Proof. reflexivity. Qed.

(** [m || 0] on a whole amount. *)
Lemma orZero_whole c :
  Z.abs c <= B -> (if ToBoolean (ofZ c) then ofZ c else zero) = ofZ c.
Proof.
  destruct exact as [E0 [Et _]]. intro Hc.
  destruct (Z.eq_dec c 0) as [->|Hn].
  - rewrite E0. destruct (ToBoolean zero); reflexivity.
  - rewrite (Et c Hn Hc). reflexivity.
Qed.

Lemma add_whole a b :
  Z.abs a + Z.abs b <= B -> add (ofZ a) (ofZ b) = ofZ (a + b).
Proof. destruct exact as [_ [_ Ea]]. intro Hb. apply Ea; lia. Qed.

(** The direct sum. *)
Lemma sum_whole zs : forall (es : list (expense num)) a,
  wholeAmounts ofZ zs es -> Z.abs a + sumAbs zs <= B ->
  fold_left (fun sum e => add sum (Number (orZero (Store.amount e)))) es
    (ofZ a)
  = ofZ (a + sumZ zs).
Proof.
  unfold wholeAmounts.
  induction zs as [|z zs IH]; intros es a W Hb; destruct es as [|e es];
    try discriminate W.
  - change (sumZ []) with 0. cbn [fold_left]. f_equal. lia.
  - cbn [List.map] in W. inversion W as [[We Wes]].
    rewrite sumZ_cons. rewrite sumAbs_cons in Hb.
    pose proof (sumAbs_nonneg zs). cbn [fold_left].
    assert (C : Number (orZero (Store.amount e)) = ofZ z).
    { rewrite We. unfold orZero. cbn [truthy].
      destruct (ToBoolean (ofZ z)) eqn:T; cbn [Number]; [reflexivity|].
      pose proof (orZero_whole z ltac:(lia)) as O. rewrite T in O.
      exact O. }
    rewrite C, add_whole by lia.
    rewrite (IH es (a + z) Wes) by lia. f_equal. lia.
Qed.

(** One step of the grouping loop on an accumulator of whole amounts. *)
Lemma putOwn_whole (io : list (jsstring * Z)) k a :
  sumAbs (List.map snd io) + Z.abs a <= B ->
  exists io',
    putOwn (wholeObject ofZ io) k
      (orZeroPlus (ownLookup (getOwn (wholeObject ofZ io) k)) (ofZ a))
    = wholeObject ofZ io'
    /\ sumZ (List.map snd io') = sumZ (List.map snd io) + a
    /\ sumAbs (List.map snd io') <= sumAbs (List.map snd io) + Z.abs a.
Proof.
  destruct exact as [E0 _].
  induction io as [|[k0 c] io IH]; intro Hb.
  - exists [(k, a)]. change (sumAbs (List.map snd [])) with 0 in Hb.
    unfold wholeObject.
    cbn [List.map fst snd getOwn putOwn ownLookup orZeroPlus].
    rewrite <- E0, add_whole by lia.
    change (sumZ [a]) with (a + 0). change (sumAbs [a]) with (Z.abs a + 0).
    change (sumZ []) with 0. change (sumAbs []) with 0.
    repeat split; lia.
  - cbn [List.map snd] in *. rewrite sumAbs_cons in Hb.
    pose proof (sumAbs_nonneg (List.map snd io)).
    unfold wholeObject. cbn [List.map fst snd getOwn putOwn].
    fold (wholeObject ofZ io).
    destruct (JsString.eqb k k0) eqn:Ek.
    + exists ((k0, c + a) :: io). unfold wholeObject.
      cbn [List.map fst snd ownLookup orZeroPlus].
      rewrite orZero_whole, add_whole by lia.
      rewrite !sumZ_cons, !sumAbs_cons. repeat split; lia.
    + destruct IH as [io' [E [S A]]]; [lia|].
      exists ((k0, c) :: io'). rewrite E. unfold wholeObject.
      cbn [List.map fst snd]. rewrite !sumZ_cons, !sumAbs_cons.
      repeat split; lia.
Qed.

Variable catOf : expense num -> jsstring.

(** The grouping loop over whole amounts. *)
Lemma accumulate_whole zs : forall (es : list (expense num)) io,
  wholeAmounts ofZ zs es ->
  Forall (fun e => inherited (catOf e) = false) es ->
  sumAbs (List.map snd io) + sumAbs zs <= B ->
  exists io',
    accumulate catOf (fun e => Number (Store.amount e)) (wholeObject ofZ io) es
    = wholeObject ofZ io'
    /\ sumZ (List.map snd io') = sumZ (List.map snd io) + sumZ zs
    /\ sumAbs (List.map snd io') <= sumAbs (List.map snd io) + sumAbs zs.
Proof.
  unfold wholeAmounts.
  induction zs as [|z zs IH]; intros es io W Hs Hb; destruct es as [|e es];
    try discriminate W.
  - exists io. change (sumZ []) with 0. change (sumAbs []) with 0.
    split; [reflexivity|]. split; lia.
  - cbn [List.map] in W. inversion W as [[We Wes]].
    inversion Hs as [|? ? He Hes]; subst.
    rewrite sumZ_cons, sumAbs_cons. rewrite sumAbs_cons in Hb.
    pose proof (sumAbs_nonneg zs).
    rewrite accumulate_cons, Put_safe, Get_safe by assumption.
    rewrite We. cbn [Number].
    destruct (putOwn_whole io (catOf e) z) as [io1 [E1 [S1 A1]]]; [lia|].
    rewrite E1.
    destruct (IH es io1 Wes Hes) as [io2 [E2 [S2 A2]]]; [lia|].
    exists io2. rewrite E2. repeat split; lia.
Qed.

(** Folding [+] over values that are whole amounts. *)
Lemma reduce_whole cs : forall a,
  Z.abs a + sumAbs cs <= B ->
  fold_left (fun sum n => plus sum n)
    (List.map (fun c => PNum (ofZ c)) cs) (PNum (ofZ a))
  = PNum (ofZ (a + sumZ cs)).
Proof.
  induction cs as [|c cs IH]; intros a Hb.
  - change (sumZ []) with 0. cbn [List.map fold_left]. do 2 f_equal. lia.
  - rewrite sumZ_cons. rewrite sumAbs_cons in Hb.
    cbn [List.map fold_left plus].
    pose proof (sumAbs_nonneg cs).
    rewrite add_whole, IH by lia. do 2 f_equal. lia.
Qed.

(** Both totals of a list of whole amounts are the exact sum. *)
Lemma totals_whole zs (es : list (expense num)) :
  wholeAmounts ofZ zs es -> sumAbs zs <= B ->
  Forall (fun e => inherited (catOf e) = false) es ->
  Screen.totalSpending es = ofZ (sumZ zs)
  /\ fold_left (fun sum n => plus sum n)
       (Object_values
          (accumulate catOf (fun e => Number (Store.amount e)) [] es))
       (PNum zero)
     = PNum (ofZ (sumZ zs)).
Proof.
  intros W Hb Hs. destruct exact as [E0 _]. split.
  - unfold Screen.totalSpending. rewrite <- E0.
    rewrite (sum_whole zs es 0 W) by (cbn [Z.abs]; lia). f_equal.
  - destruct (accumulate_whole zs es [] W Hs) as [io [E [S A]]].
    { change (sumAbs (List.map snd [])) with 0. lia. }
    change (sumZ (List.map snd [])) with 0 in S.
    change (sumAbs (List.map snd [])) with 0 in A.
    change (accumulate catOf (fun e => Number (Store.amount e))
              (wholeObject ofZ []) es = wholeObject ofZ io) in E.
    change (wholeObject ofZ []) with (@nil (jsstring * propval num)) in E.
    rewrite E. unfold Object_values.
    pose proof (Object_entries_perm (wholeObject ofZ io)) as P.
    apply (Permutation_map snd) in P. unfold wholeObject in P at 2.
    rewrite map_map in P. cbn [snd] in P.
    assert (Q : List.map (fun x : jsstring * Z => PNum (ofZ (snd x))) io
                = List.map (fun c => PNum (ofZ c)) (List.map snd io))
      by (rewrite map_map; reflexivity).
    rewrite Q in P.
    apply Permutation_map_inv in P.
    destruct P as [cs [Ecs Pcs]]. rewrite Ecs, <- E0.
    rewrite reduce_whole.
    + rewrite <- (sumZ_perm _ _ Pcs), S. do 2 f_equal.
    + rewrite <- (sumAbs_perm _ _ Pcs). cbn [Z.abs]. lia.
Qed.

End Whole.

(* ------------------------------------------------------------------ *)
(** ** binary64 on whole numbers *)

Section Binary64.

Import Examples.

(** [bitLength p] is the position of the leading binary digit of [p]. *)
Lemma digits_bounds p : 2 ^ (bitLength p - 1) <= Zpos p < 2 ^ bitLength p.
Proof.
  unfold bitLength. induction p as [p IH|p IH|]; cbn [digits2_pos].
  - rewrite Pos2Z.inj_succ.
    replace (Z.succ (Zpos (digits2_pos p)) - 1)
      with (Z.succ (Zpos (digits2_pos p) - 1)) by lia.
    rewrite !Z.pow_succ_r by lia. lia.
  - rewrite Pos2Z.inj_succ.
    replace (Z.succ (Zpos (digits2_pos p)) - 1)
      with (Z.succ (Zpos (digits2_pos p) - 1)) by lia.
    rewrite !Z.pow_succ_r by lia. lia.
  - cbn. lia.
Qed.

Lemma digits_unique n d d' :
  0 < d -> 0 < d' ->
  2 ^ (d - 1) <= n < 2 ^ d -> 2 ^ (d' - 1) <= n < 2 ^ d' -> d = d'.
Proof.
  intros Hd Hd' [A B] [A' B'].
  destruct (Z.lt_trichotomy d d') as [L|[E|L]]; [|exact E|].
  - assert (2 ^ d <= 2 ^ (d' - 1)) by (apply Z.pow_le_mono_r; lia). lia.
  - assert (2 ^ d' <= 2 ^ (d - 1)) by (apply Z.pow_le_mono_r; lia). lia.
Qed.

(** Multiplying by 2^k adds k binary digits. *)
Lemma digits_shift p k :
  0 <= k -> bitLength (Z.to_pos (Zpos p * 2 ^ k)) = bitLength p + k.
Proof.
  intro Hk. pose proof (digits_bounds p) as [A B].
  assert (P2 : 0 < 2 ^ k) by (apply Z.pow_pos_nonneg; lia).
  assert (Pn : 0 < Zpos p * 2 ^ k) by lia.
  pose proof (digits_bounds (Z.to_pos (Zpos p * 2 ^ k))) as Bn.
  rewrite Z2Pos.id in Bn by exact Pn.
  apply (digits_unique (Zpos p * 2 ^ k));
    [unfold bitLength; lia | unfold bitLength; lia | exact Bn|].
  replace (bitLength p + k - 1) with ((bitLength p - 1) + k) by lia.
  assert (0 < bitLength p) by (unfold bitLength; lia).
  rewrite !Z.pow_add_r by lia. split; nia.
Qed.

Lemma iter_xO m d : Zpos (Pos.iter xO m d) = Zpos m * 2 ^ Zpos d.
Proof.
  rewrite <- Z.shiftl_mul_pow2 by lia. unfold Z.shiftl.
  apply (Pos.iter_swap_gen _ _ Zpos xO (Z.mul 2)). reflexivity.
Qed.

Lemma to_pos_id m : Z.to_pos (Zpos m) = m.
Proof. reflexivity. Qed.

(** Aligning a mantissa to a lower exponent multiplies it by a power of two. *)
(** Lowering the exponent to [e'] multiplies the mantissa by
    2^(e - e'). *)
Lemma shl_align_value m e e' :
  e' <= e ->
  shl_align m e e' = (Z.to_pos (Zpos m * 2 ^ (e - e')), e').
Proof.
  intro H. unfold shl_align. destruct (e' - e) as [|d|d] eqn:E; try lia.
  - replace (e - e') with 0 by lia. rewrite Z.mul_1_r. cbn. f_equal. lia.
  - f_equal. apply Pos2Z.inj. rewrite iter_xO, Z2Pos.id.
    + f_equal. f_equal. lia.
    + assert (0 < 2 ^ (e - e')) by (apply Z.pow_pos_nonneg; lia). lia.
Qed.

Lemma iter_pos_nat {A} (f : A -> A) p x :
  iter_pos f p x = Nat.iter (Pos.to_nat p) f x.
Proof.
  revert x. induction p as [p IH|p IH|]; intro x; cbn [iter_pos].
  - rewrite !IH, Pos2Nat.inj_xI.
    replace (2 * Pos.to_nat p)%nat
      with (Pos.to_nat p + Pos.to_nat p)%nat by lia.
    rewrite Nat.iter_succ_r, Nat.iter_add. reflexivity.
  - rewrite !IH, Pos2Nat.inj_xO.
    replace (2 * Pos.to_nat p)%nat
      with (Pos.to_nat p + Pos.to_nat p)%nat by lia.
    rewrite Nat.iter_add. reflexivity.
  - reflexivity.
Qed.

Lemma shr_1_even z :
  0 < z ->
  shr_1 {| shr_m := 2 * z; shr_r := false; shr_s := false |}
  = {| shr_m := z; shr_r := false; shr_s := false |}.
Proof. destruct z; try lia. intros _. reflexivity. Qed.

Lemma shr_exact z (n : nat) :
  0 < z ->
  Nat.iter n shr_1
    {| shr_m := z * 2 ^ Z.of_nat n; shr_r := false; shr_s := false |}
  = {| shr_m := z; shr_r := false; shr_s := false |}.
Proof.
  intro Hz. induction n as [|n IH].
  - cbn [Nat.iter nat_rect]. change (2 ^ Z.of_nat 0) with 1.
    rewrite Z.mul_1_r. reflexivity.
  - rewrite Nat.iter_succ_r. rewrite Nat2Z.inj_succ, Z.pow_succ_r by lia.
    replace (z * (2 * 2 ^ Z.of_nat n)) with (2 * (z * 2 ^ Z.of_nat n)) by lia.
    rewrite shr_1_even; [exact IH|].
    assert (0 < 2 ^ Z.of_nat n) by (apply Z.pow_pos_nonneg; lia). nia.
Qed.

(** Shifting right by [n] places a mantissa that ends in [n] zeros. *)
(** Shifting out [n] zero digits loses nothing: the round and sticky
    bits stay clear. *)
Lemma shr_value z e n :
  0 < z -> 0 <= n ->
  shr {| shr_m := z * 2 ^ n; shr_r := false; shr_s := false |} e n
  = ({| shr_m := z; shr_r := false; shr_s := false |}, e + n).
Proof.
  intros Hz Hn. unfold shr. destruct n as [|p|p]; try lia.
  - change (2 ^ 0) with 1. rewrite Z.mul_1_r. f_equal. lia.
  - f_equal. rewrite iter_pos_nat.
    rewrite <- (positive_nat_Z p). apply shr_exact. exact Hz.
Qed.

Lemma fexp_value x : fexp prec emax x = Z.max (x - 53) (-1074).
Proof. reflexivity. Qed.

(** A 53-digit mantissa followed by [n] zero digits rounds to itself. *)
Lemma aux_shift s z n e :
  bitLength z = 53 -> 0 <= n -> -1074 <= e + n <= 971 ->
  binary_round_aux prec emax s (Zpos z * 2 ^ n) e loc_Exact
  = S754_finite s z (e + n).
Proof.
  intros Hd Hn He.
  assert (P2 : 0 < 2 ^ n) by (apply Z.pow_pos_nonneg; lia).
  assert (Dn : Zdigits2 (Zpos z * 2 ^ n) = 53 + n).
  { pose proof (digits_shift z n Hn) as S. unfold bitLength in S.
    destruct (Zpos z * 2 ^ n) as [|p|p] eqn:E; try lia.
    cbn [Zdigits2]. cbn [Z.to_pos] in S. unfold bitLength in Hd. lia. }
  unfold binary_round_aux, shr_fexp. rewrite Dn, fexp_value.
  replace (Z.max (53 + n + e - 53) (-1074) - e) with n by lia.
  cbn [shr_record_of_loc]. rewrite shr_value by lia.
  cbn [shr_m loc_of_shr_record round_nearest_even Zdigits2].
  fold (bitLength z). rewrite Hd, fexp_value.
  replace (Z.max (53 + (e + n) - 53) (-1074) - (e + n)) with 0 by lia.
  cbn [shr_record_of_loc shr shr_m].
  replace (e + n <=? emax - prec) with true; [reflexivity|].
  symmetry. apply Z.leb_le. change (emax - prec) with 971. lia.
Qed.

(** Rounding a whole number of at most 53 bits gives it back, in normal
    form. *)
Lemma binary_round_whole s q K :
  bitLength q <= 53 -> 0 <= K <= 1000 ->
  binary_round prec emax s (Z.to_pos (Zpos q * 2 ^ K)) (- K) = normalForm s q.
Proof.
  intros Hq HK. assert (0 < bitLength q) by (unfold bitLength; lia).
  assert (P2 : 0 < 2 ^ K) by (apply Z.pow_pos_nonneg; lia).
  unfold binary_round. fold (bitLength (Z.to_pos (Zpos q * 2 ^ K))).
  rewrite digits_shift, fexp_value by lia.
  replace (Z.max (bitLength q + K + - K - 53) (-1074))
    with (bitLength q - 53) by lia.
  set (z := Z.to_pos (Zpos q * 2 ^ (53 - bitLength q))).
  assert (P3 : 0 < 2 ^ (53 - bitLength q)) by (apply Z.pow_pos_nonneg; lia).
  assert (Ez : Zpos z = Zpos q * 2 ^ (53 - bitLength q))
    by (unfold z; rewrite Z2Pos.id; lia).
  assert (Dz : bitLength z = 53).
  { unfold z. rewrite digits_shift by lia. lia. }
  destruct (Z_le_gt_dec (bitLength q - 53) (- K)) as [L|G].
  - rewrite shl_align_value by lia.
    assert (Q : Z.to_pos (Zpos (Z.to_pos (Zpos q * 2 ^ K))
                          * 2 ^ (- K - (bitLength q - 53))) = z).
    { unfold z. f_equal. rewrite Z2Pos.id by lia.
      rewrite <- Z.mul_assoc, <- Z.pow_add_r by lia. f_equal. f_equal. lia. }
    rewrite Q.
    pose proof (aux_shift s z 0 (bitLength q - 53) Dz ltac:(lia)
                  ltac:(lia)) as A.
    change (2 ^ 0) with 1 in A. rewrite Z.mul_1_r, Z.add_0_r in A.
    unfold normalForm. fold z. exact A.
  - unfold shl_align.
    destruct (bitLength q - 53 - - K) as [|d|d] eqn:E; try lia.
    rewrite Z2Pos.id by lia.
    pose proof (aux_shift s z (K - (53 - bitLength q)) (- K) Dz ltac:(lia)
                  ltac:(lia)) as A.
    replace (Zpos z * 2 ^ (K - (53 - bitLength q))) with (Zpos q * 2 ^ K) in A.
    + rewrite A. unfold normalForm. fold z. f_equal. lia.
    + rewrite Ez, <- Z.mul_assoc, <- Z.pow_add_r by lia. f_equal. f_equal.
      lia.
Qed.

Lemma normalForm_valid s q :
  bitLength q <= 53 -> valid_binary (normalForm s q) = true.
Proof.
  intro Hq. assert (0 < bitLength q) by (unfold bitLength; lia).
  unfold normalForm, SpecFloat.valid_binary, bounded, canonical_mantissa.
  fold (bitLength (Z.to_pos (Zpos q * 2 ^ (53 - bitLength q)))).
  rewrite digits_shift, fexp_value by lia.
  apply andb_true_iff. split; [apply Z.eqb_eq | apply Z.leb_le].
  - lia.
  - change (emax - prec) with 971. lia.
Qed.

Lemma digits_below p : Zpos p < 2 ^ 53 -> bitLength p <= 53.
Proof.
  intro L. pose proof (digits_bounds p) as [A _].
  destruct (Z_le_gt_dec (bitLength p) 53) as [Q|Q]; [exact Q|].
  assert (2 ^ 53 <= 2 ^ (bitLength p - 1)) by (apply Z.pow_le_mono_r; lia). lia.
Qed.

Lemma binary_round_plain s p :
  Zpos p < 2 ^ 53 -> binary_round prec emax s p 0 = normalForm s p.
Proof.
  intro L. pose proof (binary_round_whole s p 0 (digits_below p L)
                         ltac:(lia)) as R.
  change (2 ^ 0) with 1 in R. rewrite Z.mul_1_r in R. exact R.
Qed.

Lemma normalize_whole c K :
  Z.abs c < 2 ^ 53 -> 0 <= K <= 1000 ->
  binary_normalize prec emax (c * 2 ^ K) (- K) false = wholeSF c.
Proof.
  intros Hc HK.
  assert (P2 : 0 < 2 ^ K) by (apply Z.pow_pos_nonneg; lia).
  destruct c as [|r|r]; cbn [wholeSF].
  - reflexivity.
  - destruct (Zpos r * 2 ^ K) as [|p|p] eqn:E; try lia.
    cbn [binary_normalize].
    replace p with (Z.to_pos (Zpos r * 2 ^ K)) by (rewrite E; reflexivity).
    apply binary_round_whole; [apply digits_below|]; lia.
  - destruct (Zneg r * 2 ^ K) as [|p|p] eqn:E; try lia.
    cbn [binary_normalize].
    replace p with (Z.to_pos (Zpos r * 2 ^ K)).
    + apply binary_round_whole; [apply digits_below|]; lia.
    + apply Pos2Z.inj. rewrite Z2Pos.id by lia. lia.
Qed.

Lemma normalForm_aligned q ez :
  bitLength q <= 53 -> ez <= bitLength q - 53 ->
  Zpos (fst (shl_align (Z.to_pos (Zpos q * 2 ^ (53 - bitLength q)))
               (bitLength q - 53) ez))
  = Zpos q * 2 ^ (- ez).
Proof.
  intros Hq He. assert (0 < bitLength q) by (unfold bitLength; lia).
  assert (P3 : 0 < 2 ^ (53 - bitLength q)) by (apply Z.pow_pos_nonneg; lia).
  assert (P4 : 0 < 2 ^ (bitLength q - 53 - ez))
    by (apply Z.pow_pos_nonneg; lia).
  rewrite shl_align_value by lia. cbn [fst].
  rewrite !Z2Pos.id by lia.
  rewrite <- Z.mul_assoc, <- Z.pow_add_r by lia. f_equal. f_equal. lia.
Qed.

(** Adding two whole numbers gives the whole number of their sum when
    all three are below 2^53. *)
Lemma SFadd_whole a b :
  Z.abs a < 2 ^ 53 -> Z.abs b < 2 ^ 53 -> Z.abs (a + b) < 2 ^ 53 ->
  SFadd prec emax (wholeSF a) (wholeSF b) = wholeSF (a + b).
Proof.
  intros Ha Hb Hab.
  assert (F : forall sa pa sb pb,
             Zpos pa < 2 ^ 53 -> Zpos pb < 2 ^ 53 ->
             Z.abs (cond_Zopp sa (Zpos pa) + cond_Zopp sb (Zpos pb)) < 2 ^ 53 ->
             SFadd prec emax (normalForm sa pa) (normalForm sb pb)
             = wholeSF (cond_Zopp sa (Zpos pa) + cond_Zopp sb (Zpos pb))).
  { intros sa pa sb pb La Lb Lab.
    pose proof (digits_below pa La) as Da.
    pose proof (digits_below pb Lb) as Db.
    assert (0 < bitLength pa) by (unfold bitLength; lia).
    assert (0 < bitLength pb) by (unfold bitLength; lia).
    unfold normalForm. cbn [SFadd].
    set (ez := Z.min (bitLength pa - 53) (bitLength pb - 53)).
    rewrite (normalForm_aligned pa ez), (normalForm_aligned pb ez)
      by (unfold ez; lia).
    replace (cond_Zopp sa (Zpos pa * 2 ^ (- ez))
             + cond_Zopp sb (Zpos pb * 2 ^ (- ez)))
      with ((cond_Zopp sa (Zpos pa) + cond_Zopp sb (Zpos pb)) * 2 ^ (- ez))
      by (destruct sa, sb; cbn [cond_Zopp]; lia).
    replace ez with (- (- ez)) at 2 by lia.
    apply normalize_whole; [exact Lab | unfold ez; lia]. }
  destruct a as [|pa|pa], b as [|pb|pb]; try reflexivity.
  - apply (F false pa false pb); cbn [cond_Zopp]; lia.
  - apply (F false pa true pb); cbn [cond_Zopp]; lia.
  - apply (F true pa false pb); cbn [cond_Zopp]; lia.
  - apply (F true pa true pb); cbn [cond_Zopp]; lia.
Qed.

(** [wholeNumber z] is [z] itself below 2^53. *)
Lemma wholeNumber_SF z :
  Z.abs z < 2 ^ 53 -> Prim2SF (wholeNumber z) = wholeSF z.
Proof.
  intro L. unfold wholeNumber, roundDecimal.
  destruct z as [|p|p]; cbn [Z.abs Z.ltb Z.compare wholeSF].
  - reflexivity.
  - change (0 <=? 0) with true. cbv iota.
    change (10 ^ 0) with 1. rewrite Z.mul_1_r. cbn [Z.to_pos].
    rewrite binary_round_plain by exact L.
    apply Prim2SF_SF2Prim, normalForm_valid, digits_below, L.
  - change (0 <=? 0) with true. cbv iota.
    change (10 ^ 0) with 1. rewrite Z.mul_1_r. cbn [Z.to_pos].
    rewrite binary_round_plain by exact L.
    apply Prim2SF_SF2Prim, normalForm_valid, digits_below, L.
Qed.

(** binary64 adds whole numbers without rounding as long as every value
    stays below 2^53. *)
Lemma binary64_exact : exactUpTo wholeNumber (2 ^ 53 - 1).
Proof.
  split; [reflexivity|]. split.
  - intros a Hn Ha. cbn [ToBoolean binary64].
    unfold is_zero, is_nan. change PrimFloat.zero with 0%float.
    rewrite !eqb_spec, wholeNumber_SF by lia.
    change (Prim2SF 0) with (S754_zero false).
    destruct a as [|p|p]; [contradiction Hn; reflexivity| |];
      cbn [wholeSF]; unfold normalForm, SFeqb; cbn [SFcompare];
      rewrite Z.compare_refl; fold (Pos.compare
        (Z.to_pos (Zpos p * 2 ^ (53 - bitLength p)))
        (Z.to_pos (Zpos p * 2 ^ (53 - bitLength p))));
      rewrite Pos.compare_refl; reflexivity.
  - intros a b Ha Hb Hab. cbn [add binary64].
    apply Prim2SF_inj.
    rewrite add_spec, !wholeNumber_SF by lia.
    apply SFadd_whole; lia.
Qed.

End Binary64.

(* ================================================================== *)
(** * The two screens' aggregators *)

Section Aggregators.

Context {num : Type} `{Arith num}.

Lemma totalsByCategory_screen (es : list (expense num)) :
  Screen.totalsByCategory es
  = accumulate (Screen.categoryOr (lit "Uncategorized")) contribution [] es.
Proof. reflexivity. Qed.

Lemma totalsByCategory_chart (es : list (expense num)) :
  Chart.totalsByCategory es
  = accumulate (Screen.categoryOr (lit "Other"))
      (fun e => Number (Store.amount e)) [] es.
Proof. reflexivity. Qed.

Lemma plain_fallback (fb : jsstring) (e : expense num) :
  plainKey fb -> labelled e -> plainKey (Screen.categoryOr fb e).
Proof.
  unfold labelled, Screen.categoryOr. intros Hf He.
  destruct (Store.category e) as [c|]; auto. destruct (isEmpty c); auto.
Qed.

Lemma totalSpending_sumLeft (es : list (expense num)) :
  Screen.totalSpending es = sumLeft (List.map contribution es).
Proof.
  unfold Screen.totalSpending, sumLeft. generalize (@zero num _).
  induction es as [|e es IH]; intros a; cbn; auto.
Qed.

Lemma contribution_falsy (e : expense num) :
  truthy (Store.amount e) = false -> contribution e = zero.
Proof. unfold contribution, orZero. intros E. rewrite E. reflexivity. Qed.

Lemma contribution_number (e : expense num) x :
  Store.amount e = JNum x -> ToBoolean x = true -> contribution e = x.
Proof.
  unfold contribution, orZero. intros E T. rewrite E. cbn. rewrite T.
  reflexivity.
Qed.

End Aggregators.

Lemma plain_Uncategorized : plainKey (lit "Uncategorized").
Proof. split; reflexivity. Qed.

Lemma plain_Other : plainKey (lit "Other").
Proof. split; reflexivity. Qed.

(* ================================================================== *)
(** * The store *)

Section StoreFacts.

Lemma insertDesc_In r x l : In r (insertDesc x l) <-> r = x \/ In r l.
Proof.
  induction l as [|y l IH]; cbn.
  - intuition congruence.
  - destruct (Store.id y <=? Store.id x); cbn; [intuition congruence|].
    rewrite IH. intuition congruence.
Qed.

(** Reading back returns the rows of the table, whatever their order. *)
Lemma selectAll_In d r : In r (selectAll d) <-> In r (rows d).
Proof.
  unfold selectAll. induction (rows d) as [|x l IH]; cbn; [tauto|].
  rewrite insertDesc_In, IH. intuition congruence.
Qed.

(** A zero of either sign is not above zero. *)
Lemma zero_not_above (a : float) :
  is_zero a = true -> (a <=? 0)%float = true.
Proof.
  unfold is_zero. change PrimFloat.zero with 0%float.
  rewrite eqb_spec, leb_spec. unfold SFeqb, SFleb.
  destruct (SFcompare (Prim2SF a) (Prim2SF 0)) as [[| |]|];
    intro E; try discriminate E; reflexivity.
Qed.

(** A number above zero is stored and read back as it is. *)
Lemma bindReal_above (a : float) :
  is_nan a = false -> (a <=? 0)%float = false -> bindReal a = JNum a.
Proof.
  intros N L. unfold bindReal. rewrite N.
  destruct (is_zero a) eqn:Z; [|reflexivity].
  rewrite (zero_not_above a Z) in L. discriminate L.
Qed.

End StoreFacts.

(* ================================================================== *)
(** * The claims *)

(** C1 (as amended).  In both screens that have [handleSubmit], a
    submission whose amount parses to NaN or to a value <= 0, or whose
    category is empty after trimming, returns at once: the form state, the
    table and the list of statements sent to the store are all unchanged,
    so no create and no update happens. *)
Theorem C1_handleSubmit_refuses_invalid clock s w :
  is_nan (parseFloat (Screen.amount s)) = true
  \/ (parseFloat (Screen.amount s) <=? 0)%float = true
  \/ trim (Screen.category s) = [] ->
  Screen.handleSubmit clock s w = (s, w)
  /\ Chart.handleSubmit clock s w = (s, w)
  /\ log (snd (Screen.handleSubmit clock s w)) = log w
  /\ log (snd (Chart.handleSubmit clock s w)) = log w.
Proof.
  intros Hbad.
  assert (E : Screen.handleSubmit clock s w = (s, w)
              /\ Chart.handleSubmit clock s w = (s, w)).
  { unfold Screen.handleSubmit, Chart.handleSubmit. cbv zeta.
    destruct (is_nan (parseFloat (Screen.amount s))) eqn:E1; cbn [orb]; auto.
    destruct (parseFloat (Screen.amount s) <=? 0)%float eqn:E2; auto.
    destruct Hbad as [Hb|[Hb|Hb]]; try discriminate.
    rewrite Hb. cbn [isEmpty]. auto. }
  destruct E as [E2 E3]. rewrite E2, E3. auto.
Qed.

Lemma C1_witness :
  Screen.handleSubmit Examples.wednesday
    (Examples.form "abc" "Food" "" "" None) Examples.emptyWorld
  = (Examples.form "abc" "Food" "" "" None, Examples.emptyWorld).
Proof.
  apply (C1_handleSubmit_refuses_invalid Examples.wednesday
           (Examples.form "abc" "Food" "" "" None) Examples.emptyWorld).
  left. vm_compute. reflexivity.
Defined.

(** C1, counterexample.  The first screen's [saveExpense] only refuses
    empty fields: with amount "-5" (which parses to a value <= 0) and a
    category of one space (empty after trimming) it sends an INSERT. *)
Lemma C1_saveExpense_writes :
  (parseFloat (Legacy.amount (Examples.legacyForm "-5" " " "" "2024-01-17"))
   <=? 0)%float = true
  /\ trim (Legacy.category (Examples.legacyForm "-5" " " "" "2024-01-17")) = []
  /\ log (snd (Legacy.saveExpense
                 (Examples.legacyForm "-5" " " "" "2024-01-17")
                 Examples.emptyWorld))
     = [INSERT (parseFloat (lit "-5")) (lit " ") (Some []) (lit "2024-01-17");
        SELECT_ALL].
Proof. repeat split; vm_compute; reflexivity. Qed.

(** C2.  The week classifier at a failing input.  On a host five hours
    west of Greenwich, on Wednesday 2024-01-17 at noon local time, the
    Monday of the current week is 2024-01-15.  A record dated
    "2024-01-15" is not matched by WEEK and a record dated "2024-01-22",
    the Monday of the next week, is matched, in both screens: the
    date-only text is read as midnight UTC, which is 19:00 of the day
    before in local time, while Monday 00:00 and Sunday 23:59:59.999 are
    taken in local time.  An hour east of Greenwich the same code matches
    the Monday of the current week and not the next one. *)
Theorem C2_week_shifted_west_of_Greenwich :
  getDay Examples.west (Some Examples.wednesday) = Some 3
  /\ dateText (MakeDate (mondayDay Examples.west Examples.wednesday) 0)
     = lit "2024-01-15"
  /\ Date_of_string Examples.west (lit "2024-01-15")
     = Some (MakeDate (mondayDay Examples.west Examples.wednesday) 0)
  /\ Screen.isInCurrentWeek Examples.west Examples.wednesday
       (Some (lit "2024-01-15")) = false
  /\ Chart.isInCurrentWeek Examples.west Examples.wednesday
       (Some (lit "2024-01-15")) = false
  /\ Screen.isInCurrentWeek Examples.west Examples.wednesday
       (Some (lit "2024-01-22")) = true
  /\ Chart.isInCurrentWeek Examples.west Examples.wednesday
       (Some (lit "2024-01-22")) = true
  /\ Screen.isInCurrentWeek Examples.east Examples.wednesday
       (Some (lit "2024-01-15")) = true
  /\ Screen.isInCurrentWeek Examples.east Examples.wednesday
       (Some (lit "2024-01-22")) = false.
Proof. repeat split; vm_compute; reflexivity. Qed.

(** C3.  The month classifier at a failing input.  On a host five hours
    west of Greenwich, on Thursday 2024-02-15 at noon local time, a
    record dated "2024-02-01" is not matched by MONTH and a record dated
    "2024-03-01" is matched, in both screens: the date-only text is read
    as midnight UTC, which is still the last day of the month before in
    local time, while year and month are compared in local time.  The
    last day of the month, "2024-02-29", is matched.  An hour east of
    Greenwich the same code matches the 1st of February and not the 1st
    of March. *)
Theorem C3_month_shifted_west_of_Greenwich :
  getFullYear Examples.west (Some Examples.midFebruary) = Some 2024
  /\ getMonth Examples.west (Some Examples.midFebruary) = Some 1
  /\ Screen.isInCurrentMonth Examples.west Examples.midFebruary
       (Some (lit "2024-02-01")) = false
  /\ Chart.isInCurrentMonth Examples.west Examples.midFebruary
       (Some (lit "2024-02-01")) = false
  /\ Screen.isInCurrentMonth Examples.west Examples.midFebruary
       (Some (lit "2024-03-01")) = true
  /\ Chart.isInCurrentMonth Examples.west Examples.midFebruary
       (Some (lit "2024-03-01")) = true
  /\ Screen.isInCurrentMonth Examples.west Examples.midFebruary
       (Some (lit "2024-02-29")) = true
  /\ Screen.isInCurrentMonth Examples.east Examples.midFebruary
       (Some (lit "2024-02-01")) = true
  /\ Screen.isInCurrentMonth Examples.east Examples.midFebruary
       (Some (lit "2024-03-01")) = false.
Proof. repeat split; vm_compute; reflexivity. Qed.

(** C4.  A date string that is empty or that does not parse to a valid
    date matches neither WEEK nor MONTH, in both screens; the classifiers
    are total functions, so nothing is thrown.  This includes the chart
    screen's month classifier, which has no invalid-date guard. *)
Theorem C4_unparsable_dates_match_nothing P clock s :
  s = [] \/ Date_of_string P s = None ->
  Screen.isInCurrentWeek P clock (Some s) = false
  /\ Screen.isInCurrentMonth P clock (Some s) = false
  /\ Chart.isInCurrentWeek P clock (Some s) = false
  /\ Chart.isInCurrentMonth P clock (Some s) = false.
Proof.
  intros Hs.
  unfold Screen.isInCurrentWeek, Screen.isInCurrentMonth,
    Chart.isInCurrentWeek, Chart.isInCurrentMonth, getTime. cbv zeta.
  destruct Hs as [E|E].
  - subst s. cbn [isEmpty]. auto.
  - rewrite E.
    destruct (isEmpty s);
      cbn [isNaN getFullYear option_map strictEq andb]; auto.
Qed.

Lemma C4_witness :
  Screen.isInCurrentWeek Examples.east Examples.wednesday
    (Some (lit "yesterday")) = false
  /\ Screen.isInCurrentMonth Examples.east Examples.wednesday
       (Some (lit "yesterday")) = false
  /\ Chart.isInCurrentWeek Examples.east Examples.wednesday
       (Some (lit "yesterday")) = false
  /\ Chart.isInCurrentMonth Examples.east Examples.wednesday
       (Some (lit "yesterday")) = false.
Proof.
  apply (C4_unparsable_dates_match_nothing Examples.east Examples.wednesday
           (lit "yesterday")).
  right. vm_compute. reflexivity.
Defined.

(** C5.  Under filter ALL both screens return the list of records as it
    is: same records, same order, whatever their dates. *)
Theorem C5_filter_ALL_is_identity P clock s :
  Screen.filter s = Screen.ALL ->
  Screen.filteredExpenses P clock s = Screen.expenses s
  /\ Chart.filteredExpenses P clock s = Screen.expenses s.
Proof.
  intros E. unfold Screen.filteredExpenses, Chart.filteredExpenses.
  rewrite E. auto.
Qed.

Lemma C5_witness :
  Screen.filteredExpenses Examples.east Examples.wednesday
    {| Screen.expenses := Examples.badDates; Screen.amount := [];
       Screen.category := []; Screen.note := []; Screen.date := [];
       Screen.filter := Screen.ALL; Screen.editingId := None |}
  = Examples.badDates.
Proof.
  apply (C5_filter_ALL_is_identity Examples.east Examples.wednesday
           {| Screen.expenses := Examples.badDates; Screen.amount := [];
              Screen.category := []; Screen.note := []; Screen.date := [];
              Screen.filter := Screen.ALL; Screen.editingId := None |}).
  reflexivity.
Defined.







(** C8.  The date stamp at a failing input.  On a host five hours west of
    Greenwich, on Wednesday 2024-01-17 at 20:00 local time (01:00 UTC of
    the 18th), today's date is 2024-01-17.  A submit with the date field
    blank that passes the checks creates a row dated "2024-01-18", in
    both screens: the stamp is the first ten characters of
    [toISOString], the UTC date, not the date of the local calendar the
    filters go by. *)
Theorem C8_stamp_is_the_UTC_date :
  getFullYear Examples.west (Some Examples.lateEvening) = Some 2024
  /\ getMonth Examples.west (Some Examples.lateEvening) = Some 0
  /\ getDate Examples.west (Some Examples.lateEvening) = Some 17
  /\ dateText (LocalTime Examples.west Examples.lateEvening)
     = lit "2024-01-17"
  /\ Screen.formatDateForDb Examples.lateEvening = lit "2024-01-18"
  /\ Chart.formatDateForDb Examples.lateEvening = lit "2024-01-18"
  /\ rows (database
             (snd (Screen.handleSubmit Examples.lateEvening
                     (Examples.form "12.50" "Food" "" "" None)
                     Examples.emptyWorld)))
     = [{| id := 1; amount := JNum (parseFloat (lit "12.50"));
           category := Some (lit "Food"); note := None;
           date := Some (lit "2024-01-18") |}]
  /\ rows (database
             (snd (Chart.handleSubmit Examples.lateEvening
                     (Examples.form "12.50" "Food" "" "" None)
                     Examples.emptyWorld)))
     = [{| id := 1; amount := JNum (parseFloat (lit "12.50"));
           category := Some (lit "Food"); note := Some [];
           date := Some (lit "2024-01-18") |}].
Proof. repeat split; vm_compute; reflexivity. Qed.




(** C10.  [deleteExpense id] leaves in the table exactly the rows whose id
    differs from [id], each unchanged and in the same order; no row with
    that id remains, and the reloaded list holds exactly those rows.  The
    two screens do the same. *)
Theorem C10_delete_removes_only_that_id id s w :
  rows (database (snd (Screen.deleteExpense id s w)))
  = filter (fun r => negb (Store.id r =? id)) (rows (database w))
  /\ (forall r,
         In r (rows (database (snd (Screen.deleteExpense id s w))))
         <-> In r (rows (database w)) /\ Store.id r <> id)
  /\ (forall r,
         In r (Screen.expenses (fst (Screen.deleteExpense id s w)))
         <-> In r (rows (database w)) /\ Store.id r <> id)
  /\ Chart.deleteExpense id s w = Screen.deleteExpense id s w.
Proof.
  assert (F : forall r,
             In r (filter (fun r => negb (Store.id r =? id))
                     (rows (database w)))
             <-> In r (rows (database w)) /\ Store.id r <> id).
  { intros r. rewrite filter_In, negb_true_iff, Z.eqb_neq. tauto. }
  unfold Screen.deleteExpense, Chart.deleteExpense, Screen.loadExpenses,
    getAllAsync, runAsync. cbn [fst snd database exec rows Screen.expenses].
  split; [reflexivity|]. split; [exact F|]. split; [|reflexivity].
  intros r. rewrite selectAll_In. cbn [rows]. apply F.
Qed.

(* ================================================================== *)
(* ================================================================== *)
(** * The rest of the three screens *)

Import Examples Scenarios.

(* ================================================================== *)
(** * Trimming *)

Section Trimming.

Lemma trimStart_suffix s :
  exists w, s = w ++ trimStart s
            /\ Forall (fun c => isWhiteSpace c = true) w.
Proof.
  induction s as [|c r IH]; [exists []; split; [reflexivity | constructor]|].
  simpl. destruct (isWhiteSpace c) eqn:Hc.
  - destruct IH as [w [E F]]. exists (c :: w). split.
    + simpl. rewrite <- E. reflexivity.
    + constructor; assumption.
  - exists []. split; [reflexivity | constructor].
Qed.

Lemma trimStart_head s :
  trimStart s = [] \/ isWhiteSpace (hd 0%N (trimStart s)) = false.
Proof.
  induction s as [|c r IH]; [left; reflexivity|].
  simpl. destruct (isWhiteSpace c) eqn:Hc; [exact IH|]. right. exact Hc.
Qed.

Lemma trimStart_fix l :
  l = [] \/ isWhiteSpace (hd 0%N l) = false -> trimStart l = l.
Proof.
  intros [->|H]; [reflexivity|]. destruct l as [|c r]; [reflexivity|].
  simpl in *. rewrite H. reflexivity.
Qed.

Lemma trimEnd_head t :
  t = [] \/ isWhiteSpace (hd 0%N t) = false ->
  trimEnd t = [] \/ isWhiteSpace (hd 0%N (trimEnd t)) = false.
Proof.
  intros Ht. unfold trimEnd.
  destruct (trimStart_suffix (rev t)) as [w [E _]].
  destruct (trimStart (rev t)) as [|c u] eqn:Eu; [left; reflexivity|].
  right. apply (f_equal (@rev N)) in E. rewrite rev_involutive, rev_app_distr in E.
  destruct (rev (c :: u)) as [|x y] eqn:Er.
  - apply (f_equal (@List.length N)) in Er. rewrite length_rev in Er.
    discriminate.
  - destruct Ht as [->|Ht]; [discriminate|]. rewrite E in Ht. exact Ht.
Qed.

Lemma trim_ends s :
  (trim s = [] \/ isWhiteSpace (hd 0%N (trim s)) = false)
  /\ (trim s = [] \/ isWhiteSpace (hd 0%N (rev (trim s))) = false).
Proof.
  split.
  - apply trimEnd_head, trimStart_head.
  - unfold trim, trimEnd. rewrite rev_involutive.
    destruct (trimStart_head (rev (trimStart s))) as [E|E].
    + left. rewrite E. reflexivity.
    + right. exact E.
Qed.

Lemma trim_fix l :
  l = [] \/ isWhiteSpace (hd 0%N l) = false ->
  l = [] \/ isWhiteSpace (hd 0%N (rev l)) = false ->
  trim l = l.
Proof.
  intros H1 H2. unfold trim, trimEnd. rewrite (trimStart_fix l H1).
  rewrite trimStart_fix.
  - apply rev_involutive.
  - destruct H2 as [->|H2]; [left; reflexivity | right; exact H2].
Qed.

Lemma trim_idempotent s : trim (trim s) = trim s.
Proof. destruct (trim_ends s). apply trim_fix; assumption. Qed.

Lemma trimmed_trim s : isEmpty (trim s) = false -> trimmed (trim s) = true.
Proof.
  intros H. unfold trimmed. rewrite H, trim_idempotent, jsstring_eqb_refl.
  reflexivity.
Qed.

Lemma trimmed_spec t : trimmed t = true <-> t <> [] /\ trim t = t.
Proof.
  unfold trimmed. rewrite andb_true_iff, negb_true_iff, isEmpty_false_iff,
    jsstring_eqb_eq. tauto.
Qed.

Lemma trimmed_solid l :
  l <> [] -> Forall (fun c => isWhiteSpace c = false) l -> trimmed l = true.
Proof.
  intros Hn F. apply trimmed_spec. split; [exact Hn|].
  apply trim_fix; right.
  - destruct l; [congruence|]. inversion F; assumption.
  - apply Forall_rev in F. destruct (rev l) as [|c r] eqn:E.
    + apply (f_equal (@rev N)) in E. rewrite rev_involutive in E. simpl in E.
      congruence.
    + inversion F; assumption.
Qed.

Lemma digit_not_space c : isDigit c = true -> isWhiteSpace c = false.
Proof.
  unfold isDigit, isWhiteSpace. intros H.
  apply andb_true_iff in H. destruct H as [H1 H2].
  apply N.leb_le in H1. apply N.leb_le in H2.
  repeat rewrite orb_false_iff. repeat split;
    try (apply N.eqb_neq; lia);
    apply andb_false_iff; (left; apply N.leb_gt; lia)
                          || (right; apply N.leb_gt; lia).
Qed.

Lemma padDigits_solid k n :
  Forall (fun c => isWhiteSpace c = false) (padDigits k n).
Proof.
  revert n. induction k as [|k IH]; intro n; simpl; [constructor|].
  apply Forall_app. split; [apply IH|]. constructor; [|constructor].
  apply digit_not_space, isDigit_digitChar.
Qed.

Lemma lit_solid (c : ascii) :
  isWhiteSpace (N_of_ascii c) = false ->
  Forall (fun c => isWhiteSpace c = false) (lit (String c EmptyString)).
Proof. intro H. repeat constructor. exact H. Qed.

Lemma toISOString_solid t :
  Forall (fun c => isWhiteSpace c = false) (toISOString t).
Proof.
  unfold toISOString. rewrite !Forall_app.
  repeat split;
    try apply padDigits_solid;
    try (apply lit_solid; reflexivity).
  unfold yearText.
  destruct ((0 <=? YearFromTime t) && (YearFromTime t <=? 9999));
    [apply padDigits_solid|].
  apply Forall_app. split; [|apply padDigits_solid].
  destruct (YearFromTime t <? 0); apply lit_solid; reflexivity.
Qed.

Lemma padDigits_length k n : List.length (padDigits k n) = k.
Proof.
  revert n. induction k as [|k IH]; intro n; simpl; [reflexivity|].
  rewrite length_app, IH. simpl. lia.
Qed.

Lemma toISOString_length t : (20 <= List.length (toISOString t))%nat.
Proof.
  unfold toISOString. rewrite !length_app, !padDigits_length.
  cbn [lit List.map list_ascii_of_string List.length]. lia.
Qed.

Lemma formatDateForDb_trimmed clock :
  trimmed (Screen.formatDateForDb clock) = true.
Proof.
  unfold Screen.formatDateForDb, slice0. apply trimmed_solid.
  - intro E. apply (f_equal (@List.length N)) in E.
    rewrite length_firstn in E. pose proof (toISOString_length clock).
    cbn [List.length] in E. lia.
  - pose proof (toISOString_solid clock) as F.
    rewrite <- (firstn_skipn 10 (toISOString clock)) in F.
    apply Forall_app in F. apply F.
Qed.

End Trimming.

(* ================================================================== *)
(** * The table: keys and order *)

Section Table.

Lemma max_above base l x :
  In x l -> x <= fold_right Z.max base l.
Proof.
  induction l as [|y l IH]; simpl; [tauto|]. intros [->|H]; [lia|].
  specialize (IH H). lia.
Qed.

Lemma max_base base l : base <= fold_right Z.max base l.
Proof. induction l as [|y l IH]; simpl; lia. Qed.

Lemma nextId_fresh d i : In i (ids d) -> i < nextId d.
Proof.
  intro H. unfold nextId. pose proof (max_above (seq d) _ _ H).
  unfold ids in *. lia.
Qed.

Lemma nextId_seq d : seq d < nextId d.
Proof.
  unfold nextId. pose proof (max_base (seq d) (ids d)). unfold ids in *. lia.
Qed.

Lemma ids_update a c n dt i l :
  List.map (fun r : expense float => id r)
    (List.map (fun r => if id r =? i then setFields a c n dt i else r) l)
  = List.map (fun r => id r) l.
Proof.
  induction l as [|r l IH]; simpl; [reflexivity|]. rewrite IH. f_equal.
  destruct (id r =? i) eqn:E; [|reflexivity]. apply Z.eqb_eq in E.
  simpl. congruence.
Qed.

Lemma ids_delete i (l : list (expense float)) :
  List.map (fun r => id r) (filter (fun r => negb (id r =? i)) l)
  = filter (fun j => negb (j =? i)) (List.map (fun r => id r) l).
Proof.
  induction l as [|r l IH]; simpl; [reflexivity|].
  destruct (id r =? i); simpl; rewrite IH; reflexivity.
Qed.

(** Every statement keeps the primary key. *)
Lemma exec_keyed stmt d : keyed d -> keyed (exec stmt d).
Proof.
  intros [N F]. destruct stmt as [a c n dt|a c n dt i|i|]; unfold keyed, ids in *;
    simpl.
  - rewrite map_app. simpl. split.
    + apply NoDup_app; [exact N | repeat constructor; simpl; tauto |]. intros x Hx [<-|[]].
      pose proof (nextId_fresh d _ Hx). lia.
    + apply Forall_app. split.
      * eapply Forall_impl; [|exact F]. simpl. intros x Hx.
        pose proof (nextId_seq d). lia.
      * constructor; [lia | constructor].
  - rewrite ids_update. split; assumption.
  - rewrite ids_delete. split.
    + apply NoDup_filter. exact N.
    + apply Forall_forall. intros x Hx. apply filter_In in Hx.
      rewrite Forall_forall in F. apply F, Hx.
  - split; assumption.
Qed.

Lemma exec_seq stmt d : seq d <= seq (exec stmt d).
Proof.
  destruct stmt; simpl; try lia. pose proof (nextId_seq d). lia.
Qed.

(** Rows are told apart by their ids. *)
Lemma keyed_row d r r' :
  NoDup (ids d) -> In r (rows d) -> In r' (rows d) -> id r = id r' -> r = r'.
Proof.
  unfold ids. induction (rows d) as [|x l IH]; simpl; [tauto|].
  intros N Hr Hr' E. inversion N as [|? ? Hx N']; subst.
  assert (forall y, In y l -> id y <> id x) as D.
  { intros y Hy Ey. apply Hx. rewrite <- Ey. apply in_map_iff. exists y. auto. }
  destruct Hr as [->|Hr], Hr' as [->|Hr'].
  - reflexivity.
  - exfalso. apply (D r' Hr'). congruence.
  - exfalso. apply (D r Hr). congruence.
  - apply IH; assumption.
Qed.

Lemma insertDesc_perm r l : Permutation (insertDesc r l) (r :: l).
Proof.
  induction l as [|x l IH]; simpl; [apply Permutation_refl|].
  destruct (id x <=? id r); [apply Permutation_refl|].
  eapply perm_trans; [apply perm_skip, IH | apply perm_swap].
Qed.

Lemma selectAll_perm d : Permutation (selectAll d) (rows d).
Proof.
  unfold selectAll. induction (rows d) as [|x l IH]; simpl; [constructor|].
  eapply perm_trans; [apply insertDesc_perm | apply perm_skip, IH].
Qed.

Lemma insertDesc_sorted r l :
  newestFirst l -> ~ In (id r) (List.map (fun x => id x) l) ->
  newestFirst (insertDesc r l).
Proof.
  unfold newestFirst. induction l as [|x l IH]; simpl; intros S Hn.
  - repeat constructor.
  - destruct (id x <=? id r) eqn:E.
    + constructor; [exact S|]. constructor. apply Z.leb_le in E. lia.
    + apply Z.leb_gt in E. inversion S as [|? ? S' Hd]; subst.
      constructor;
        [apply IH; [exact S' | intro; apply Hn; right; assumption]|].
      destruct l as [|y l]; simpl; [repeat constructor; exact E|].
      destruct (id y <=? id r); constructor; [exact E|].
      inversion Hd; assumption.
Qed.

Lemma selectAll_sorted d : NoDup (ids d) -> newestFirst (selectAll d).
Proof.
  unfold selectAll, ids. induction (rows d) as [|x l IH]; simpl; intro N.
  - constructor.
  - inversion N as [|? ? Hx N']; subst.
    apply insertDesc_sorted; [apply IH; assumption|].
    intro H. apply Hx. apply in_map_iff in H. destruct H as [y [E Hy]].
    apply in_map_iff. exists y. split; [exact E|].
    apply (selectAll_In {| rows := l; seq := 0 |}) in Hy. exact Hy.
Qed.

(** A row with the largest id comes first. *)
Lemma selectAll_newest (l : list (expense float)) x :
  (forall r, In r l -> id r < id x) ->
  fold_right insertDesc [] (l ++ [x]) = x :: fold_right insertDesc [] l.
Proof.
  intro H. rewrite fold_right_app. simpl.
  induction l as [|a l IH]; simpl; [reflexivity|].
  rewrite IH by (intros r Hr; apply H; right; exact Hr). simpl.
  pose proof (H a (or_introl eq_refl)).
  destruct (id x <=? id a) eqn:E; [apply Z.leb_le in E; lia | reflexivity].
Qed.

Lemma selectAll_insert a c n dt d :
  selectAll (exec (INSERT a c n dt) d)
  = setFields a c n dt (nextId d) :: selectAll d.
Proof.
  unfold selectAll. simpl. apply selectAll_newest. intros r Hr. simpl.
  apply nextId_fresh. unfold ids. apply in_map_iff. exists r. auto.
Qed.

End Table.

(* ================================================================== *)
(** * The handlers on the table *)

Section Handlers.

Lemma accepted_spec s :
  accepted s = true <->
  is_nan (parseFloat (Screen.amount s)) = false
  /\ (parseFloat (Screen.amount s) <=? 0)%float = false
  /\ isEmpty (trim (Screen.category s)) = false.
Proof.
  unfold accepted.
  rewrite andb_true_iff, !negb_true_iff, orb_false_iff. tauto.
Qed.

(** The statement a submit of the screen with filters sends. *)
Lemma handleSubmit_accepted clock s w :
  accepted s = true ->
  Screen.handleSubmit clock s w
  = Screen.loadExpenses (Screen.resetForm s)
      (runAsync
         match Screen.editingId s with
         | None =>
             INSERT (parseFloat (Screen.amount s)) (trim (Screen.category s))
               (noteOrNull s) (dateOrToday clock s)
         | Some i =>
             UPDATE (parseFloat (Screen.amount s)) (trim (Screen.category s))
               (noteOrNull s) (dateOrToday clock s) i
         end w).
Proof.
  intro A. apply accepted_spec in A. destruct A as [A1 [A2 A3]].
  unfold Screen.handleSubmit, noteOrNull, dateOrToday.
  rewrite A1, A2, A3. cbn [orb]. cbv zeta.
  destruct (Screen.editingId s); reflexivity.
Qed.

Lemma handleSubmit_rejected clock s w :
  accepted s = false -> Screen.handleSubmit clock s w = (s, w).
Proof.
  unfold accepted, Screen.handleSubmit. intro A.
  destruct (is_nan (parseFloat (Screen.amount s))
            || (parseFloat (Screen.amount s) <=? 0)%float); [reflexivity|].
  simpl in A. apply negb_false_iff in A. cbv zeta. rewrite A. reflexivity.
Qed.

Lemma written_amount clock s i :
  accepted s = true ->
  Store.amount (written clock s i) = JNum (parseFloat (Screen.amount s)).
Proof.
  intro A. apply accepted_spec in A. destruct A as [A1 [A2 _]].
  unfold written, setFields. cbn [Store.amount].
  apply bindReal_above; assumption.
Qed.

Lemma dateOrToday_trimmed clock s : trimmed (dateOrToday clock s) = true.
Proof.
  unfold dateOrToday. destruct (isEmpty (trim (Screen.date s))) eqn:E.
  - apply formatDateForDb_trimmed.
  - apply trimmed_trim. exact E.
Qed.

(** What a submit writes is a row of the data model. *)
Lemma written_valid clock s i :
  accepted s = true -> validRow (written clock s i) = true.
Proof.
  intro A. unfold validRow. rewrite (written_amount clock s i A).
  apply accepted_spec in A. destruct A as [A1 [A2 A3]].
  unfold written, setFields, noteOrNull. cbn [Store.category Store.note Store.date aboveZero].
  rewrite A1, A2, (trimmed_trim _ A3), dateOrToday_trimmed. cbn [orb negb andb].
  destruct (isEmpty (trim (Screen.note s))) eqn:E; [reflexivity|].
  rewrite (trimmed_trim _ E). reflexivity.
Qed.

Lemma exec_valid stmt d :
  (forall a c n dt i, stmt = UPDATE a c n dt i \/ stmt = INSERT a c n dt ->
                      validRow (setFields a c n dt i) = true) ->
  Forall (fun r => validRow r = true) (rows d) ->
  Forall (fun r => validRow r = true) (rows (exec stmt d)).
Proof.
  intros V F. destruct stmt as [a c n dt|a c n dt i|i|]; simpl.
  - apply Forall_app. split; [exact F|]. constructor; [|constructor].
    apply V. right. reflexivity.
  - apply Forall_forall. intros r Hr. apply in_map_iff in Hr.
    destruct Hr as [x [E Hx]]. destruct (id x =? i).
    + subst r. apply V. left. reflexivity.
    + subst r. rewrite Forall_forall in F. apply F, Hx.
  - apply Forall_forall. intros r Hr. apply filter_In in Hr.
    rewrite Forall_forall in F. apply F, Hr.
  - exact F.
Qed.

Lemma handleSubmit_tableOk clock s w :
  tableOk (database w) ->
  tableOk (database (snd (Screen.handleSubmit clock s w))).
Proof.
  intros [K V]. destruct (accepted s) eqn:A.
  - rewrite (handleSubmit_accepted clock s w A). unfold Screen.loadExpenses.
    cbn [getAllAsync runAsync snd database]. split.
    + apply exec_keyed, K.
    + apply exec_valid; [|exact V]. intros a c n dt i H.
      destruct (Screen.editingId s) as [j|];
        destruct H as [H|H]; inversion H; subst;
        apply (written_valid clock s i A).
  - rewrite (handleSubmit_rejected clock s w A). split; assumption.
Qed.

Lemma handleSubmit_inSync clock s w :
  inSync (s, w) -> inSync (Screen.handleSubmit clock s w).
Proof.
  intro I. destruct (accepted s) eqn:A.
  - rewrite (handleSubmit_accepted clock s w A). reflexivity.
  - rewrite (handleSubmit_rejected clock s w A). exact I.
Qed.

Lemma handleSubmit_seq clock s w :
  seq (database w) <= seq (database (snd (Screen.handleSubmit clock s w))).
Proof.
  destruct (accepted s) eqn:A.
  - rewrite (handleSubmit_accepted clock s w A). unfold Screen.loadExpenses.
    cbn [getAllAsync runAsync snd database]. apply exec_seq.
  - rewrite (handleSubmit_rejected clock s w A). simpl. lia.
Qed.

Lemma filteredExpenses_In P clock s r :
  In r (Screen.filteredExpenses P clock s) -> In r (Screen.expenses s).
Proof.
  unfold Screen.filteredExpenses. destruct (Screen.filter s); intro H;
    [exact H | apply filter_In in H; apply H | apply filter_In in H; apply H].
Qed.

Lemma validRow_category r :
  validRow r = true -> exists c, Store.category r = Some c /\ trimmed c = true.
Proof.
  unfold validRow. rewrite !andb_true_iff. intros [[[_ H] _] _].
  destruct (Store.category r) as [c|]; [eauto | discriminate].
Qed.

(** One event keeps the table sound and the list in step with it. *)
Lemma dispatch_sound P host e sw :
  tableOk (database (snd sw)) -> inSync sw ->
  exists sw', Session.dispatch P host e sw = Some sw'
              /\ tableOk (database (snd sw')) /\ inSync sw'
              /\ seq (database (snd sw)) <= seq (database (snd sw')).
Proof.
  destruct sw as [s w]. cbn [fst snd]. intros T I.
  destruct e as [t|t|t|t|f|clock| |rendered row|rendered row];
    cbn [Session.dispatch];
    try (eexists; split; [reflexivity|]; cbn [fst snd];
         split; [exact T | split; [exact I | lia]]).
  - eexists; split; [reflexivity|]. split; [apply handleSubmit_tableOk, T|].
    split; [apply handleSubmit_inSync, I | apply handleSubmit_seq].
  - destruct (Screen.editingId s);
      (eexists; split; [reflexivity|]; cbn [fst snd];
       split; [exact T | split; [exact I | lia]]).
  - destruct (nth_error (Screen.filteredExpenses P rendered s) row)
      as [item|] eqn:E.
    + apply nth_error_In, filteredExpenses_In in E.
      unfold inSync in I. cbn [fst snd] in I. rewrite I in E.
      apply selectAll_In in E. destruct T as [K V].
      rewrite Forall_forall in V. destruct (validRow_category _ (V _ E)) as [c [Ec _]].
      unfold Screen.startEditing. rewrite Ec.
      eexists; split; [reflexivity|]. cbn [fst snd].
      split; [split; [exact K | apply Forall_forall; exact V]|].
      split; [exact I | lia].
    + eexists; split; [reflexivity|]; cbn [fst snd].
      split; [exact T | split; [exact I | lia]].
  - destruct (nth_error (Screen.filteredExpenses P rendered s) row)
      as [item|] eqn:E.
    + eexists; split; [reflexivity|]. unfold Screen.deleteExpense, Screen.loadExpenses.
      cbn [getAllAsync runAsync fst snd database]. destruct T as [K V].
      split; [split|split].
      * apply exec_keyed, K.
      * apply exec_valid; [|exact V]. intros a c n dt i [H|H]; discriminate H.
      * reflexivity.
      * simpl. lia.
    + eexists; split; [reflexivity|]; cbn [fst snd].
      split; [exact T | split; [exact I | lia]].
Qed.

Lemma run_sound P host evs sw :
  tableOk (database (snd sw)) -> inSync sw ->
  exists sw', Session.run P host evs sw = Some sw'
              /\ tableOk (database (snd sw')) /\ inSync sw'
              /\ seq (database (snd sw)) <= seq (database (snd sw')).
Proof.
  unfold Session.run. revert sw. induction evs as [|e evs IH]; intros sw T I.
  - exists sw. simpl. repeat split; try assumption; try apply T. lia.
  - destruct (dispatch_sound P host e sw T I) as [sw1 [E [T1 [I1 L1]]]].
    destruct (IH sw1 T1 I1) as [sw2 [E2 [T2 [I2 L2]]]].
    exists sw2. simpl. rewrite E. repeat split; try assumption; try apply T2. lia.
Qed.

End Handlers.

(* ================================================================== *)
(** * Creating, editing and deleting *)

Section Writes.

Lemma update_same d item a c n dt :
  NoDup (ids d) -> In item (rows d) ->
  setFields a c n dt (id item) = item ->
  exec (UPDATE a c n dt (id item)) d = d.
Proof.
  intros N Hi E. destruct d as [rs sq]. unfold exec. cbn [rows seq] in *.
  f_equal. rewrite <- (map_id rs) at 2. apply map_ext_in. intros r Hr.
  destruct (id r =? id item) eqn:Ei; [|reflexivity].
  apply Z.eqb_eq in Ei. rewrite E. symmetry.
  apply (keyed_row {| rows := rs; seq := sq |}); assumption.
Qed.

Lemma delete_fresh i d :
  ~ In i (ids d) -> exec (DELETE i) d = d.
Proof.
  intro H. destruct d as [rs sq]. unfold exec, ids in *. cbn [rows seq] in *.
  f_equal. induction rs as [|r rs IH]; simpl; [reflexivity|].
  simpl in H. destruct (id r =? i) eqn:E.
  - apply Z.eqb_eq in E. tauto.
  - simpl. f_equal. apply IH. tauto.
Qed.

Lemma delete_removes i d : ~ In i (ids (exec (DELETE i) d)).
Proof.
  unfold ids. simpl. rewrite ids_delete. intro H. apply filter_In in H.
  destruct H as [_ H]. rewrite Z.eqb_refl in H. discriminate.
Qed.

(** A valid row, field by field. *)
Lemma validRow_fields r :
  validRow r = true ->
  exists a c d,
    r = {| id := id r; amount := JNum a; category := Some c;
           note := Store.note r; date := Some d |}
    /\ is_nan a = false /\ (a <=? 0)%float = false
    /\ trimmed c = true /\ trimmed d = true
    /\ match Store.note r with Some n => trimmed n = true | None => True end.
Proof.
  unfold validRow, aboveZero. rewrite !andb_true_iff.
  destruct r as [i am ca no da]. cbn [Store.amount Store.category Store.note Store.date id].
  intros [[[A C] Nn] D].
  destruct am as [| |a|]; try discriminate. destruct ca as [c|]; [|discriminate].
  destruct da as [d|]; [|discriminate].
  apply negb_true_iff, orb_false_iff in A. destruct A as [A1 A2].
  exists a, c, d. repeat split; try assumption.
  destruct no; [exact Nn | exact I].
Qed.

End Writes.

(* ================================================================== *)
(** * Further properties of the handlers *)



(** X2.  A submit that passes the checks in edit mode rewrites the rows
    whose id is the one being edited and nothing else: the ids of the
    table and their order stay, so does the AUTOINCREMENT counter, every
    row with that id becomes the submitted one, the rows with another id
    are the same as before, and if no row has that id the table is
    unchanged. *)
Theorem X2_edit_rewrites_one_id clock s w i :
  accepted s = true -> Screen.editingId s = Some i ->
  ids (database (snd (Screen.handleSubmit clock s w))) = ids (database w)
  /\ seq (database (snd (Screen.handleSubmit clock s w))) = seq (database w)
  /\ (forall r, In r (rows (database (snd (Screen.handleSubmit clock s w)))) ->
                id r = i -> r = written clock s i)
  /\ (forall r, id r <> i ->
        (In r (rows (database (snd (Screen.handleSubmit clock s w))))
         <-> In r (rows (database w))))
  /\ (In i (ids (database w)) ->
      In (written clock s i)
        (rows (database (snd (Screen.handleSubmit clock s w)))))
  /\ (~ In i (ids (database w)) ->
      database (snd (Screen.handleSubmit clock s w)) = database w).
Proof.
  intros A E. rewrite (handleSubmit_accepted clock s w A), E.
  unfold Screen.loadExpenses. cbn [getAllAsync runAsync fst snd database].
  fold (written clock s i).
  destruct (database w) as [rs sq]. unfold ids, exec. cbn [rows seq].
  fold (written clock s i).
  split; [apply ids_update|]. split; [reflexivity|]. split; [|split; [|split]].
  - intros r Hr Ei. apply in_map_iff in Hr. destruct Hr as [x [Ex _]].
    destruct (id x =? i) eqn:Exi; [congruence|].
    apply Z.eqb_neq in Exi. congruence.
  - intros r Hr. rewrite in_map_iff. split.
    + intros [x [Ex Hx]]. destruct (id x =? i) eqn:Exi.
      * subst r. simpl in Hr. congruence.
      * subst r. exact Hx.
    + intro Hx. exists r. apply Z.eqb_neq in Hr. rewrite Hr. auto.
  - intro Hi. apply in_map_iff in Hi. destruct Hi as [x [Ex Hx]].
    apply in_map_iff. exists x. subst i. rewrite Z.eqb_refl. auto.
  - intro Hn. f_equal. rewrite <- (map_id rs) at 2. apply map_ext_in.
    intros r Hr. destruct (id r =? i) eqn:Ei; [|reflexivity].
    apply Z.eqb_eq in Ei. exfalso. apply Hn. apply in_map_iff. eauto.
Qed.

Lemma X2_witness :
  ids (database
         (snd (Screen.handleSubmit wednesday
                 (form "900" "Rent" "" "2024-02-01" (Some 2)) twoRows)))
  = [1; 2]
  /\ In {| id := 2; amount := JNum (parseFloat (lit "900"));
           category := Some (lit "Rent"); note := None;
           date := Some (lit "2024-02-01") |}
       (rows (database
                (snd (Screen.handleSubmit wednesday
                        (form "900" "Rent" "" "2024-02-01" (Some 2))
                        twoRows)))).
Proof.
  destruct (X2_edit_rewrites_one_id wednesday
              (form "900" "Rent" "" "2024-02-01" (Some 2)) twoRows 2)
    as [H1 [_ [_ [_ [H5 _]]]]]; [vm_compute; reflexivity | reflexivity |].
  split; [rewrite H1; reflexivity|].
  apply H5. right. left. reflexivity.
Defined.

(** X3.  Loading shows the whole table, newest first: when no id occurs
    twice in the table, the list [loadExpenses] puts on the screen holds
    exactly the rows of the table, each once, in strictly decreasing
    order of id, and the table itself is left as it was.  This holds for
    the first screen and for the two later ones. *)
Theorem X3_list_is_table_newest_first s ls w :
  NoDup (ids (database w)) ->
  newestFirst (Screen.expenses (fst (Screen.loadExpenses s w)))
  /\ Permutation (Screen.expenses (fst (Screen.loadExpenses s w)))
       (rows (database w))
  /\ database (snd (Screen.loadExpenses s w)) = database w
  /\ newestFirst (Legacy.expenses (fst (Legacy.loadExpenses ls w)))
  /\ Permutation (Legacy.expenses (fst (Legacy.loadExpenses ls w)))
       (rows (database w))
  /\ database (snd (Legacy.loadExpenses ls w)) = database w.
Proof.
  intro N. unfold Screen.loadExpenses, Legacy.loadExpenses.
  cbn [getAllAsync fst snd Screen.expenses Legacy.expenses database].
  repeat split; try apply selectAll_sorted; try apply selectAll_perm;
    assumption.
Qed.

Lemma X3_witness :
  newestFirst (Screen.expenses (fst (Screen.loadExpenses blankForm twoRows))).
Proof.
  apply (X3_list_is_table_newest_first blankForm
           (legacyForm "" "" "" "") twoRows).
  repeat constructor; simpl; intuition discriminate.
Defined.

(** X4.  Whatever the user does on the screen with filters, the table
    stays sound.  Start from a table in which ids are distinct and not
    above the AUTOINCREMENT counter and every row is a valid one (amount
    a number above zero; category, date and a present note non-empty and
    trimmed), and load the list.  Then after any sequence of events
    (typing in the form, filter buttons, submit, cancel, edit and delete
    on rows of the list) the form still holds strings, the table still
    has these properties, the list on the screen is the table read newest
    first, and the counter has not gone down. *)
Theorem X4_session_keeps_table_sound P host evs s w :
  tableOk (database w) ->
  exists sw',
    Session.run P host evs (Screen.loadExpenses s w) = Some sw'
    /\ tableOk (database (snd sw'))
    /\ inSync sw'
    /\ seq (database w) <= seq (database (snd sw')).
Proof.
  intro T. apply (run_sound P host evs (Screen.loadExpenses s w)).
  - exact T.
  - reflexivity.
Qed.

Lemma X4_witness :
  exists sw',
    Session.run greenwich noDigits
      [Session.ChangeAmount (lit "7"); Session.ChangeCategory (lit "Bus");
       Session.PressSubmit wednesday; Session.PressEdit wednesday 0;
       Session.PressCancel; Session.PressDelete wednesday 1]
      (Screen.loadExpenses blankForm twoRows) = Some sw'
    /\ tableOk (database (snd sw'))
    /\ inSync sw'
    /\ seq (database twoRows) <= seq (database (snd sw')).
Proof.
  apply (X4_session_keeps_table_sound greenwich noDigits
           [Session.ChangeAmount (lit "7"); Session.ChangeCategory (lit "Bus");
            Session.PressSubmit wednesday; Session.PressEdit wednesday 0;
            Session.PressCancel; Session.PressDelete wednesday 1]
           blankForm twoRows).
  split; [split|].
  - repeat constructor; simpl; intuition discriminate.
  - repeat constructor; simpl; discriminate.
  - repeat constructor; vm_compute; reflexivity.
Defined.

(** X5.  Opening a row for editing and saving it untouched changes
    nothing in the table.  For a valid row of a table without duplicate
    ids, whose amount is read back by [parseFloat] from the text [String]
    gives for it: [startEditing] fills the form, the following
    [handleSubmit] passes the checks and sends an UPDATE for that id,
    and the table after it is the table before it. *)
Theorem X5_edit_and_save_changes_nothing clock host item s w :
  NoDup (ids (database w)) -> In item (rows (database w)) ->
  validRow item = true ->
  Store.amount item = JNum (parseFloat (ToString host (Store.amount item))) ->
  exists s1 a c n d,
    Screen.startEditing host item s = Some s1
    /\ Screen.editingId s1 = Some (id item)
    /\ log (snd (Screen.handleSubmit clock s1 w))
       = log w ++ [UPDATE a c n d (id item); SELECT_ALL]
    /\ database (snd (Screen.handleSubmit clock s1 w)) = database w
    /\ Screen.expenses (fst (Screen.handleSubmit clock s1 w))
       = selectAll (database w).
Proof.
  intros N Hi V R.
  destruct (validRow_fields item V) as [a [c [d [E [A1 [A2 [C [D Nn]]]]]]]].
  assert (Ea : Store.amount item = JNum a) by (rewrite E; reflexivity).
  assert (Ec : Store.category item = Some c) by (rewrite E; reflexivity).
  assert (Ed : Store.date item = Some d) by (rewrite E; reflexivity).
  apply trimmed_spec in C. destruct C as [C1 C2].
  apply trimmed_spec in D. destruct D as [D1 D2].
  unfold Screen.startEditing. rewrite Ec, Ed.
  eexists. exists a, c, (Store.note item), d.
  split; [reflexivity|]. split; [reflexivity|].
  match goal with |- context [Screen.handleSubmit clock ?x w] =>
    set (s1 := x) end.
  assert (Pa : parseFloat (Screen.amount s1) = a).
  { unfold s1. cbn [Screen.amount]. rewrite Ea in R. congruence. }
  assert (Acc : accepted s1 = true).
  { apply accepted_spec. rewrite Pa. unfold s1. cbn [Screen.category].
    rewrite C2. repeat split; try assumption.
    apply isEmpty_false_iff. exact C1. }
  assert (Nt : noteOrNull s1 = Store.note item).
  { unfold noteOrNull, s1. cbn [Screen.note].
    destruct (Store.note item) as [n|]; [|reflexivity].
    apply trimmed_spec in Nn. destruct Nn as [N1 N2]. rewrite N2.
    apply isEmpty_false_iff in N1. rewrite N1. reflexivity. }
  assert (Dt : dateOrToday clock s1 = d).
  { unfold dateOrToday, s1. cbn [Screen.date]. rewrite D2.
    apply isEmpty_false_iff in D1. rewrite D1. reflexivity. }
  rewrite (handleSubmit_accepted clock s1 w Acc).
  rewrite Pa, Nt, Dt. clear Pa Acc Nt Dt. subst s1.
  cbn [Screen.editingId Screen.category].
  rewrite C2. unfold Screen.loadExpenses.
  cbn [getAllAsync runAsync fst snd database log Screen.expenses].
  assert (U : exec (UPDATE a c (Store.note item) d (id item)) (database w)
              = database w).
  { apply update_same; try assumption.
    unfold setFields. rewrite (bindReal_above a A1 A2). symmetry. exact E. }
  rewrite U. rewrite <- app_assoc. repeat split; reflexivity.
Qed.

Lemma X5_witness :
  exists s1 a c n d,
    Screen.startEditing noDigits lunch blankForm = Some s1
    /\ Screen.editingId s1 = Some (id lunch)
    /\ log (snd (Screen.handleSubmit wednesday s1 twoRows))
       = log twoRows ++ [UPDATE a c n d (id lunch); SELECT_ALL]
    /\ database (snd (Screen.handleSubmit wednesday s1 twoRows))
       = database twoRows
    /\ Screen.expenses (fst (Screen.handleSubmit wednesday s1 twoRows))
       = selectAll (database twoRows).
Proof.
  apply (X5_edit_and_save_changes_nothing wednesday noDigits lunch blankForm
           twoRows).
  - repeat constructor; simpl; intuition discriminate.
  - left. reflexivity.
  - vm_compute. reflexivity.
  - vm_compute. reflexivity.
Defined.

Lemma chart_handleSubmit_accepted clock s w :
  accepted s = true ->
  Chart.handleSubmit clock s w
  = Screen.loadExpenses (Screen.resetForm s)
      (runAsync
         match Screen.editingId s with
         | None =>
             INSERT (parseFloat (Screen.amount s)) (Screen.category s)
               (Some (Screen.note s)) (dateOrToday clock s)
         | Some i =>
             if i =? 0 then
               INSERT (parseFloat (Screen.amount s)) (Screen.category s)
                 (Some (Screen.note s)) (dateOrToday clock s)
             else
               UPDATE (parseFloat (Screen.amount s)) (Screen.category s)
                 (Some (Screen.note s)) (dateOrToday clock s) i
         end w).
Proof.
  intro A. apply accepted_spec in A. destruct A as [A1 [A2 A3]].
  unfold Chart.handleSubmit, dateOrToday.
  rewrite A1, A2, A3. cbn [orb]. cbv zeta.
  destruct (Screen.editingId s) as [i|]; [destruct (i =? 0)|]; reflexivity.
Qed.

Lemma chart_handleSubmit_rejected clock s w :
  accepted s = false -> Chart.handleSubmit clock s w = (s, w).
Proof.
  unfold accepted, Chart.handleSubmit. intro A.
  destruct (is_nan (parseFloat (Screen.amount s))
            || (parseFloat (Screen.amount s) <=? 0)%float); [reflexivity|].
  simpl in A. apply negb_false_iff in A. cbv zeta. rewrite A. reflexivity.
Qed.

(** X6.  On the screen with the chart, opening a row and saving it
    untouched keeps the row when it has a note and turns a NULL note
    into the empty string when it has none; nothing else changes.  The
    row is one of a table without duplicate ids, its id is not 0, its
    amount is a number above zero that [parseFloat] reads back from the
    text [String] gives for it, its category is not blank and its date
    is non-empty and trimmed. *)
Theorem X6_chart_edit_and_save clock host item s w c d :
  NoDup (ids (database w)) -> In item (rows (database w)) ->
  id item <> 0 ->
  aboveZero (Store.amount item) = true ->
  Store.amount item = JNum (parseFloat (ToString host (Store.amount item))) ->
  Store.category item = Some c -> isEmpty (trim c) = false ->
  Store.date item = Some d -> trimmed d = true ->
  exists s1,
    Chart.startEditing host item s = Some s1
    /\ seq (database (snd (Chart.handleSubmit clock s1 w))) = seq (database w)
    /\ rows (database (snd (Chart.handleSubmit clock s1 w)))
       = List.map
           (fun r =>
              if id r =? id item then
                {| id := id item; amount := Store.amount item;
                   category := Store.category item;
                   note := Some (noteText item);
                   date := Store.date item |}
              else r)
           (rows (database w))
    /\ (Store.note item <> None ->
        database (snd (Chart.handleSubmit clock s1 w)) = database w).
Proof.
  intros N Hi Z0 A R Ec C Ed D.
  destruct (Store.amount item) as [| |a|] eqn:Ea; try discriminate A.
  simpl in A. apply negb_true_iff, orb_false_iff in A. destruct A as [A1 A2].
  apply trimmed_spec in D. destruct D as [D1 D2].
  unfold Chart.startEditing. rewrite Ec, Ed, Ea. eexists.
  split; [reflexivity|].
  match goal with |- context [Chart.handleSubmit clock ?x w] =>
    set (s1 := x) end.
  assert (Pa : parseFloat (Screen.amount s1) = a).
  { unfold s1. cbn [Screen.amount]. congruence. }
  assert (Acc : accepted s1 = true).
  { apply accepted_spec. rewrite Pa. unfold s1. cbn [Screen.category].
    repeat split; assumption. }
  assert (Dt : dateOrToday clock s1 = d).
  { unfold dateOrToday, s1. cbn [Screen.date]. rewrite D2.
    apply isEmpty_false_iff in D1. rewrite D1. reflexivity. }
  rewrite (chart_handleSubmit_accepted clock s1 w Acc).
  rewrite Pa, Dt. clear Pa Acc Dt. subst s1.
  cbn [Screen.editingId Screen.category Screen.note].
  apply Z.eqb_neq in Z0. rewrite Z0. unfold Screen.loadExpenses.
  cbn [getAllAsync runAsync fst snd database exec rows seq].
  fold (noteText item).
  assert (S : setFields a c (Some (noteText item)) d (id item)
              = {| id := id item; amount := JNum a; category := Some c;
                   note := Some (noteText item); date := Some d |}).
  { unfold setFields. rewrite (bindReal_above a A1 A2). reflexivity. }
  rewrite S. split; [reflexivity|]. split; [reflexivity|].
  intro Hn. destruct (database w) as [rs sq] eqn:Edb. cbn [rows seq] in *.
  f_equal. rewrite <- (map_id rs) at 2. apply map_ext_in. intros r Hr.
  destruct (id r =? id item) eqn:Ei; [|reflexivity].
  apply Z.eqb_eq in Ei.
  assert (r = item)
    by (apply (keyed_row {| rows := rs; seq := sq |}); assumption).
  subst r. destruct item as [i am ca no da].
  cbn [id Store.amount Store.category Store.note Store.date noteText] in *.
  subst. destruct no; [reflexivity | congruence].
Qed.

Lemma X6_witness :
  exists s1,
    Chart.startEditing noDigits rent blankForm = Some s1
    /\ seq (database (snd (Chart.handleSubmit wednesday s1 twoRows))) = 2
    /\ rows (database (snd (Chart.handleSubmit wednesday s1 twoRows)))
       = [lunch;
          {| id := 2; amount := JNum (parseFloat (lit "800"));
             category := Some (lit "Rent"); note := Some [];
             date := Some (lit "2024-01-01") |}].
Proof.
  destruct (X6_chart_edit_and_save wednesday noDigits rent blankForm twoRows
              (lit "Rent") (lit "2024-01-01"))
    as [s1 [H1 [H2 [H3 _]]]].
  - repeat constructor; simpl; intuition discriminate.
  - right. left. reflexivity.
  - discriminate.
  - vm_compute. reflexivity.
  - vm_compute. reflexivity.
  - reflexivity.
  - vm_compute. reflexivity.
  - reflexivity.
  - vm_compute. reflexivity.
  - exists s1. split; [exact H1|]. split; [exact H2|]. rewrite H3. reflexivity.
Defined.

(** X7.  Creating an expense and deleting it again gives back the table
    and the list as they were, but not the id: the rows after the two
    steps are the rows before them, the list shown is the former listing,
    and the next id the table gives is above the one just deleted. *)
Theorem X7_add_then_delete_restores_rows clock s w :
  accepted s = true -> Screen.editingId s = None ->
  let added := Screen.handleSubmit clock s w in
  let gone :=
    Screen.deleteExpense (nextId (database w)) (fst added) (snd added) in
  rows (database (snd gone)) = rows (database w)
  /\ Screen.expenses (fst gone) = selectAll (database w)
  /\ nextId (database w) < nextId (database (snd gone)).
Proof.
  intros A E. cbv zeta. rewrite (handleSubmit_accepted clock s w A), E.
  unfold Screen.deleteExpense, Screen.loadExpenses.
  cbn [getAllAsync runAsync fst snd database Screen.expenses].
  assert (R : rows (exec (DELETE (nextId (database w)))
                      (exec (INSERT (parseFloat (Screen.amount s))
                               (trim (Screen.category s)) (noteOrNull s)
                               (dateOrToday clock s)) (database w)))
              = rows (database w)).
  { cbn [exec rows]. rewrite filter_app. cbn [filter setFields id].
    rewrite Z.eqb_refl. cbn [negb]. rewrite app_nil_r.
    apply forallb_filter_id. apply forallb_forall. intros r Hr.
    apply negb_true_iff, Z.eqb_neq.
    assert (id r < nextId (database w)); [|lia].
    apply nextId_fresh. unfold ids. apply in_map_iff. eauto. }
  split; [exact R|]. split.
  - unfold selectAll. rewrite R. reflexivity.
  - match goal with |- _ < nextId ?d => pose proof (nextId_seq d) as L end.
    cbn [exec seq] in L. exact L.
Qed.

Lemma X7_witness :
  rows (database
          (snd (Screen.deleteExpense (nextId (database twoRows))
                  (fst (Screen.handleSubmit wednesday
                          (form "12.5" "Food" "" "" None) twoRows))
                  (snd (Screen.handleSubmit wednesday
                          (form "12.5" "Food" "" "" None) twoRows)))))
  = [lunch; rent].
Proof.
  destruct (X7_add_then_delete_restores_rows wednesday
              (form "12.5" "Food" "" "" None) twoRows)
    as [H _]; [vm_compute; reflexivity | reflexivity |].
  rewrite H. reflexivity.
Defined.

(** X8.  The first screen's delete removes the rows with the given id
    and no other, keeps the order of the rest, and reloads the list.
    Deleting an id the table does not hold leaves the table as it is,
    so a second delete of the same id changes nothing more. *)
Theorem X8_legacy_delete i s w :
  rows (database (snd (Legacy.deleteExpense i s w)))
  = filter (fun r => negb (id r =? i)) (rows (database w))
  /\ (forall r, In r (rows (database (snd (Legacy.deleteExpense i s w))))
                <-> In r (rows (database w)) /\ id r <> i)
  /\ Legacy.expenses (fst (Legacy.deleteExpense i s w))
     = selectAll (database (snd (Legacy.deleteExpense i s w)))
  /\ (~ In i (ids (database w)) ->
      database (snd (Legacy.deleteExpense i s w)) = database w)
  /\ database (snd (Legacy.deleteExpense i (fst (Legacy.deleteExpense i s w))
                      (snd (Legacy.deleteExpense i s w))))
     = database (snd (Legacy.deleteExpense i s w)).
Proof.
  unfold Legacy.deleteExpense, Legacy.loadExpenses.
  cbn [getAllAsync runAsync fst snd database Legacy.expenses].
  split; [reflexivity|]. split; [|split; [reflexivity|split]].
  - intro r. cbn [exec rows]. rewrite filter_In, negb_true_iff, Z.eqb_neq.
    tauto.
  - apply delete_fresh.
  - apply delete_fresh, delete_removes.
Qed.

(** X9.  In the per-category totals of both later screens every category
    is listed once, and the categories listed are exactly the labels of
    the records (the category, or the fallback "Uncategorized" resp.
    "Other" when it is missing or empty), except the label "__proto__",
    which an object literal does not take as a key.  There is one total
    per listed category. *)
Theorem X9_each_category_listed_once {num : Type} `{Arith num}
  (es : list (expense num)) :
  NoDup (Object_keys (Screen.totalsByCategory es))
  /\ (forall k,
        In k (Object_keys (Screen.totalsByCategory es))
        <-> k <> lit "__proto__"
            /\ exists e, In e es
                         /\ Screen.categoryOr (lit "Uncategorized") e = k)
  /\ List.length (Object_values (Screen.totalsByCategory es))
     = List.length (Object_keys (Screen.totalsByCategory es))
  /\ NoDup (Object_keys (Chart.totalsByCategory es))
  /\ (forall k,
        In k (Object_keys (Chart.totalsByCategory es))
        <-> k <> lit "__proto__"
            /\ exists e, In e es /\ Screen.categoryOr (lit "Other") e = k)
  /\ List.length (Object_values (Chart.totalsByCategory es))
     = List.length (Object_keys (Chart.totalsByCategory es)).
Proof.
  pose proof (Object_keys_of_fold
                (Screen.categoryOr (lit "Uncategorized"))
                (fun m (e : expense num) =>
                   orZeroPlus
                     (Get m (Screen.categoryOr (lit "Uncategorized") e))
                     (Number (orZero (Store.amount e)))) es) as [N1 K1].
  pose proof (Object_keys_of_fold
                (Screen.categoryOr (lit "Other"))
                (fun m (e : expense num) =>
                   orZeroPlus (Get m (Screen.categoryOr (lit "Other") e))
                     (Number (Store.amount e))) es) as [N2 K2].
  split; [exact N1|]. split; [exact K1|].
  split; [apply keys_values_length|].
  split; [exact N2|]. split; [exact K2 | apply keys_values_length].
Qed.

(* ================================================================== *)
(** * The chart data of the first screen *)

Section LegacyChart.

Context {num : Type} `{Arith num}.

Lemma fold_left_ext_In {A B} (f g : A -> B -> A) l a :
  (forall a b, In b l -> f a b = g a b) -> fold_left f l a = fold_left g l a.
Proof.
  revert a. induction l as [|b l IH]; intros a Hfg; simpl; [reflexivity|].
  rewrite Hfg by (left; reflexivity). apply IH.
  intros a' b' Hb. apply Hfg. right. exact Hb.
Qed.

Lemma orZeroPlusValue_Number (x : lookup num) (v : jsval num) :
  (forall t, v <> JStr t) ->
  Legacy.orZeroPlusValue x v = orZeroPlus x (Number v).
Proof.
  intro Hv. unfold Legacy.orZeroPlusValue, orZeroPlus, Number.
  destruct x as [|[m|]|]; destruct v as [| |b|t]; try reflexivity;
    exfalso; apply (Hv t); reflexivity.
Qed.

Lemma chartTotals_chart (es : list (expense num)) :
  Forall (fun e => (exists c, Store.category e = Some c /\ c <> [])
                   /\ forall t, Store.amount e <> JStr t) es ->
  Legacy.chartTotals es = Chart.totalsByCategory es.
Proof.
  intro F. unfold Legacy.chartTotals, Chart.totalsByCategory.
  apply fold_left_ext_In. intros o e He. cbv zeta.
  rewrite Forall_forall in F. destruct (F e He) as [[c [Ec Hc]] Hv].
  assert (K : Legacy.keyOf (Store.category e)
              = Screen.categoryOr (lit "Other") e).
  { unfold Legacy.keyOf, Screen.categoryOr. rewrite Ec.
    apply isEmpty_false_iff in Hc. rewrite Hc. reflexivity. }
  rewrite K, (orZeroPlusValue_Number _ _ Hv). reflexivity.
Qed.

End LegacyChart.

(** X11.  The chart data of the first screen and the per-category totals
    of the chart screen are the same whenever every record has a
    non-empty category and no amount is a string: same labels in the same
    order, same values.  For every list of records, whatever it holds,
    the labels of the first screen's chart are pairwise distinct and
    there is one value per label. *)
Theorem X11_legacy_chart_agrees {num : Type} `{Arith num}
  (es : list (expense num)) :
  (Forall (fun e => (exists c, Store.category e = Some c /\ c <> [])
                    /\ forall t, Store.amount e <> JStr t) es ->
   Legacy.transformExpensesForChart es
   = (Object_keys (Chart.totalsByCategory es),
      Object_values (Chart.totalsByCategory es)))
  /\ NoDup (fst (Legacy.transformExpensesForChart es))
  /\ List.length (snd (Legacy.transformExpensesForChart es))
     = List.length (fst (Legacy.transformExpensesForChart es)).
Proof.
  unfold Legacy.transformExpensesForChart. cbv zeta. cbn [fst snd].
  split; [intro F; rewrite (chartTotals_chart es F); reflexivity|].
  split; [|apply keys_values_length].
  apply (Object_keys_of_fold
           (fun e : expense num => Legacy.keyOf (Store.category e))
           (fun m e =>
              Legacy.orZeroPlusValue
                (Get m (Legacy.keyOf (Store.category e))) (Store.amount e))
           es).
Qed.

Lemma X11_witness :
  Legacy.transformExpensesForChart foodAndRent
  = (Object_keys (Chart.totalsByCategory foodAndRent),
     Object_values (Chart.totalsByCategory foodAndRent)).
Proof.
  apply (X11_legacy_chart_agrees foodAndRent).
  repeat constructor; try (eexists; split; [reflexivity | discriminate]);
    intros t; discriminate.
Defined.

(* ================================================================== *)
(** * Today's date and the filters *)

Section Today.

Lemma plausible_year clock :
  plausibleClock clock -> 0 <= YearFromTime clock <= 9999.
Proof.
  intro Hc. unfold plausibleClock in Hc. unfold YearFromTime.
  apply year_range_of_day.
  change (DayFromYear 0) with (-719528).
  change (DayFromYear 10000) with 2932897.
  unfold Day, msPerDay. Z.div_mod_to_equations. lia.
Qed.

Lemma MonthFromTime_day t u : Day t = Day u -> MonthFromTime t = MonthFromTime u.
Proof.
  intro E. unfold MonthFromTime, DayWithinYear, InLeapYear.
  rewrite (YearFromTime_day t u E), E. reflexivity.
Qed.

Lemma Day_of_midnight n k : 0 <= k < msPerDay -> Day (n * msPerDay + k) = n.
Proof. unfold Day, msPerDay. intro. Z.div_mod_to_equations. lia. Qed.

(** Today's date, read back by the classifiers, when the local day is
    the UTC day. *)
Lemma today_in_week_and_month P clock :
  plausibleClock clock -> 0 <= LocalTZA P < msPerDay ->
  Day (LocalTime P clock) = Day clock ->
  Screen.isInCurrentWeek P clock (Some (Screen.formatDateForDb clock)) = true
  /\ Screen.isInCurrentMonth P clock (Some (Screen.formatDateForDb clock))
     = true.
Proof.
  intros Hc Hz Hd. pose proof (plausible_year clock Hc) as Hy.
  unfold Screen.formatDateForDb. rewrite (slice_toISOString clock Hy).
  assert (Hn : dateText clock <> []) by apply isoDate_nonempty.
  pose proof (Date_of_string_dateText P clock Hy) as Hp.
  split.
  - apply week_iff; [exact Hc|]. split; [exact Hn|].
    exists (Day clock * msPerDay). split; [exact Hp|].
    pose proof (mondayDay_is_monday P clock) as [_ Hm].
    rewrite weekEnd_eq. unfold weekStart, UTC, MakeDate.
    rewrite Hd in Hm. unfold msPerDay in *. lia.
  - apply month_iff. split; [exact Hn|].
    exists (Day clock * msPerDay). split; [exact Hp|].
    assert (E : Day (LocalTime P (Day clock * msPerDay))
                = Day (LocalTime P clock)).
    { rewrite Hd. unfold LocalTime. apply Day_of_midnight. exact Hz. }
    split; [apply YearFromTime_day | apply MonthFromTime_day]; exact E.
Qed.

End Today.

(** X10.  An expense added with the date left blank shows at once under
    "This Week" and "This Month", provided the host's offset from UTC is
    not negative and below a day and the local calendar day is the UTC
    day at the moment of the submit: whichever filter is chosen, the new
    row is in the filtered list computed at that moment.  (The clock is
    between 1970 and 9999.) *)
Theorem X10_blank_date_shows_this_week P clock s w f :
  plausibleClock clock -> 0 <= LocalTZA P < msPerDay ->
  Day (LocalTime P clock) = Day clock ->
  accepted s = true -> Screen.editingId s = None ->
  isEmpty (trim (Screen.date s)) = true ->
  In (written clock s (nextId (database w)))
    (Screen.filteredExpenses P clock
       (Session.setFilter f (fst (Screen.handleSubmit clock s w)))).
Proof.
  intros Hc Hz Hd A E B.
  destruct (today_in_week_and_month P clock Hc Hz Hd) as [Wk Mo].
  rewrite (handleSubmit_accepted clock s w A), E.
  unfold Screen.loadExpenses, Screen.filteredExpenses, Session.setFilter.
  cbn [getAllAsync runAsync fst snd database Screen.expenses Screen.filter].
  rewrite selectAll_insert. fold (written clock s (nextId (database w))).
  assert (D : Store.date (written clock s (nextId (database w)))
              = Some (Screen.formatDateForDb clock)).
  { unfold written, setFields, dateOrToday. cbn [Store.date]. rewrite B.
    reflexivity. }
  destruct f.
  - left. reflexivity.
  - apply filter_In. split; [left; reflexivity|]. rewrite D. exact Wk.
  - apply filter_In. split; [left; reflexivity|]. rewrite D. exact Mo.
Qed.

Lemma X10_witness :
  In (written wednesday (form "7" "Bus" "" "" None) (nextId (database twoRows)))
    (Screen.filteredExpenses east wednesday
       (Session.setFilter Screen.WEEK
          (fst (Screen.handleSubmit wednesday (form "7" "Bus" "" "" None)
                  twoRows)))).
Proof.
  apply (X10_blank_date_shows_this_week east wednesday
           (form "7" "Bus" "" "" None) twoRows Screen.WEEK).
  - unfold plausibleClock, wednesday. lia.
  - vm_compute. split; [discriminate | reflexivity].
  - vm_compute. reflexivity.
  - vm_compute. reflexivity.
  - reflexivity.
  - vm_compute. reflexivity.
Defined.

(** X12.  The chart screen's submit differs from the filter screen's
    only in what it stores for the category and the note and in reading
    the id 0 as "no id".  When the category field has no white space at
    its ends, the note field is non-empty with none either, and the id
    being edited is not 0, the two handlers do the same: same checks,
    same statement, same form and list afterwards. *)
Theorem X12_chart_submit_agrees clock s w :
  trim (Screen.category s) = Screen.category s ->
  trimmed (Screen.note s) = true ->
  Screen.editingId s <> Some 0 ->
  Chart.handleSubmit clock s w = Screen.handleSubmit clock s w.
Proof.
  intros C N Z0. destruct (accepted s) eqn:A.
  - rewrite (chart_handleSubmit_accepted clock s w A),
      (handleSubmit_accepted clock s w A).
    apply trimmed_spec in N. destruct N as [N1 N2].
    unfold noteOrNull. rewrite N2, C. apply isEmpty_false_iff in N1.
    rewrite N1. destruct (Screen.editingId s) as [i|]; [|reflexivity].
    destruct (i =? 0) eqn:Ei; [|reflexivity].
    apply Z.eqb_eq in Ei. subst i. congruence.
  - rewrite (chart_handleSubmit_rejected clock s w A),
      (handleSubmit_rejected clock s w A). reflexivity.
Qed.

Lemma X12_witness :
  Chart.handleSubmit wednesday (form "7" "Bus" "to campus" "" None) twoRows
  = Screen.handleSubmit wednesday (form "7" "Bus" "to campus" "" None)
      twoRows.
Proof.
  apply (X12_chart_submit_agrees wednesday
           (form "7" "Bus" "to campus" "" None) twoRows).
  - vm_compute. reflexivity.
  - vm_compute. reflexivity.
  - discriminate.
Defined.

(** X13.  The two later screens filter alike.  The month classifier of
    the chart screen has no check for an unparsable date, yet it gives
    the same answer as the one that has it, for every stored date
    (missing, empty, unparsable or not), every clock and every host; so
    do the week classifiers; and the filtered lists are equal under each
    of the three filters. *)
Theorem X13_filters_agree P clock s :
  (forall dateStr,
      Chart.isInCurrentMonth P clock dateStr
      = Screen.isInCurrentMonth P clock dateStr)
  /\ (forall dateStr,
         Chart.isInCurrentWeek P clock dateStr
         = Screen.isInCurrentWeek P clock dateStr)
  /\ Chart.filteredExpenses P clock s = Screen.filteredExpenses P clock s.
Proof.
  split; [apply month_chart_eq|]. split; [apply week_chart_eq|].
  unfold Chart.filteredExpenses, Screen.filteredExpenses.
  destruct (Screen.filter s); [reflexivity | |]; apply filter_ext; intro e.
  - apply week_chart_eq.
  - apply month_chart_eq.
Qed.

(** X14.  The first screen saves whenever amount, category and date are
    non-empty, and shows the new row first.  The row holds the category,
    the note and the date exactly as typed, and as amount what the table
    returns for the number [parseFloat] makes of the text: NULL when that
    is NaN, 0 when it is a zero of either sign, the number itself
    otherwise.  The four fields are cleared. *)
Theorem X14_legacy_save_heads_the_list s w :
  isEmpty (Legacy.amount s) = false -> isEmpty (Legacy.category s) = false ->
  isEmpty (Legacy.date s) = false ->
  let new :=
    setFields (parseFloat (Legacy.amount s)) (Legacy.category s)
      (Some (Legacy.note s)) (Legacy.date s) (nextId (database w)) in
  Legacy.expenses (fst (Legacy.saveExpense s w)) = new :: selectAll (database w)
  /\ rows (database (snd (Legacy.saveExpense s w)))
     = rows (database w) ++ [new]
  /\ (Store.amount new = JNull
      <-> is_nan (parseFloat (Legacy.amount s)) = true)
  /\ (is_zero (parseFloat (Legacy.amount s)) = true ->
      Store.amount new = JNum 0%float)
  /\ (is_nan (parseFloat (Legacy.amount s)) = false ->
      is_zero (parseFloat (Legacy.amount s)) = false ->
      Store.amount new = JNum (parseFloat (Legacy.amount s)))
  /\ Legacy.amount (fst (Legacy.saveExpense s w)) = []
  /\ Legacy.category (fst (Legacy.saveExpense s w)) = []
  /\ Legacy.note (fst (Legacy.saveExpense s w)) = []
  /\ Legacy.date (fst (Legacy.saveExpense s w)) = [].
Proof.
  intros A C D. cbv zeta. unfold Legacy.saveExpense. rewrite A, C, D.
  cbn [orb]. cbv zeta. unfold Legacy.loadExpenses.
  cbn [getAllAsync runAsync fst snd database Legacy.expenses Legacy.amount
       Legacy.category Legacy.note Legacy.date].
  split; [apply selectAll_insert|]. split; [reflexivity|].
  unfold setFields, bindReal. cbn [Store.amount].
  split; [|split; [|split; [|repeat split; reflexivity]]].
  - destruct (is_nan (parseFloat (Legacy.amount s)));
      [|destruct (is_zero (parseFloat (Legacy.amount s)))];
      split; intro H; try reflexivity; discriminate H.
  - intro Z. rewrite Z.
    destruct (is_nan (parseFloat (Legacy.amount s))) eqn:N; [|reflexivity].
    unfold is_nan in N. apply negb_true_iff in N.
    unfold is_zero in Z. change PrimFloat.zero with 0%float in Z.
    rewrite eqb_spec in N, Z. unfold SFeqb in N, Z.
    change (Prim2SF 0) with (S754_zero false) in Z.
    destruct (Prim2SF (parseFloat (Legacy.amount s))) as [sg|sg| |sg m e];
      try destruct sg; cbn in N, Z; discriminate.
  - intros N Z. rewrite N, Z. reflexivity.
Qed.

Lemma X14_witness :
  Legacy.expenses
    (fst (Legacy.saveExpense (legacyForm "-0" "Food" "" "2024-01-17")
            twoRows))
  = {| id := 3; amount := JNum 0%float; category := Some (lit "Food");
       note := Some []; date := Some (lit "2024-01-17") |} :: [rent; lunch].
Proof.
  destruct (X14_legacy_save_heads_the_list
              (legacyForm "-0" "Food" "" "2024-01-17") twoRows)
    as [H _]; [reflexivity | reflexivity | reflexivity |].
  rewrite H. vm_compute. reflexivity.
Defined.

(* ================================================================== *)
(** * The table of the screen with the chart *)

Section ChartTable.

Lemma exec_Forall (Q : expense float -> Prop) stmt d :
  (forall a c n dt, stmt = INSERT a c n dt ->
                    Q (setFields a c n dt (nextId d))) ->
  (forall a c n dt i r, stmt = UPDATE a c n dt i -> In r (rows d) ->
                        id r = i -> Q r -> Q (setFields a c n dt i)) ->
  Forall Q (rows d) -> Forall Q (rows (exec stmt d)).
Proof.
  intros VI VU F. destruct stmt as [a c n dt|a c n dt i|i|]; simpl.
  - apply Forall_app. split; [exact F|]. constructor; [|constructor].
    apply VI. reflexivity.
  - apply Forall_forall. intros r Hr. apply in_map_iff in Hr.
    destruct Hr as [x [E Hx]]. rewrite Forall_forall in F.
    destruct (id x =? i) eqn:Ei.
    + subst r. apply Z.eqb_eq in Ei.
      apply (VU a c n dt i x eq_refl Hx Ei (F x Hx)).
    + subst r. apply F, Hx.
  - apply Forall_forall. intros r Hr. apply filter_In in Hr.
    rewrite Forall_forall in F. apply F, Hr.
  - exact F.
Qed.

Lemma chart_written_row clock s i :
  accepted s = true ->
  chartRow (setFields (parseFloat (Screen.amount s)) (Screen.category s)
              (Some (Screen.note s)) (dateOrToday clock s) i) = true.
Proof.
  intro A. apply accepted_spec in A. destruct A as [A1 [A2 A3]].
  unfold chartRow, setFields, aboveZero.
  cbn [Store.amount Store.category Store.note Store.date].
  rewrite (bindReal_above _ A1 A2), A1, A2, A3, dateOrToday_trimmed.
  reflexivity.
Qed.

Lemma chartOk_exec stmt d :
  (forall a c n dt i, stmt = UPDATE a c n dt i \/ stmt = INSERT a c n dt ->
                      chartRow (setFields a c n dt i) = true) ->
  chartOk d -> chartOk (exec stmt d).
Proof.
  intros V [K [S F]]. split; [apply exec_keyed, K|].
  split; [pose proof (exec_seq stmt d); lia|].
  apply exec_Forall; [| |exact F].
  - intros a c n dt E. split; [apply V; right; exact E|].
    cbn [setFields id]. pose proof (nextId_seq d). lia.
  - intros a c n dt i r E Hr Ei [_ Hp]. split; [apply V; left; exact E|].
    cbn [setFields id]. lia.
Qed.

End ChartTable.

(** X15.  The chart screen keeps its table sound.  If ids are distinct,
    positive and not above the AUTOINCREMENT counter, and every row has
    an amount above zero, a category that is not blank, a note that is
    not NULL and a non-empty trimmed date, then the same holds after
    [handleSubmit], whatever the form holds, and after [deleteExpense];
    and the list shown after a delete, or after a submit that passed the
    checks, is the table read newest first. *)
Theorem X15_chart_keeps_table_sound clock s w i :
  chartOk (database w) ->
  chartOk (database (snd (Chart.handleSubmit clock s w)))
  /\ chartOk (database (snd (Chart.deleteExpense i s w)))
  /\ inSync (Chart.deleteExpense i s w)
  /\ (accepted s = true -> inSync (Chart.handleSubmit clock s w))
  /\ (accepted s = false -> Chart.handleSubmit clock s w = (s, w)).
Proof.
  intro T. split; [|split; [|split; [|split]]].
  - destruct (accepted s) eqn:A.
    + rewrite (chart_handleSubmit_accepted clock s w A).
      unfold Screen.loadExpenses. cbn [getAllAsync runAsync snd database].
      apply chartOk_exec; [|exact T]. intros a c n dt j H.
      destruct (Screen.editingId s) as [k|]; [destruct (k =? 0)|];
        destruct H as [H|H]; inversion H; subst;
        apply (chart_written_row clock s j A).
    + rewrite (chart_handleSubmit_rejected clock s w A). exact T.
  - unfold Chart.deleteExpense, Screen.loadExpenses.
    cbn [getAllAsync runAsync snd database].
    apply chartOk_exec; [|exact T]. intros a c n dt j [H|H]; discriminate H.
  - reflexivity.
  - intro A. rewrite (chart_handleSubmit_accepted clock s w A). reflexivity.
  - apply chart_handleSubmit_rejected.
Qed.

Lemma X15_witness :
  chartOk
    (database
       (snd (Chart.handleSubmit wednesday (form "7" " Bus" "" "" None)
               emptyWorld))).
Proof.
  apply (X15_chart_keeps_table_sound wednesday (form "7" " Bus" "" "" None)
           emptyWorld 0).
  split; [split|split]; simpl; try constructor. lia.
Defined.
